(** * LevelUpLife: the user controller

    A shallow embedding of [leveluplife/controllers/user.py]: the attribute
    table [calculate_initial_stats], the two join-result aggregators
    [_construct_user_view] and [_construct_user_views], and the operations of
    [UserController] over an explicit model of the SQL session. *)

From Stdlib Require Import List Bool Arith NArith ZArith String Lia Sorted.
From Stdlib Require OrderedTypeEx.
Import ListNotations.

Set Implicit Arguments.

(** ** Python-side building blocks *)

(** [uuid.UUID]: an opaque identifier, only ever compared for equality. *)
Definition UUID := N.

(** Exceptions that leave the controller. *)
Inductive exn :=
| UserNotFoundError (user_id : UUID)
| UserUsernameNotFoundError (user_username : string)
| UserEmailNotFoundError (user_email : string)
| UserEmailAlreadyExistsError (email : string)
| UserUsernameAlreadyExistsError (username : string)
| ItemLinkToUserNotFoundError (item_id : UUID)
| NoResultFound
| MultipleResultsFound
| IndexError
| AttributeError.

Inductive result (A : Type) :=
| Ok (a : A)
| Raise (e : exn).
Arguments Ok {A} a.
Arguments Raise {A} e.

Definition bind {A B} (m : result A) (k : A -> result B) : result B :=
  match m with
  | Ok a => k a
  | Raise e => Raise e
  end.

Notation "x <- m ;; k" := (bind m (fun x => k))
  (at level 61, m at next level, right associativity).

(** A Python [dict]: keys are unique and iteration follows insertion order. *)
Module Dict.
Section Defs.
Variables K V : Type.
Variable eqb : K -> K -> bool.

Definition t := list (K * V).

Definition empty : t := [].

(** [k in d] *)
Fixpoint mem (k : K) (d : t) : bool :=
  match d with
  | [] => false
  | (k', _) :: d' => eqb k k' || mem k d'
  end.

(** [d[k] = v]: an existing key keeps its position, a new one goes last. *)
Fixpoint set (k : K) (v : V) (d : t) : t :=
  match d with
  | [] => [(k, v)]
  | (k', v') :: d' => if eqb k k' then (k', v) :: d' else (k', v') :: set k v d'
  end.

(** In-place mutation of the object stored under [k]. *)
Fixpoint adjust (k : K) (f : V -> V) (d : t) : t :=
  match d with
  | [] => []
  | (k', v') :: d' => if eqb k k' then (k', f v') :: d' else (k', v') :: adjust k f d'
  end.

Definition keys (d : t) : list K := map fst d.
Definition values (d : t) : list V := map snd d.
End Defs.
End Dict.

(** Keep, for every key, the first element carrying it. *)
Fixpoint dedup_first {A K} (eqb : K -> K -> bool) (key : A -> K) (l : list A) : list A :=
  match l with
  | [] => []
  | x :: l' => x :: filter (fun y => negb (eqb (key y) (key x))) (dedup_first eqb key l')
  end.

(** The order in which the distinct elements of [l] first occur. *)
Definition first_occurrences {K} (eqb : K -> K -> bool) (l : list K) : list K :=
  dedup_first eqb (fun k => k) l.

Fixpoint collect {A B} (f : A -> option B) (l : list A) : list B :=
  match l with
  | [] => []
  | a :: l' => match f a with
               | Some b => b :: collect f l'
               | None => collect f l'
               end
  end.

Definition pair_eqb (a b : UUID * UUID) : bool :=
  N.eqb (fst a) (fst b) && N.eqb (snd a) (snd b).

(** ** Tables and views

    The table, relationship and view classes are declared in
    [leveluplife.models], outside this module; the records below carry the
    attributes the controller reads and the specification lists. *)

Inductive Tribe := NOSFERATI | VALHARS | SAHARANS | GLIMMERKINS.

(** What a [tribe] attribute may hold at run time: a member of the enum,
    [None], or any other object. *)
Inductive tribe_value :=
| TribeMember (t : Tribe)
| TribeNone
| TribeOther (repr : string).

Record User := {
  user_id : UUID;
  user_username : string;
  user_email : string;
  user_password : string;
  user_tribe : tribe_value;
  user_intelligence : Z;
  user_strength : Z;
  user_agility : Z;
  user_wise : Z;
  user_psycho : Z
}.

Record UserItemLink := {
  uil_user_id : UUID;
  uil_item_id : UUID;
  uil_equipped : bool
}.

Record Item := {
  item_id : UUID;
  item_name : string
}.

Record UserQuestLink := {
  uql_user_id : UUID;
  uql_quest_id : UUID;
  uql_quest_start : Z;
  uql_quest_end : option Z;
  uql_status : string
}.

Record Quest := {
  quest_id : UUID;
  quest_name : string
}.

(** [Task], [Rating], [Comment] and [Reaction]: each row is owned by one
    user and carries nothing of the relationship. *)
Record Owned := {
  owned_id : UUID;
  owned_user_id : UUID;
  owned_body : string
}.

Definition Task := Owned.
Definition Rating := Owned.
Definition Comment := Owned.
Definition Reaction := Owned.

(** Values of the columns of [User], as [model_dump] returns them. *)
Inductive Value :=
| VUuid (u : UUID)
| VStr (s : string)
| VInt (z : Z)
| VTribe (t : tribe_value).

Definition kwargs := list (string * Value).

(** [user.model_dump()] *)
Definition user_model_dump (u : User) : kwargs :=
  [ ("id", VUuid (user_id u));
    ("username", VStr (user_username u));
    ("email", VStr (user_email u));
    ("password", VStr (user_password u));
    ("tribe", VTribe (user_tribe u));
    ("intelligence", VInt (user_intelligence u));
    ("strength", VInt (user_strength u));
    ("agility", VInt (user_agility u));
    ("wise", VInt (user_wise u));
    ("psycho", VInt (user_psycho u)) ]%string.

(** [user.model_dump(exclude=names)] *)
Definition user_model_dump_exclude (names : list string) (u : User) : kwargs :=
  filter (fun kv => negb (existsb (String.eqb (fst kv)) names)) (user_model_dump u).

(** [ItemUserView]: the item's dump plus the link's [equipped]. *)
Record ItemUserView := {
  iuv_id : UUID;
  iuv_name : string;
  iuv_equipped : bool
}.

(** [QuestUserView]: the quest's dump plus the link's [quest_start],
    [quest_end] and [status]; only the single-user path passes [user_id]. *)
Record QuestUserView := {
  quv_id : UUID;
  quv_name : string;
  quv_user_id : option UUID;
  quv_quest_start : Z;
  quv_quest_end : option Z;
  quv_status : string
}.

(** [TaskView], [RatingView], [CommentView], [ReactionView]. *)
Record OwnedView := {
  ov_id : UUID;
  ov_user_id : UUID;
  ov_body : string
}.

Definition TaskView := OwnedView.
Definition RatingView := OwnedView.
Definition CommentView := OwnedView.
Definition ReactionView := OwnedView.

(** [UserView]: the keyword arguments taken from the user's dump and the
    six collections. *)
Record UserView := {
  uv_fields : kwargs;
  uv_items : list ItemUserView;
  uv_tasks : list TaskView;
  uv_ratings : list RatingView;
  uv_comments : list CommentView;
  uv_reactions : list ReactionView;
  uv_quests : list QuestUserView
}.

Definition mk_item_view (i : Item) (l : UserItemLink) : ItemUserView :=
  {| iuv_id := item_id i; iuv_name := item_name i; iuv_equipped := uil_equipped l |}.

Definition mk_quest_view (q : Quest) (uid : option UUID) (l : UserQuestLink) : QuestUserView :=
  {| quv_id := quest_id q; quv_name := quest_name q; quv_user_id := uid;
     quv_quest_start := uql_quest_start l; quv_quest_end := uql_quest_end l;
     quv_status := uql_status l |}.

Definition mk_owned_view (o : Owned) : OwnedView :=
  {| ov_id := owned_id o; ov_user_id := owned_user_id o; ov_body := owned_body o |}.

(** The value a view holds under a field name, and the id it was built for. *)
Fixpoint kwargs_get (name : string) (kw : kwargs) : option Value :=
  match kw with
  | [] => None
  | (n, v) :: kw' => if String.eqb name n then Some v else kwargs_get name kw'
  end.

Definition view_user_id (v : UserView) : option UUID :=
  match kwargs_get "id" (uv_fields v) with
  | Some (VUuid u) => Some u
  | _ => None
  end.

Definition view_is_for (pid : UUID) (v : UserView) : bool :=
  match view_user_id v with
  | Some u => N.eqb u pid
  | None => false
  end.

(** ** [calculate_initial_stats] *)

Definition stats (i s a w p : Z) : list (string * Z) :=
  [ ("intelligence", i); ("strength", s); ("agility", a); ("wise", w); ("psycho", p) ]%string.

Definition calculate_initial_stats (tribe : tribe_value) : list (string * Z) :=
  match tribe with
  | TribeMember NOSFERATI => stats 8 2 2 1 10
  | TribeMember VALHARS => stats 1 10 6 6 2
  | TribeMember SAHARANS => stats 9 2 3 10 1
  | TribeMember GLIMMERKINS => stats 10 2 2 7 4
  | _ => stats 5 5 5 5 5
  end.

(** ** Joined rows *)

(** A row of [select(User, UserItemLink, Item, UserQuestLink, Quest)]. *)
Record Row5 := {
  r5_user : User;
  r5_link : option UserItemLink;
  r5_item : option Item;
  r5_quest_link : option UserQuestLink;
  r5_quest : option Quest
}.

(** A row of [select(User, UserItemLink, Item, Task, Rating, Comment,
    Reaction, UserQuestLink, Quest)]. *)
Record Row9 := {
  r9_user : User;
  r9_link : option UserItemLink;
  r9_item : option Item;
  r9_task : option Task;
  r9_rating : option Rating;
  r9_comment : option Comment;
  r9_reaction : option Reaction;
  r9_quest_link : option UserQuestLink;
  r9_quest : option Quest
}.

(** ** The session

    The state behind [self.session]: one list of rows per table. *)
Record Session := {
  db_users : list User;
  db_user_item_links : list UserItemLink;
  db_items : list Item;
  db_tasks : list Task;
  db_ratings : list Rating;
  db_comments : list Comment;
  db_reactions : list Reaction;
  db_user_quest_links : list UserQuestLink;
  db_quests : list Quest
}.

(** [.one()], [.first()] *)
Definition one {A} (rows : list A) : result A :=
  match rows with
  | [] => Raise NoResultFound
  | [a] => Ok a
  | _ => Raise MultipleResultsFound
  end.

Definition first {A} (rows : list A) : option A :=
  match rows with
  | [] => None
  | a :: _ => Some a
  end.

(** [.join(T, cond, isouter=True)]: the matching rows of [T], or one null. *)
Definition outer {A} (matches : list A) : list (option A) :=
  match matches with
  | [] => [None]
  | _ => map Some matches
  end.

Definition owned_by (u : User) (rows : list Owned) : list Owned :=
  filter (fun o => N.eqb (owned_user_id o) (user_id u)) rows.

Definition links_of (s : Session) (u : User) : list UserItemLink :=
  filter (fun l => N.eqb (user_id u) (uil_user_id l)) (db_user_item_links s).

Definition items_of (s : Session) (ol : option UserItemLink) : list Item :=
  match ol with
  | Some l => filter (fun i => N.eqb (uil_item_id l) (item_id i)) (db_items s)
  | None => []
  end.

Definition quest_links_of (s : Session) (u : User) : list UserQuestLink :=
  filter (fun l => N.eqb (user_id u) (uql_user_id l)) (db_user_quest_links s).

Definition quests_of (s : Session) (ol : option UserQuestLink) : list Quest :=
  match ol with
  | Some l => filter (fun q => N.eqb (uql_quest_id l) (quest_id q)) (db_quests s)
  | None => []
  end.

(** The rows the items-and-quests join contributes for one user. *)
Definition join5_user (s : Session) (u : User) : list Row5 :=
  flat_map (fun ol =>
  flat_map (fun oi =>
  flat_map (fun oql =>
  map (fun oq => Build_Row5 u ol oi oql oq)
      (outer (quests_of s oql)))
      (outer (quest_links_of s u)))
      (outer (items_of s ol)))
      (outer (links_of s u)).

(** [select(User, UserItemLink, Item, UserQuestLink, Quest).join(...)
    .where(cond)] followed by [.all()]. *)
Definition select_join5 (s : Session) (cond : User -> bool) : list Row5 :=
  filter (fun r => cond (r5_user r)) (flat_map (join5_user s) (db_users s)).

(** The rows the full join contributes for one user. *)
Definition join9_user (s : Session) (u : User) : list Row9 :=
  flat_map (fun ol =>
  flat_map (fun oi =>
  flat_map (fun ot =>
  flat_map (fun ora =>
  flat_map (fun oc =>
  flat_map (fun ore =>
  flat_map (fun oql =>
  map (fun oq => Build_Row9 u ol oi ot ora oc ore oql oq)
      (outer (quests_of s oql)))
      (outer (quest_links_of s u)))
      (outer (owned_by u (db_reactions s))))
      (outer (owned_by u (db_comments s))))
      (outer (owned_by u (db_ratings s))))
      (outer (owned_by u (db_tasks s))))
      (outer (items_of s ol)))
      (outer (links_of s u)).

Definition select_join9 (s : Session) : list Row9 :=
  flat_map (join9_user s) (db_users s).

(** [.order_by(User.username)]: a stable sort on the username column. *)
Fixpoint insert_by_username (r : Row9) (rows : list Row9) : list Row9 :=
  match rows with
  | [] => [r]
  | x :: rows' =>
      if String.leb (user_username (r9_user r)) (user_username (r9_user x))
      then r :: rows
      else x :: insert_by_username r rows'
  end.

Fixpoint order_by_username (rows : list Row9) : list Row9 :=
  match rows with
  | [] => []
  | r :: rows' => insert_by_username r (order_by_username rows')
  end.

(** ** [_construct_user_view] *)

(** The comprehension over the joined rows that builds [user_items]: rows
    without an item are skipped, the others read [user_item_link.equipped]. *)
Fixpoint user_items (rows : list Row5) : result (list ItemUserView) :=
  match rows with
  | [] => Ok []
  | r :: rows' =>
      match r5_item r with
      | None => user_items rows'
      | Some item =>
          match r5_link r with
          | None => Raise AttributeError
          | Some user_item_link =>
              vs <- user_items rows' ;; Ok (mk_item_view item user_item_link :: vs)
          end
      end
  end.

(** The comprehension that builds [user_quests]; [user] is the user of the
    first row. *)
Fixpoint user_quests (user : User) (rows : list Row5) : result (list QuestUserView) :=
  match rows with
  | [] => Ok []
  | r :: rows' =>
      match r5_quest r with
      | None => user_quests user rows'
      | Some quest =>
          match r5_quest_link r with
          | None => Raise AttributeError
          | Some user_quest_link =>
              vs <- user_quests user rows' ;;
              Ok (mk_quest_view quest (Some (user_id user)) user_quest_link :: vs)
          end
      end
  end.

(** [user.tasks], [user.ratings], [user.comments] and [user.reactions] are
    relationship attributes: the session loads the rows the user owns. *)
Definition _construct_user_view (s : Session) (rows : list Row5) : result UserView :=
  match rows with
  | [] => Raise IndexError
  | row0 :: _ =>
      let user := r5_user row0 in
      items <- user_items rows ;;
      quests <- user_quests user rows ;;
      Ok {| uv_fields := user_model_dump_exclude ["password"%string] user;
            uv_items := items;
            uv_quests := quests;
            uv_tasks := map mk_owned_view (owned_by user (db_tasks s));
            uv_ratings := map mk_owned_view (owned_by user (db_ratings s));
            uv_comments := map mk_owned_view (owned_by user (db_comments s));
            uv_reactions := map mk_owned_view (owned_by user (db_reactions s)) |}
  end.

(** ** [_construct_user_views] *)

(** The per-user accumulator stored in [users]. *)
Record UserData := {
  ud_user : User;
  ud_items : Dict.t (UUID * UUID) ItemUserView;
  ud_tasks : Dict.t UUID TaskView;
  ud_ratings : Dict.t UUID RatingView;
  ud_comments : Dict.t UUID CommentView;
  ud_reactions : Dict.t UUID ReactionView;
  ud_quests : Dict.t (UUID * UUID) QuestUserView
}.

Definition new_user_data (user : User) : UserData :=
  {| ud_user := user;
     ud_items := Dict.empty _ _;
     ud_tasks := Dict.empty _ _;
     ud_ratings := Dict.empty _ _;
     ud_comments := Dict.empty _ _;
     ud_reactions := Dict.empty _ _;
     ud_quests := Dict.empty _ _ |}.

(** [if k not in d: d[k] = v] *)
Definition insert_unseen {K V} (eqb : K -> K -> bool) (k : K) (v : V)
    (d : Dict.t K V) : Dict.t K V :=
  if Dict.mem eqb k d then d else Dict.set eqb k v d.

Definition add_item (k : UUID * UUID) (v : ItemUserView) (ud : UserData) : UserData :=
  {| ud_user := ud_user ud;
     ud_items := insert_unseen pair_eqb k v (ud_items ud);
     ud_tasks := ud_tasks ud; ud_ratings := ud_ratings ud;
     ud_comments := ud_comments ud; ud_reactions := ud_reactions ud;
     ud_quests := ud_quests ud |}.

Definition add_task (k : UUID) (v : TaskView) (ud : UserData) : UserData :=
  {| ud_user := ud_user ud; ud_items := ud_items ud;
     ud_tasks := insert_unseen N.eqb k v (ud_tasks ud);
     ud_ratings := ud_ratings ud;
     ud_comments := ud_comments ud; ud_reactions := ud_reactions ud;
     ud_quests := ud_quests ud |}.

Definition add_rating (k : UUID) (v : RatingView) (ud : UserData) : UserData :=
  {| ud_user := ud_user ud; ud_items := ud_items ud; ud_tasks := ud_tasks ud;
     ud_ratings := insert_unseen N.eqb k v (ud_ratings ud);
     ud_comments := ud_comments ud; ud_reactions := ud_reactions ud;
     ud_quests := ud_quests ud |}.

Definition add_comment (k : UUID) (v : CommentView) (ud : UserData) : UserData :=
  {| ud_user := ud_user ud; ud_items := ud_items ud; ud_tasks := ud_tasks ud;
     ud_ratings := ud_ratings ud;
     ud_comments := insert_unseen N.eqb k v (ud_comments ud);
     ud_reactions := ud_reactions ud;
     ud_quests := ud_quests ud |}.

Definition add_reaction (k : UUID) (v : ReactionView) (ud : UserData) : UserData :=
  {| ud_user := ud_user ud; ud_items := ud_items ud; ud_tasks := ud_tasks ud;
     ud_ratings := ud_ratings ud; ud_comments := ud_comments ud;
     ud_reactions := insert_unseen N.eqb k v (ud_reactions ud);
     ud_quests := ud_quests ud |}.

Definition add_quest (k : UUID * UUID) (v : QuestUserView) (ud : UserData) : UserData :=
  {| ud_user := ud_user ud; ud_items := ud_items ud; ud_tasks := ud_tasks ud;
     ud_ratings := ud_ratings ud; ud_comments := ud_comments ud;
     ud_reactions := ud_reactions ud;
     ud_quests := insert_unseen pair_eqb k v (ud_quests ud) |}.

(** One iteration of the loop over the joined rows. *)
Definition visit_row (users : Dict.t UUID UserData) (row : Row9) : Dict.t UUID UserData :=
  let user := r9_user row in
  let uid := user_id user in
  let users :=
    if Dict.mem N.eqb uid users then users
    else Dict.set N.eqb uid (new_user_data user) users in
  let users :=
    match r9_link row, r9_item row with
    | Some user_item_link, Some item =>
        Dict.adjust N.eqb uid
          (add_item (item_id item, uid) (mk_item_view item user_item_link)) users
    | _, _ => users
    end in
  let users :=
    match r9_task row with
    | Some task => Dict.adjust N.eqb uid (add_task (owned_id task) (mk_owned_view task)) users
    | None => users
    end in
  let users :=
    match r9_rating row with
    | Some rating =>
        Dict.adjust N.eqb uid (add_rating (owned_id rating) (mk_owned_view rating)) users
    | None => users
    end in
  let users :=
    match r9_comment row with
    | Some comment =>
        Dict.adjust N.eqb uid (add_comment (owned_id comment) (mk_owned_view comment)) users
    | None => users
    end in
  let users :=
    match r9_reaction row with
    | Some reaction =>
        Dict.adjust N.eqb uid (add_reaction (owned_id reaction) (mk_owned_view reaction)) users
    | None => users
    end in
  match r9_quest_link row, r9_quest row with
  | Some user_quest_link, Some quest =>
      Dict.adjust N.eqb uid
        (add_quest (quest_id quest, uid) (mk_quest_view quest None user_quest_link)) users
  | _, _ => users
  end.

Definition view_of_user_data (user_data : UserData) : UserView :=
  {| uv_fields := user_model_dump_exclude ["password"%string] (ud_user user_data);
     uv_items := Dict.values (ud_items user_data);
     uv_tasks := Dict.values (ud_tasks user_data);
     uv_ratings := Dict.values (ud_ratings user_data);
     uv_comments := Dict.values (ud_comments user_data);
     uv_reactions := Dict.values (ud_reactions user_data);
     uv_quests := Dict.values (ud_quests user_data) |}.

Definition _construct_user_views (rows : list Row9) : list UserView :=
  map view_of_user_data (Dict.values (fold_left visit_row rows (Dict.empty _ _))).

(** ** The controller *)

(** [UserCreate], the payload of [create_user]. *)
Record UserCreate := {
  uc_username : string;
  uc_email : string;
  uc_password : string;
  uc_tribe : tribe_value
}.

Definition with_password (u : User) (password : string) : User :=
  {| user_id := user_id u; user_username := user_username u;
     user_email := user_email u; user_password := password;
     user_tribe := user_tribe u; user_intelligence := user_intelligence u;
     user_strength := user_strength u; user_agility := user_agility u;
     user_wise := user_wise u; user_psycho := user_psycho u |}.

Definition with_equipped (l : UserItemLink) (equipped : bool) : UserItemLink :=
  {| uil_user_id := uil_user_id l; uil_item_id := uil_item_id l; uil_equipped := equipped |}.

Definition with_users (s : Session) (users : list User) : Session :=
  {| db_users := users; db_user_item_links := db_user_item_links s;
     db_items := db_items s; db_tasks := db_tasks s; db_ratings := db_ratings s;
     db_comments := db_comments s; db_reactions := db_reactions s;
     db_user_quest_links := db_user_quest_links s; db_quests := db_quests s |}.

Definition with_user_item_links (s : Session) (links : list UserItemLink) : Session :=
  {| db_users := db_users s; db_user_item_links := links;
     db_items := db_items s; db_tasks := db_tasks s; db_ratings := db_ratings s;
     db_comments := db_comments s; db_reactions := db_reactions s;
     db_user_quest_links := db_user_quest_links s; db_quests := db_quests s |}.

(** [initial_stats[name]] *)
Fixpoint stat (name : string) (d : list (string * Z)) : Z :=
  match d with
  | [] => 0%Z
  | (n, z) :: d' => if String.eqb name n then z else stat name d'
  end.

Definition id_is (uid : UUID) (u : User) : bool := N.eqb (user_id u) uid.
Definition username_is (name : string) (u : User) : bool := String.eqb (user_username u) name.
Definition email_is (email : string) (u : User) : bool := String.eqb (user_email u) email.
Definition link_is (uid iid : UUID) (l : UserItemLink) : bool :=
  N.eqb (uil_user_id l) uid && N.eqb (uil_item_id l) iid.

Section Controller.

(** [leveluplife.auth.hash.get_password_hash] *)
Variable get_password_hash : string -> string.

(** Whether committing a new [User] row makes the storage signal
    [IntegrityError]; the constraints themselves belong to the schema. *)
Variable integrity_error : Session -> User -> bool.

(** The row [create_user] adds to the session: the payload, the stats of the
    tribe and the hashed password; [new_id] is the primary key it receives. *)
Definition new_user_row (new_id : UUID) (user_create : UserCreate) : User :=
  let hashing_password := get_password_hash (uc_password user_create) in
  let initial_stats := calculate_initial_stats (uc_tribe user_create) in
  let new_user :=
    {| user_id := new_id;
       user_username := uc_username user_create;
       user_email := uc_email user_create;
       user_password := uc_password user_create;
       user_tribe := uc_tribe user_create;
       user_intelligence := stat "intelligence" initial_stats;
       user_strength := stat "strength" initial_stats;
       user_agility := stat "agility" initial_stats;
       user_wise := stat "wise" initial_stats;
       user_psycho := stat "psycho" initial_stats |} in
  with_password new_user hashing_password.

Definition create_user (s : Session) (new_id : UUID) (user_create : UserCreate)
    : Session * result (option User) :=
  let new_user := new_user_row new_id user_create in
  if integrity_error s new_user then
    (* except IntegrityError: the session is rolled back *)
    match first (filter (email_is (uc_email user_create)) (db_users s)) with
    | Some _ => (s, Raise (UserEmailAlreadyExistsError (uc_email user_create)))
    | None =>
        match first (filter (username_is (uc_username user_create)) (db_users s)) with
        | Some _ => (s, Raise (UserUsernameAlreadyExistsError (uc_username user_create)))
        | None => (s, Ok None)
        end
    end
  else (with_users s (db_users s ++ [new_user]), Ok (Some new_user)).

End Controller.

(** The rows [get_users] hands to the aggregator when [offset] and [limit]
    are natural numbers; [get_users_int] below takes them as the integers
    the method receives. *)
Definition get_users_rows (s : Session) (offset limit : nat) : list Row9 :=
  firstn limit (skipn offset (order_by_username (select_join9 s))).

Definition get_users (s : Session) (offset limit : nat) : list UserView :=
  _construct_user_views (get_users_rows s offset limit).

(** [.offset(offset)] and [.limit(limit)] on Python integers, which the
    controller hands to the query unchecked.  They are read as SQLite reads
    them: a negative offset skips nothing and a negative limit does not cut. *)
Definition offset_rows {A} (offset : Z) (rows : list A) : list A :=
  skipn (Z.to_nat offset) rows.

Definition limit_rows {A} (limit : Z) (rows : list A) : list A :=
  if (limit <? 0)%Z then rows else firstn (Z.to_nat limit) rows.

(** [get_users(offset, limit)] as it is called, with integers. *)
Definition get_users_int_rows (s : Session) (offset limit : Z) : list Row9 :=
  limit_rows limit (offset_rows offset (order_by_username (select_join9 s))).

Definition get_users_int (s : Session) (offset limit : Z) : list UserView :=
  _construct_user_views (get_users_int_rows s offset limit).

Definition get_user_by_username (s : Session) (user_username : string) : result UserView :=
  match select_join5 s (username_is user_username) with
  | [] => Raise (UserUsernameNotFoundError user_username)
  | user_with_items => _construct_user_view s user_with_items
  end.

Definition get_user_by_username_with_password (s : Session) (user_username : string)
    : result User :=
  one (filter (username_is user_username) (db_users s)).

Definition get_user_by_email (s : Session) (user_email : string) : result UserView :=
  match select_join5 s (email_is user_email) with
  | [] => Raise (UserEmailNotFoundError user_email)
  | user_with_items => _construct_user_view s user_with_items
  end.

Definition get_user_by_id (s : Session) (uid : UUID) : result UserView :=
  match select_join5 s (id_is uid) with
  | [] => Raise (UserNotFoundError uid)
  | user_with_items => _construct_user_view s user_with_items
  end.

(** The assignment [db_user.password = password] followed by the commit:
    the row with that primary key is rewritten. *)
Definition store_password (s : Session) (db_user : User) (password : string) : Session :=
  with_users s
    (map (fun u => if id_is (user_id db_user) u then with_password u password else u)
         (db_users s)).

Definition update_user_password (s : Session) (uid : UUID) (password : string)
    : Session * result UserView :=
  match one (filter (id_is uid) (db_users s)) with
  | Raise NoResultFound => (s, Raise (UserNotFoundError uid))
  | Raise e => (s, Raise e)
  | Ok db_user =>
      let s' := store_password s db_user password in
      (s', _construct_user_view s' (select_join5 s' (id_is (user_id db_user))))
  end.

(** The assignment [item_link.equipped = equipped] followed by the commit. *)
Definition store_equipped (s : Session) (item_link : UserItemLink) (equipped : bool)
    : Session :=
  with_user_item_links s
    (map (fun l => if link_is (uil_user_id item_link) (uil_item_id item_link) l
                   then with_equipped l equipped else l)
         (db_user_item_links s)).

Definition equip_item_to_user (s : Session) (uid iid : UUID) (equipped : bool)
    : Session * result UserView :=
  match one (filter (id_is uid) (db_users s)) with
  | Raise NoResultFound => (s, Raise (UserNotFoundError uid))
  | Raise e => (s, Raise e)
  | Ok _ =>
      match one (filter (link_is uid iid) (db_user_item_links s)) with
      | Raise NoResultFound => (s, Raise (ItemLinkToUserNotFoundError iid))
      | Raise e => (s, Raise e)
      | Ok item_link =>
          let s' := store_equipped s item_link equipped in
          (s', get_user_by_id s' uid)
      end
  end.

(** ** Reading the aggregation row by row

    What one joined row contributes to each collection of its user, and the
    accumulator a user ends up with; these are the terms in which the
    behaviour of [_construct_user_views] is stated below. *)

Definition row_user_id (r : Row9) : UUID := user_id (r9_user r).

(** The rows of the user [pid], in input order. *)
Definition rows_of (pid : UUID) (rows : list Row9) : list Row9 :=
  filter (fun r => N.eqb pid (row_user_id r)) rows.

Definition item_entry (r : Row9) : option ((UUID * UUID) * ItemUserView) :=
  match r9_link r, r9_item r with
  | Some l, Some i => Some ((item_id i, row_user_id r), mk_item_view i l)
  | _, _ => None
  end.

Definition quest_entry (r : Row9) : option ((UUID * UUID) * QuestUserView) :=
  match r9_quest_link r, r9_quest r with
  | Some l, Some q => Some ((quest_id q, row_user_id r), mk_quest_view q None l)
  | _, _ => None
  end.

Definition owned_entry (o : option Owned) : option (UUID * OwnedView) :=
  match o with
  | Some x => Some (owned_id x, mk_owned_view x)
  | None => None
  end.

Definition task_entry (r : Row9) := owned_entry (r9_task r).
Definition rating_entry (r : Row9) := owned_entry (r9_rating r).
Definition comment_entry (r : Row9) := owned_entry (r9_comment r).
Definition reaction_entry (r : Row9) := owned_entry (r9_reaction r).

Definition add_entry {K V} (add : K -> V -> UserData -> UserData)
    (e : option (K * V)) (ud : UserData) : UserData :=
  match e with
  | Some (k, v) => add k v ud
  | None => ud
  end.

(** The effect of one row on the accumulator of its user. *)
Definition visit_user_data (r : Row9) (ud : UserData) : UserData :=
  add_entry add_quest (quest_entry r)
    (add_entry add_reaction (reaction_entry r)
      (add_entry add_comment (comment_entry r)
        (add_entry add_rating (rating_entry r)
          (add_entry add_task (task_entry r)
            (add_entry add_item (item_entry r) ud))))).

(** The accumulator of the user first seen in row [r0], once every row of
    [rows] has been visited. *)
Definition user_data_of (rows : list Row9) (r0 : Row9) : UserData :=
  fold_left (fun ud r => visit_user_data r ud) (rows_of (row_user_id r0) rows)
    (new_user_data (r9_user r0)).

(** A dict filled by [insert_unseen] from a list of optional entries. *)
Definition fill {A K V} (eqb : K -> K -> bool) (entry : A -> option (K * V))
    (rows : list A) (d : Dict.t K V) : Dict.t K V :=
  fold_left (fun d r => match entry r with
                        | Some (k, v) => insert_unseen eqb k v d
                        | None => d
                        end) rows d.

(** The dedup keys of the entries of [rows]. *)
Definition entry_keys {A K V} (entry : A -> option (K * V)) (rows : list A) : list K :=
  map fst (collect entry rows).

(** A row with the credential of its user replaced. *)
Definition row5_with_password (password : string) (r : Row5) : Row5 :=
  {| r5_user := with_password (r5_user r) password; r5_link := r5_link r;
     r5_item := r5_item r; r5_quest_link := r5_quest_link r; r5_quest := r5_quest r |}.

Definition row9_with_password (password : string) (r : Row9) : Row9 :=
  {| r9_user := with_password (r9_user r) password; r9_link := r9_link r;
     r9_item := r9_item r; r9_task := r9_task r; r9_rating := r9_rating r;
     r9_comment := r9_comment r; r9_reaction := r9_reaction r;
     r9_quest_link := r9_quest_link r; r9_quest := r9_quest r |}.

(** A row that carries no item without its link and no quest without its
    participation, as the rows of an outer join are. *)
Definition linked (r : Row5) : Prop :=
  (r5_item r <> None -> r5_link r <> None) /\
  (r5_quest r <> None -> r5_quest_link r <> None).

(** ** A sample session

    Two users; alice owns two items, three tasks and takes part in two
    quests, bob owns nothing. *)

Definition alice : User :=
  {| user_id := 1%N; user_username := "alice"; user_email := "alice@example.org";
     user_password := "correct horse"; user_tribe := TribeMember VALHARS;
     user_intelligence := 1%Z; user_strength := 10%Z; user_agility := 6%Z;
     user_wise := 6%Z; user_psycho := 2%Z |}.

Definition bob : User :=
  {| user_id := 2%N; user_username := "bob"; user_email := "bob@example.org";
     user_password := "battery staple"; user_tribe := TribeNone;
     user_intelligence := 5%Z; user_strength := 5%Z; user_agility := 5%Z;
     user_wise := 5%Z; user_psycho := 5%Z |}.

Definition sword : Item := {| item_id := 10%N; item_name := "sword" |}.
Definition shield : Item := {| item_id := 11%N; item_name := "shield" |}.

Definition alice_sword : UserItemLink :=
  {| uil_user_id := 1%N; uil_item_id := 10%N; uil_equipped := false |}.
Definition alice_shield : UserItemLink :=
  {| uil_user_id := 1%N; uil_item_id := 11%N; uil_equipped := true |}.

Definition hunt : Quest := {| quest_id := 20%N; quest_name := "hunt" |}.
Definition escort : Quest := {| quest_id := 21%N; quest_name := "escort" |}.

Definition alice_hunt : UserQuestLink :=
  {| uql_user_id := 1%N; uql_quest_id := 20%N; uql_quest_start := 100%Z;
     uql_quest_end := None; uql_status := "active" |}.
Definition alice_escort : UserQuestLink :=
  {| uql_user_id := 1%N; uql_quest_id := 21%N; uql_quest_start := 200%Z;
     uql_quest_end := Some 300%Z; uql_status := "done" |}.

Definition chore (n : N) : Task :=
  {| owned_id := n; owned_user_id := 1%N; owned_body := "chore" |}.

Definition sample_session : Session :=
  {| db_users := [alice; bob];
     db_user_item_links := [alice_sword; alice_shield];
     db_items := [sword; shield];
     db_tasks := [chore 30%N; chore 31%N; chore 32%N];
     db_ratings := [];
     db_comments := [];
     db_reactions := [];
     db_user_quest_links := [alice_hunt; alice_escort];
     db_quests := [hunt; escort] |}.

(** A storage whose only constraints are the primary key and the unique
    [username] and [email] columns. *)
Definition unique_columns (s : Session) (u : User) : bool :=
  existsb (fun x => N.eqb (user_id x) (user_id u)
                    || String.eqb (user_username x) (user_username u)
                    || String.eqb (user_email x) (user_email u)) (db_users s).

Definition carol_create : UserCreate :=
  {| uc_username := "carol"; uc_email := "carol@example.org";
     uc_password := "hunter2"; uc_tribe := TribeMember SAHARANS |}.

(** A stand-in for the hash function. *)
Definition sample_hash (password : string) : string := ("hashed:" ++ password)%string.

(** ** The remaining operations of the controller *)

Definition Tribe_eqb (a b : Tribe) : bool :=
  match a, b with
  | NOSFERATI, NOSFERATI => true
  | VALHARS, VALHARS => true
  | SAHARANS, SAHARANS => true
  | GLIMMERKINS, GLIMMERKINS => true
  | _, _ => false
  end.

(** [User.tribe == user_tribe], for a member of the enum. *)
Definition tribe_is (tribe : Tribe) (u : User) : bool :=
  match user_tribe u with
  | TribeMember t => Tribe_eqb t tribe
  | _ => false
  end.

(** The rows [get_users_by_tribe] hands to the aggregator: the full join
    filtered on the tribe, then cut by [offset] and [limit]; the query has
    no [order_by]. *)
Definition get_users_by_tribe_rows (s : Session) (user_tribe : Tribe)
    (offset limit : Z) : list Row9 :=
  limit_rows limit
    (offset_rows offset
       (filter (fun r => tribe_is user_tribe (r9_user r)) (select_join9 s))).

Definition get_users_by_tribe (s : Session) (user_tribe : Tribe) (offset limit : Z)
    : list UserView :=
  _construct_user_views (get_users_by_tribe_rows s user_tribe offset limit).

(** The outcome of an operation whose commit may be refused: either the
    operation ran to its end, or [IntegrityError] left it. *)
Inductive commit_result (A : Type) :=
| Committed (a : A)
| IntegrityError.
Arguments Committed {A} a.
Arguments IntegrityError {A}.

(** The row stored under the primary key of [db_user] becomes [updated]. *)
Definition store_user (s : Session) (db_user updated : User) : Session :=
  with_users s
    (map (fun u => if id_is (user_id db_user) u then updated else u) (db_users s)).

Definition remove_user (s : Session) (db_user : User) : list User :=
  filter (fun u => negb (id_is (user_id db_user) u)) (db_users s).

Section Mutations.

(** [UserUpdate], and [db_user.sqlmodel_update] applied to its dump with
    [exclude_unset]: both are declared outside this module. *)
Variable UserUpdate : Type.
Variable sqlmodel_update : User -> UserUpdate -> User.

(** Whether the storage refuses the commit of a rewritten row, and of a
    deleted row. *)
Variable update_refused : Session -> User -> User -> bool.
Variable delete_refused : Session -> User -> bool.

(** What deleting a user row does to the other tables. *)
Variable on_delete : Session -> User -> Session.

Definition update_user (s : Session) (uid : UUID) (user_update : UserUpdate)
    : commit_result (Session * result UserView) :=
  match one (filter (id_is uid) (db_users s)) with
  | Raise NoResultFound => Committed (s, Raise (UserNotFoundError uid))
  | Raise e => Committed (s, Raise e)
  | Ok db_user =>
      let updated := sqlmodel_update db_user user_update in
      if update_refused s db_user updated then IntegrityError
      else
        let s' := store_user s db_user updated in
        Committed
          (s', _construct_user_view s' (select_join5 s' (id_is (user_id updated))))
  end.

Definition delete_user (s : Session) (uid : UUID)
    : commit_result (Session * result unit) :=
  match one (filter (id_is uid) (db_users s)) with
  | Raise NoResultFound => Committed (s, Raise (UserNotFoundError uid))
  | Raise e => Committed (s, Raise e)
  | Ok db_user =>
      if delete_refused s db_user then IntegrityError
      else Committed (with_users (on_delete s db_user) (remove_user s db_user), Ok tt)
  end.

End Mutations.

(** The [username] a view carries. *)
Definition view_username (v : UserView) : option string :=
  match kwargs_get "username" (uv_fields v) with
  | Some (VStr name) => Some name
  | _ => None
  end.

(** The whole view [_construct_user_views] builds for the user first seen in
    row [r0]: per collection, the entry of the first of the user's rows that
    carries each key. *)
Definition grouped_view (rows : list Row9) (r0 : Row9) : UserView :=
  let rs := rows_of (row_user_id r0) rows in
  {| uv_fields := user_model_dump_exclude ["password"%string] (r9_user r0);
     uv_items := map snd (dedup_first pair_eqb fst (collect item_entry rs));
     uv_tasks := map snd (dedup_first N.eqb fst (collect task_entry rs));
     uv_ratings := map snd (dedup_first N.eqb fst (collect rating_entry rs));
     uv_comments := map snd (dedup_first N.eqb fst (collect comment_entry rs));
     uv_reactions := map snd (dedup_first N.eqb fst (collect reaction_entry rs));
     uv_quests := map snd (dedup_first pair_eqb fst (collect quest_entry rs)) |}.

(** A partial update that may rename the user, for the sample session. *)
Definition rename_update (u : User) (new_name : option string) : User :=
  match new_name with
  | Some name =>
      {| user_id := user_id u; user_username := name; user_email := user_email u;
         user_password := user_password u; user_tribe := user_tribe u;
         user_intelligence := user_intelligence u; user_strength := user_strength u;
         user_agility := user_agility u; user_wise := user_wise u;
         user_psycho := user_psycho u |}
  | None => u
  end.

(** A storage that refuses a rewritten row whose username another row holds,
    never refuses a deletion, and deletes the links of a deleted user. *)
Definition rename_refused (s : Session) (db_user updated : User) : bool :=
  existsb (fun x => negb (id_is (user_id db_user) x)
                    && String.eqb (user_username x) (user_username updated))
          (db_users s).

Definition never_refused (s : Session) (u : User) : bool := false.

Definition delete_links (s : Session) (u : User) : Session :=
  {| db_users := db_users s;
     db_user_item_links :=
       filter (fun l => negb (N.eqb (uil_user_id l) (user_id u))) (db_user_item_links s);
     db_items := db_items s; db_tasks := db_tasks s; db_ratings := db_ratings s;
     db_comments := db_comments s; db_reactions := db_reactions s;
     db_user_quest_links :=
       filter (fun l => negb (N.eqb (uql_user_id l) (user_id u))) (db_user_quest_links s);
     db_quests := db_quests s |}.

(** The entry [_construct_user_view] builds from one joined row that has
    an item, and from one that has a quest; [uid] is the id of the user of
    the first row. *)
Definition item_view_of_row (r : Row5) : option ItemUserView :=
  match r5_item r, r5_link r with
  | Some i, Some l => Some (mk_item_view i l)
  | _, _ => None
  end.

Definition quest_view_of_row (uid : UUID) (r : Row5) : option QuestUserView :=
  match r5_quest r, r5_quest_link r with
  | Some q, Some l => Some (mk_quest_view q (Some uid) l)
  | _, _ => None
  end.


Definition quiet_session : Session :=
  {| db_users := db_users sample_session;
     db_user_item_links := db_user_item_links sample_session;
     db_items := db_items sample_session;
     db_tasks := db_tasks sample_session;
     db_ratings := [];
     db_comments := [];
     db_reactions := [];
     db_user_quest_links := [];
     db_quests := db_quests sample_session |}.

(** The first row of the full join of the sample session. *)
Definition alice_row : Row9 :=
  Build_Row9 alice (Some alice_sword) (Some sword) (Some (chore 30%N))
    None None None (Some alice_hunt) (Some hunt).

(** * Properties *)

(** ** Lists and dicts *)

Section KeyedLists.
Variables A K : Type.
Variable eqb : K -> K -> bool.
Hypothesis eqb_eq : forall a b, eqb a b = true <-> a = b.
Variable key : A -> K.

Lemma eqb_same (k : K) : eqb k k = true.
Proof. now apply eqb_eq. Qed.

Lemma dedup_first_snoc (l : list A) (x : A) :
  dedup_first eqb key (l ++ [x]) =
  dedup_first eqb key l ++
    (if existsb (fun y => eqb (key x) (key y)) l then [] else [x]).
Proof.
  induction l as [|a l IH]; simpl.
  - reflexivity.
  - rewrite IH, filter_app. f_equal. f_equal.
    destruct (eqb (key x) (key a)) eqn:E; simpl.
    + destruct (existsb _ l); simpl; [reflexivity | now rewrite E].
    + destruct (existsb _ l); simpl; [reflexivity | now rewrite E].
Qed.

Lemma dedup_first_incl (l : list A) (x : A) :
  In x (dedup_first eqb key l) -> In x l.
Proof.
  revert x; induction l as [|a l IH]; simpl; intros x H; [assumption|].
  destruct H as [H|H]; [now left|].
  apply filter_In in H. right. now apply IH.
Qed.

Lemma existsb_dedup_first (k : K) (l : list A) :
  existsb (fun y => eqb k (key y)) (dedup_first eqb key l) =
  existsb (fun y => eqb k (key y)) l.
Proof.
  induction l as [|a l IH]; simpl; [reflexivity|].
  destruct (eqb k (key a)) eqn:E; simpl; [reflexivity|].
  rewrite <- IH. clear IH.
  induction (dedup_first eqb key l) as [|b m IHm]; simpl; [reflexivity|].
  destruct (eqb (key b) (key a)) eqn:E'; simpl.
  - apply eqb_eq in E'. rewrite E', E. simpl. exact IHm.
  - now rewrite IHm.
Qed.

(** Selecting one key from a deduplicated list leaves its first carrier. *)
Lemma filter_dedup_first (k : K) (l : list A) :
  filter (fun y => eqb k (key y)) (dedup_first eqb key l) =
  match find (fun y => eqb k (key y)) l with
  | Some x => [x]
  | None => []
  end.
Proof.
  induction l as [|a l IH]; simpl; [reflexivity|].
  destruct (eqb k (key a)) eqn:E.
  - f_equal. apply eqb_eq in E. subst k. clear IH.
    induction (dedup_first eqb key l) as [|b m IHm]; simpl; [reflexivity|].
    destruct (eqb (key b) (key a)) eqn:E'; simpl; [exact IHm|].
    destruct (eqb (key a) (key b)) eqn:E''; [|exact IHm].
    apply eqb_eq in E''. rewrite E'', eqb_same in E'. discriminate.
  - rewrite <- IH. clear IH.
    induction (dedup_first eqb key l) as [|b m IHm]; simpl; [reflexivity|].
    destruct (eqb (key b) (key a)) eqn:E'; simpl.
    + apply eqb_eq in E'. rewrite E', E. exact IHm.
    + now rewrite IHm.
Qed.

Lemma map_dedup_first (l : list A) :
  map key (dedup_first eqb key l) = first_occurrences eqb (map key l).
Proof.
  unfold first_occurrences.
  induction l as [|a l IH]; simpl; [reflexivity|].
  f_equal. rewrite <- IH. clear IH.
  induction (dedup_first eqb key l) as [|b m IHm]; simpl; [reflexivity|].
  destruct (eqb (key b) (key a)); simpl; now rewrite IHm.
Qed.

Lemma NoDup_dedup_first (l : list A) : NoDup (map key (dedup_first eqb key l)).
Proof.
  induction l as [|a l IH]; simpl; [constructor|].
  constructor.
  - intro H. apply in_map_iff in H. destruct H as [b [Hk Hb]].
    apply filter_In in Hb. destruct Hb as [_ Hb].
    rewrite Hk, eqb_same in Hb. discriminate.
  - clear -IH. induction (dedup_first eqb key l) as [|b m IHm]; simpl; [constructor|].
    inversion IH as [|? ? Hn Hm]; subst.
    destruct (eqb (key b) (key a)); simpl; [now apply IHm|].
    constructor; [|now apply IHm].
    intro H. apply Hn. apply in_map_iff in H. destruct H as [c [Hc Hin]].
    apply filter_In in Hin. apply in_map_iff. exists c. tauto.
Qed.

End KeyedLists.

Lemma collect_app {A B} (f : A -> option B) (l1 l2 : list A) :
  collect f (l1 ++ l2) = collect f l1 ++ collect f l2.
Proof.
  induction l1 as [|a l1 IH]; simpl; [reflexivity|].
  destruct (f a); simpl; now rewrite IH.
Qed.

Lemma collect_In {A B} (f : A -> option B) (l : list A) (b : B) :
  In b (collect f l) <-> exists a, In a l /\ f a = Some b.
Proof.
  induction l as [|a l IH]; simpl.
  - split; [tauto | intros [a [[] _]]].
  - destruct (f a) eqn:E; simpl; rewrite IH; split.
    + intros [H|[x [Hx Hf]]]; [exists a; subst; tauto | exists x; tauto].
    + intros [x [[Hx|Hx] Hf]]; [left; congruence | right; exists x; tauto].
    + intros [x [Hx Hf]]; exists x; tauto.
    + intros [x [[Hx|Hx] Hf]]; [congruence | exists x; tauto].
Qed.

Section DictFacts.
Variables K V : Type.
Variable eqb : K -> K -> bool.
Hypothesis eqb_eq : forall a b, eqb a b = true <-> a = b.

Lemma mem_existsb (k : K) (d : Dict.t K V) :
  Dict.mem eqb k d = existsb (fun kv => eqb k (fst kv)) d.
Proof.
  induction d as [|[k' v'] d IH]; simpl; [reflexivity | now rewrite IH].
Qed.

Lemma set_unseen (k : K) (v : V) (d : Dict.t K V) :
  Dict.mem eqb k d = false -> Dict.set eqb k v d = d ++ [(k, v)].
Proof.
  induction d as [|[k' v'] d IH]; simpl; [reflexivity|].
  intro H. apply orb_false_iff in H. destruct H as [H1 H2].
  now rewrite H1, IH.
Qed.

Lemma adjust_adjust (k : K) (f g : V -> V) (d : Dict.t K V) :
  Dict.adjust eqb k g (Dict.adjust eqb k f d) = Dict.adjust eqb k (fun v => g (f v)) d.
Proof.
  induction d as [|[k' v'] d IH]; simpl; [reflexivity|].
  destruct (eqb k k') eqn:E; simpl; rewrite E; [reflexivity | now rewrite IH].
Qed.

Lemma adjust_absent (k : K) (f : V -> V) (d : Dict.t K V) :
  Dict.mem eqb k d = false -> Dict.adjust eqb k f d = d.
Proof.
  induction d as [|[k' v'] d IH]; simpl; [reflexivity|].
  intro H. apply orb_false_iff in H. destruct H as [H1 H2].
  now rewrite H1, IH.
Qed.

(** Creating the entry of [k] when it is missing and then mutating it, on a
    dict whose keys are distinct. *)
Lemma adjust_after_ensure (k : K) (v : V) (f : V -> V) (d : Dict.t K V) :
  NoDup (Dict.keys d) ->
  Dict.adjust eqb k f (if Dict.mem eqb k d then d else Dict.set eqb k v d) =
  map (fun kv => (fst kv, if eqb k (fst kv) then f (snd kv) else snd kv)) d ++
  (if Dict.mem eqb k d then [] else [(k, f v)]).
Proof.
  induction d as [|[k' v'] d IH]; simpl; intro ND.
  - now rewrite (proj2 (eqb_eq k k) eq_refl).
  - inversion ND as [|? ? Hn ND']; subst.
    destruct (eqb k k') eqn:E; simpl.
    + rewrite E, app_nil_r. f_equal.
      apply eqb_eq in E. subst k'.
      clear -Hn eqb_eq. induction d as [|[k2 v2] d IHd]; simpl; [reflexivity|].
      simpl in Hn. destruct (eqb k k2) eqn:E2.
      * apply eqb_eq in E2. subst k2. tauto.
      * f_equal. apply IHd. tauto.
    + specialize (IH ND'). destruct (Dict.mem eqb k d); simpl; rewrite E; now rewrite IH.
Qed.

Lemma fill_snoc {A} (entry : A -> option (K * V)) (rows : list A) (r : A) (d : Dict.t K V) :
  fill eqb entry (rows ++ [r]) d =
  match entry r with
  | Some (k, v) => insert_unseen eqb k v (fill eqb entry rows d)
  | None => fill eqb entry rows d
  end.
Proof. unfold fill. now rewrite fold_left_app. Qed.

(** Filling an empty dict keeps the first entry of every key, in order. *)
Lemma fill_dedup_first {A} (entry : A -> option (K * V)) (rows : list A) :
  fill eqb entry rows (Dict.empty K V) =
  dedup_first eqb fst (collect entry rows).
Proof.
  induction rows as [|r rows IH] using rev_ind; [reflexivity|].
  rewrite fill_snoc, collect_app, IH. simpl.
  destruct (entry r) as [[k v]|]; simpl; [|now rewrite app_nil_r].
  rewrite (dedup_first_snoc eqb fst). unfold insert_unseen.
  rewrite mem_existsb, (existsb_dedup_first eqb eqb_eq fst). simpl.
  destruct (existsb _ (collect entry rows)) eqn:E; [now rewrite app_nil_r|].
  apply set_unseen.
  now rewrite mem_existsb, (existsb_dedup_first eqb eqb_eq fst).
Qed.

End DictFacts.

Lemma pair_eqb_eq (a b : UUID * UUID) : pair_eqb a b = true <-> a = b.
Proof.
  destruct a as [a1 a2], b as [b1 b2]. unfold pair_eqb. simpl.
  rewrite andb_true_iff, !N.eqb_eq. split; [intros [-> ->]; reflexivity|].
  intro H; inversion H; tauto.
Qed.

(** ** The accumulators of [_construct_user_views] *)

Lemma adjust_same {K V} (eqb : K -> K -> bool) (k : K) (d : Dict.t K V) :
  Dict.adjust eqb k (fun v => v) d = d.
Proof.
  induction d as [|[k' v'] d IH]; simpl; [reflexivity|].
  destruct (eqb k k'); [reflexivity | now rewrite IH].
Qed.

Lemma visit_row_adjust (users : Dict.t UUID UserData) (row : Row9) :
  visit_row users row =
  Dict.adjust N.eqb (row_user_id row) (visit_user_data row)
    (if Dict.mem N.eqb (row_user_id row) users then users
     else Dict.set N.eqb (row_user_id row) (new_user_data (r9_user row)) users).
Proof.
  unfold visit_row, visit_user_data, item_entry, quest_entry, task_entry,
    rating_entry, comment_entry, reaction_entry, owned_entry, row_user_id.
  set (uid := user_id (r9_user row)).
  set (d := if Dict.mem N.eqb uid users then users else _).
  destruct (r9_link row), (r9_item row), (r9_task row), (r9_rating row),
    (r9_comment row), (r9_reaction row), (r9_quest_link row), (r9_quest row);
    simpl; rewrite ?adjust_adjust; try reflexivity;
    symmetry; apply adjust_same.
Qed.

Lemma filter_none {A} (p : A -> bool) (l : list A) :
  existsb p l = false -> filter p l = [].
Proof.
  induction l as [|a l IH]; simpl; [reflexivity|].
  intro H. apply orb_false_iff in H. destruct H as [H1 H2]. now rewrite H1, IH.
Qed.

Lemma existsb_over_map {A B} (f : A -> B) (p : B -> bool) (l : list A) :
  existsb p (map f l) = existsb (fun a => p (f a)) l.
Proof. induction l as [|a l IH]; simpl; [reflexivity | now rewrite IH]. Qed.

Lemma user_data_of_snoc (rows : list Row9) (r r0 : Row9) :
  user_data_of (rows ++ [r]) r0 =
  if N.eqb (row_user_id r) (row_user_id r0)
  then visit_user_data r (user_data_of rows r0)
  else user_data_of rows r0.
Proof.
  unfold user_data_of, rows_of. rewrite filter_app, fold_left_app. simpl.
  rewrite (N.eqb_sym (row_user_id r0)).
  now destruct (N.eqb (row_user_id r) (row_user_id r0)).
Qed.

(** The dict [users] after the loop: one accumulator per user, in the order
    the users were first seen. *)
Lemma users_after_loop (rows : list Row9) :
  fold_left visit_row rows (Dict.empty UUID UserData) =
  map (fun r0 => (row_user_id r0, user_data_of rows r0))
      (dedup_first N.eqb row_user_id rows).
Proof.
  induction rows as [|r rows IH] using rev_ind; [reflexivity|].
  rewrite fold_left_app. simpl. rewrite IH, visit_row_adjust.
  rewrite (adjust_after_ensure N.eqb N.eqb_eq).
  2:{ unfold Dict.keys. rewrite map_map. simpl.
      apply (NoDup_dedup_first N.eqb N.eqb_eq). }
  rewrite (dedup_first_snoc N.eqb row_user_id), map_app, map_map. simpl.
  rewrite mem_existsb, existsb_over_map. simpl.
  rewrite (existsb_dedup_first N.eqb N.eqb_eq row_user_id).
  f_equal.
  - apply map_ext. intro r0. now rewrite user_data_of_snoc.
  - destruct (existsb _ rows) eqn:E; [reflexivity|]. simpl.
    rewrite user_data_of_snoc, N.eqb_refl. unfold user_data_of, rows_of.
    now rewrite (filter_none _ _ E).
Qed.

Lemma construct_user_views_eq (rows : list Row9) :
  _construct_user_views rows =
  map (fun r0 => view_of_user_data (user_data_of rows r0))
      (dedup_first N.eqb row_user_id rows).
Proof.
  unfold _construct_user_views, Dict.values.
  now rewrite users_after_loop, !map_map.
Qed.

Lemma fold_visit_user (rs : list Row9) (ud : UserData) :
  ud_user (fold_left (fun ud r => visit_user_data r ud) rs ud) = ud_user ud.
Proof.
  revert ud; induction rs as [|r rs IH]; intro ud; simpl; [reflexivity|].
  rewrite IH. unfold visit_user_data, add_entry.
  destruct (quest_entry r) as [[? ?]|], (reaction_entry r) as [[? ?]|],
    (comment_entry r) as [[? ?]|], (rating_entry r) as [[? ?]|],
    (task_entry r) as [[? ?]|], (item_entry r) as [[? ?]|]; reflexivity.
Qed.

Ltac fold_visit_tac rs :=
  let r := fresh "r" in
  let IH := fresh "IH" in
  let ud := fresh "ud" in
  induction rs as [|r rs IH]; intro ud; simpl; [reflexivity|];
  rewrite IH; unfold visit_user_data, add_entry;
  destruct (quest_entry r) as [[? ?]|], (reaction_entry r) as [[? ?]|],
    (comment_entry r) as [[? ?]|], (rating_entry r) as [[? ?]|],
    (task_entry r) as [[? ?]|], (item_entry r) as [[? ?]|]; reflexivity.

Lemma fold_visit_items (rs : list Row9) : forall ud,
  ud_items (fold_left (fun ud r => visit_user_data r ud) rs ud) =
  fill pair_eqb item_entry rs (ud_items ud).
Proof. unfold fill. fold_visit_tac rs. Qed.

Lemma fold_visit_tasks (rs : list Row9) : forall ud,
  ud_tasks (fold_left (fun ud r => visit_user_data r ud) rs ud) =
  fill N.eqb task_entry rs (ud_tasks ud).
Proof. unfold fill. fold_visit_tac rs. Qed.

Lemma fold_visit_ratings (rs : list Row9) : forall ud,
  ud_ratings (fold_left (fun ud r => visit_user_data r ud) rs ud) =
  fill N.eqb rating_entry rs (ud_ratings ud).
Proof. unfold fill. fold_visit_tac rs. Qed.

Lemma fold_visit_comments (rs : list Row9) : forall ud,
  ud_comments (fold_left (fun ud r => visit_user_data r ud) rs ud) =
  fill N.eqb comment_entry rs (ud_comments ud).
Proof. unfold fill. fold_visit_tac rs. Qed.

Lemma fold_visit_reactions (rs : list Row9) : forall ud,
  ud_reactions (fold_left (fun ud r => visit_user_data r ud) rs ud) =
  fill N.eqb reaction_entry rs (ud_reactions ud).
Proof. unfold fill. fold_visit_tac rs. Qed.

Lemma fold_visit_quests (rs : list Row9) : forall ud,
  ud_quests (fold_left (fun ud r => visit_user_data r ud) rs ud) =
  fill pair_eqb quest_entry rs (ud_quests ud).
Proof. unfold fill. fold_visit_tac rs. Qed.

(** The view of the user first seen in row [r0]: the user's dump without the
    password, and per collection the first entry of every dedup key among the
    user's rows. *)
Lemma view_of_user_data_of (rows : list Row9) (r0 : Row9) :
  view_of_user_data (user_data_of rows r0) =
  let rs := rows_of (row_user_id r0) rows in
  {| uv_fields := user_model_dump_exclude ["password"%string] (r9_user r0);
     uv_items := map snd (dedup_first pair_eqb fst (collect item_entry rs));
     uv_tasks := map snd (dedup_first N.eqb fst (collect task_entry rs));
     uv_ratings := map snd (dedup_first N.eqb fst (collect rating_entry rs));
     uv_comments := map snd (dedup_first N.eqb fst (collect comment_entry rs));
     uv_reactions := map snd (dedup_first N.eqb fst (collect reaction_entry rs));
     uv_quests := map snd (dedup_first pair_eqb fst (collect quest_entry rs)) |}.
Proof.
  unfold view_of_user_data, user_data_of, Dict.values. simpl.
  rewrite fold_visit_user, fold_visit_items, fold_visit_tasks, fold_visit_ratings,
    fold_visit_comments, fold_visit_reactions, fold_visit_quests. simpl.
  rewrite !(fill_dedup_first pair_eqb pair_eqb_eq), !(fill_dedup_first N.eqb N.eqb_eq).
  reflexivity.
Qed.

Lemma view_user_id_dump (u : User) (items : list ItemUserView)
    (tasks ratings comments reactions : list OwnedView) (quests : list QuestUserView) :
  view_user_id {| uv_fields := user_model_dump_exclude ["password"%string] u;
                  uv_items := items; uv_tasks := tasks; uv_ratings := ratings;
                  uv_comments := comments; uv_reactions := reactions;
                  uv_quests := quests |} = Some (user_id u).
Proof. reflexivity. Qed.

(** ** The aggregators *)

(** C5. [calculate_initial_stats] returns the fixed row of each tribe and the
    row of fives for [None] and for any other value; whatever the argument,
    it returns five non-negative integers. *)
Theorem calculate_initial_stats_table :
  calculate_initial_stats (TribeMember NOSFERATI) =
    [("intelligence", 8); ("strength", 2); ("agility", 2); ("wise", 1); ("psycho", 10)]%string%Z /\
  calculate_initial_stats (TribeMember VALHARS) =
    [("intelligence", 1); ("strength", 10); ("agility", 6); ("wise", 6); ("psycho", 2)]%string%Z /\
  calculate_initial_stats (TribeMember SAHARANS) =
    [("intelligence", 9); ("strength", 2); ("agility", 3); ("wise", 10); ("psycho", 1)]%string%Z /\
  calculate_initial_stats (TribeMember GLIMMERKINS) =
    [("intelligence", 10); ("strength", 2); ("agility", 2); ("wise", 7); ("psycho", 4)]%string%Z /\
  calculate_initial_stats TribeNone =
    [("intelligence", 5); ("strength", 5); ("agility", 5); ("wise", 5); ("psycho", 5)]%string%Z /\
  (forall repr, calculate_initial_stats (TribeOther repr) =
    [("intelligence", 5); ("strength", 5); ("agility", 5); ("wise", 5); ("psycho", 5)]%string%Z) /\
  (forall tribe, exists i s a w p,
      calculate_initial_stats tribe =
        [("intelligence", i); ("strength", s); ("agility", a); ("wise", w); ("psycho", p)]%string /\
      (0 <= i /\ 0 <= s /\ 0 <= a /\ 0 <= w /\ 0 <= p)%Z).
Proof.
  repeat split; try reflexivity.
  intros [[]| |repr]; simpl; unfold stats;
    do 5 eexists; (split; [reflexivity | lia]).
Qed.

Lemma find_exists {A} (p : A -> bool) (l : list A) (a : A) :
  In a l -> p a = true -> exists x, find p l = Some x /\ p x = true /\ In x l.
Proof.
  induction l as [|b l IH]; simpl; [tauto|].
  intros [->|Hin] Hp.
  - rewrite Hp. eauto.
  - destruct (p b) eqn:E; [eauto|].
    destruct (IH Hin Hp) as [x [Hx [Hpx Hx']]]. eauto.
Qed.

Lemma view_is_for_user_data_of (rows : list Row9) (pid : UUID) (r0 : Row9) :
  view_is_for pid (view_of_user_data (user_data_of rows r0)) = N.eqb pid (row_user_id r0).
Proof.
  rewrite view_of_user_data_of. unfold view_is_for. cbv zeta.
  rewrite view_user_id_dump. apply N.eqb_sym.
Qed.

(** The views built for [pid]: the one of the first row that carries it. *)
Lemma views_for_user (rows : list Row9) (pid : UUID) :
  filter (view_is_for pid) (_construct_user_views rows) =
  match find (fun r => N.eqb pid (row_user_id r)) rows with
  | Some r0 => [view_of_user_data (user_data_of rows r0)]
  | None => []
  end.
Proof.
  rewrite construct_user_views_eq, filter_map_swap.
  rewrite (filter_ext _ (fun r => N.eqb pid (row_user_id r))).
  2:{ intro r0. apply view_is_for_user_data_of. }
  rewrite (filter_dedup_first N.eqb N.eqb_eq row_user_id).
  now destruct (find _ rows).
Qed.

Lemma item_entry_shape (pid : UUID) (rows : list Row9) (k : UUID * UUID) (v : ItemUserView) :
  In (k, v) (collect item_entry (rows_of pid rows)) -> k = (iuv_id v, pid).
Proof.
  intro H. apply collect_In in H. destruct H as [r [Hr He]].
  apply filter_In in Hr. destruct Hr as [_ Hr]. apply N.eqb_eq in Hr.
  unfold item_entry in He.
  destruct (r9_link r), (r9_item r); try discriminate.
  inversion He; subst. reflexivity.
Qed.

(** C1. Whenever some input row carries the pair (person [pid], item [iid])
    with both the link and the item present, exactly one view is built for
    [pid] and its item collection holds exactly one entry for [iid], however
    often the pair recurs. *)
Theorem construct_user_views_item_once (rows : list Row9) (pid iid : UUID) :
  (exists r l i, In r rows /\ row_user_id r = pid /\
                 r9_link r = Some l /\ r9_item r = Some i /\ item_id i = iid) ->
  exists v,
    filter (view_is_for pid) (_construct_user_views rows) = [v] /\
    List.length (filter (fun e => N.eqb (iuv_id e) iid) (uv_items v)) = 1.
Proof.
  intros [r [l [i [Hin [Hpid [Hl [Hi Hiid]]]]]]].
  rewrite views_for_user.
  destruct (find_exists (fun r => N.eqb pid (row_user_id r)) rows r Hin) as [r0 [Hf [Hp _]]].
  { rewrite Hpid. apply N.eqb_refl. }
  rewrite Hf. eexists; split; [reflexivity|].
  apply N.eqb_eq in Hp. rewrite view_of_user_data_of. simpl. rewrite <- Hp.
  rewrite filter_map_swap, length_map.
  set (es := collect item_entry (rows_of pid rows)).
  rewrite (filter_ext_in _ (fun kv => pair_eqb (iid, pid) (fst kv))).
  2:{ intros [k v] Hkv. apply (dedup_first_incl pair_eqb fst) in Hkv.
      apply item_entry_shape in Hkv. subst k. unfold pair_eqb. simpl.
      now rewrite N.eqb_refl, andb_true_r, N.eqb_sym. }
  rewrite (filter_dedup_first pair_eqb pair_eqb_eq fst).
  destruct (find_exists (fun kv => pair_eqb (iid, pid) (fst kv)) es
              ((iid, pid), mk_item_view i l)) as [x [Hx _]].
  - apply collect_In. exists r. split.
    + apply filter_In. split; [assumption|]. rewrite Hpid. apply N.eqb_refl.
    + unfold item_entry. now rewrite Hl, Hi, Hiid, Hpid.
  - apply pair_eqb_eq. reflexivity.
  - now rewrite Hx.
Qed.

Lemma keys_of_values {K V} (g : V -> K) (d : list (K * V)) :
  (forall k v, In (k, v) d -> k = g v) -> map g (map snd d) = map fst d.
Proof.
  intro H. rewrite map_map. apply map_ext_in. intros [k v] Hin. simpl.
  symmetry. now apply H.
Qed.

Lemma quest_entry_shape (pid : UUID) (rows : list Row9) (k : UUID * UUID) (v : QuestUserView) :
  In (k, v) (collect quest_entry (rows_of pid rows)) -> k = (quv_id v, pid).
Proof.
  intro H. apply collect_In in H. destruct H as [r [Hr He]].
  apply filter_In in Hr. destruct Hr as [_ Hr]. apply N.eqb_eq in Hr.
  unfold quest_entry in He.
  destruct (r9_quest_link r), (r9_quest r); try discriminate.
  inversion He; subst. reflexivity.
Qed.

Lemma owned_entry_shape {A} (f : A -> option Owned) (rows : list A) (k : UUID) (v : OwnedView) :
  In (k, v) (collect (fun r => owned_entry (f r)) rows) -> k = ov_id v.
Proof.
  intro H. apply collect_In in H. destruct H as [r [_ He]].
  unfold owned_entry in He. destruct (f r); [|discriminate].
  inversion He; subst. reflexivity.
Qed.

Lemma first_keys_pairs {V} (g : V -> UUID * UUID) (es : list ((UUID * UUID) * V)) :
  (forall k v, In (k, v) es -> k = g v) ->
  map g (map snd (dedup_first pair_eqb fst es)) = first_occurrences pair_eqb (map fst es).
Proof.
  intro H. rewrite keys_of_values.
  - apply map_dedup_first.
  - intros k v Hin. apply H. now apply (dedup_first_incl pair_eqb fst).
Qed.

Lemma first_keys_ids {V} (g : V -> UUID) (es : list (UUID * V)) :
  (forall k v, In (k, v) es -> k = g v) ->
  map g (map snd (dedup_first N.eqb fst es)) = first_occurrences N.eqb (map fst es).
Proof.
  intro H. rewrite keys_of_values.
  - apply map_dedup_first.
  - intros k v Hin. apply H. now apply (dedup_first_incl N.eqb fst).
Qed.

(** C4. The views come in the order in which the user ids first appear in
    the input, and in the view of a user every collection lists its entries
    in the order in which their dedup keys first occur among that user's
    rows. *)
Theorem construct_user_views_order (rows : list Row9) :
  map view_user_id (_construct_user_views rows) =
    map Some (first_occurrences N.eqb (map row_user_id rows)) /\
  forall v pid,
    In v (_construct_user_views rows) -> view_user_id v = Some pid ->
    map (fun e => (iuv_id e, pid)) (uv_items v) =
      first_occurrences pair_eqb (entry_keys item_entry (rows_of pid rows)) /\
    map ov_id (uv_tasks v) =
      first_occurrences N.eqb (entry_keys task_entry (rows_of pid rows)) /\
    map ov_id (uv_ratings v) =
      first_occurrences N.eqb (entry_keys rating_entry (rows_of pid rows)) /\
    map ov_id (uv_comments v) =
      first_occurrences N.eqb (entry_keys comment_entry (rows_of pid rows)) /\
    map ov_id (uv_reactions v) =
      first_occurrences N.eqb (entry_keys reaction_entry (rows_of pid rows)) /\
    map (fun e => (quv_id e, pid)) (uv_quests v) =
      first_occurrences pair_eqb (entry_keys quest_entry (rows_of pid rows)).
Proof.
  split.
  - rewrite construct_user_views_eq, map_map.
    rewrite <- (map_dedup_first N.eqb row_user_id), map_map.
    apply map_ext. intro r0. rewrite view_of_user_data_of. cbv zeta.
    now rewrite view_user_id_dump.
  - intros v pid Hin Hid.
    rewrite construct_user_views_eq in Hin. apply in_map_iff in Hin.
    destruct Hin as [r0 [Hv _]]. subst v.
    rewrite view_of_user_data_of in *. cbv zeta in *.
    rewrite view_user_id_dump in Hid. inversion Hid as [Hpid].
    fold (row_user_id r0) in *. simpl. unfold entry_keys.
    repeat split.
    + apply first_keys_pairs. intros k v. apply item_entry_shape.
    + apply first_keys_ids. intros k v. apply (owned_entry_shape r9_task).
    + apply first_keys_ids. intros k v. apply (owned_entry_shape r9_rating).
    + apply first_keys_ids. intros k v. apply (owned_entry_shape r9_comment).
    + apply first_keys_ids. intros k v. apply (owned_entry_shape r9_reaction).
    + apply first_keys_pairs. intros k v. apply quest_entry_shape.
Qed.

(** ** The credential *)

Lemma dump_has_no_password (u : User) :
  kwargs_get "password" (user_model_dump_exclude ["password"%string] u) = None /\
  ~ In "password"%string (map fst (user_model_dump_exclude ["password"%string] u)).
Proof.
  split; [reflexivity|].
  intro H. simpl in H.
  repeat (destruct H as [H|H]; [discriminate|]). exact H.
Qed.

Lemma dump_ignores_password (u : User) (password : string) :
  user_model_dump_exclude ["password"%string] (with_password u password) =
  user_model_dump_exclude ["password"%string] u.
Proof. reflexivity. Qed.

Lemma construct_user_view_fields (s : Session) (rows : list Row5) (v : UserView) :
  _construct_user_view s rows = Ok v ->
  exists row0 rest, rows = row0 :: rest /\
    uv_fields v = user_model_dump_exclude ["password"%string] (r5_user row0) /\
    user_items rows = Ok (uv_items v) /\
    user_quests (r5_user row0) rows = Ok (uv_quests v).
Proof.
  unfold _construct_user_view. destruct rows as [|row0 rest]; [discriminate|].
  cbv zeta.
  destruct (user_items (row0 :: rest)) as [items|e] eqn:Ei; [|discriminate].
  destruct (user_quests (r5_user row0) (row0 :: rest)) as [quests|e] eqn:Eq;
    [|discriminate].
  unfold bind. intro H. inversion H; subst. exists row0, rest. simpl. tauto.
Qed.

Lemma user_items_ignores_password (password : string) (rows : list Row5) :
  user_items (map (row5_with_password password) rows) = user_items rows.
Proof.
  induction rows as [|r rows IH]; simpl; [reflexivity|].
  destruct (r5_item r); [|exact IH].
  destruct (r5_link r); [|reflexivity]. now rewrite IH.
Qed.

Lemma user_quests_ignores_password (password : string) (u : User) (rows : list Row5) :
  user_quests (with_password u password) (map (row5_with_password password) rows) =
  user_quests u rows.
Proof.
  induction rows as [|r rows IH]; simpl; [reflexivity|].
  destruct (r5_quest r); [|exact IH].
  destruct (r5_quest_link r); [|reflexivity]. now rewrite IH.
Qed.

Lemma dedup_first_map {A K} (eqb : K -> K -> bool) (key : A -> K) (f : A -> A) (l : list A) :
  (forall a, key (f a) = key a) ->
  dedup_first eqb key (map f l) = map f (dedup_first eqb key l).
Proof.
  intro H. induction l as [|a l IH]; simpl; [reflexivity|].
  rewrite IH, filter_map_swap. f_equal. f_equal.
  apply filter_ext. intro b. now rewrite !H.
Qed.

Lemma collect_map {A B C} (f : A -> B) (g : B -> option C) (l : list A) :
  collect g (map f l) = collect (fun a => g (f a)) l.
Proof.
  induction l as [|a l IH]; simpl; [reflexivity|]. now rewrite IH.
Qed.

Lemma rows_of_with_password (password : string) (pid : UUID) (rows : list Row9) :
  rows_of pid (map (row9_with_password password) rows) =
  map (row9_with_password password) (rows_of pid rows).
Proof. unfold rows_of. now rewrite filter_map_swap. Qed.

(** C3. No view built by either aggregator has a field named [password],
    and the views do not depend on the credentials of the input users:
    replacing every password in the input leaves the output unchanged. *)
Theorem views_exclude_password :
  (forall s rows v, _construct_user_view s rows = Ok v ->
     kwargs_get "password" (uv_fields v) = None /\
     ~ In "password"%string (map fst (uv_fields v))) /\
  (forall rows v, In v (_construct_user_views rows) ->
     kwargs_get "password" (uv_fields v) = None /\
     ~ In "password"%string (map fst (uv_fields v))) /\
  (forall s rows password,
     _construct_user_view s (map (row5_with_password password) rows) =
     _construct_user_view s rows) /\
  (forall rows password,
     _construct_user_views (map (row9_with_password password) rows) =
     _construct_user_views rows).
Proof.
  split; [|split; [|split]].
  - intros s rows v H.
    destruct (construct_user_view_fields s rows H) as [row0 [rest [_ [Hf _]]]].
    rewrite Hf. apply dump_has_no_password.
  - intros rows v H. rewrite construct_user_views_eq in H.
    apply in_map_iff in H. destruct H as [r0 [Hv _]]. subst v.
    rewrite view_of_user_data_of. apply dump_has_no_password.
  - intros s rows password. destruct rows as [|row0 rest]; [reflexivity|].
    pose proof (user_items_ignores_password password (row0 :: rest)) as Hi.
    pose proof (user_quests_ignores_password password (r5_user row0) (row0 :: rest)) as Hq.
    cbn [map] in Hi, Hq. unfold _construct_user_view. cbv zeta.
    cbn [map]. rewrite Hi.
    change (r5_user (row5_with_password password row0))
      with (with_password (r5_user row0) password).
    rewrite Hq. reflexivity.
  - intros rows password. rewrite !construct_user_views_eq.
    rewrite (dedup_first_map N.eqb row_user_id (row9_with_password password))
      by reflexivity.
    rewrite map_map. apply map_ext. intro r0.
    rewrite !view_of_user_data_of. cbv zeta.
    change (row_user_id (row9_with_password password r0)) with (row_user_id r0).
    rewrite rows_of_with_password, !collect_map.
    reflexivity.
Qed.

(** ** The joins *)

Lemma outer_not_nil {A} (l : list A) : outer l <> [].
Proof. destruct l; discriminate. Qed.

Lemma outer_Some {A} (l : list A) (a : A) : In (Some a) (outer l) <-> In a l.
Proof.
  destruct l as [|b l]; simpl.
  - split; [intros [H|[]]; discriminate | tauto].
  - rewrite in_map_iff. split.
    + intros [H|[x [Hx Hin]]]; [left | right]; congruence.
    + intros [H|H]; [left; congruence | right; exists a; tauto].
Qed.

Lemma flat_map_not_nil {A B} (f : A -> list B) (l : list A) :
  l <> [] -> (forall a, f a <> []) -> flat_map f l <> [].
Proof.
  destruct l as [|a l]; [congruence|]. intros _ Hf. simpl.
  specialize (Hf a). destruct (f a); [congruence | discriminate].
Qed.

Lemma map_not_nil {A B} (f : A -> B) (l : list A) : l <> [] -> map f l <> [].
Proof. destruct l; [congruence | discriminate]. Qed.

Lemma join5_user_not_nil (s : Session) (u : User) : join5_user s u <> [].
Proof.
  unfold join5_user.
  apply flat_map_not_nil; [apply outer_not_nil | intro ol].
  apply flat_map_not_nil; [apply outer_not_nil | intro oi].
  apply flat_map_not_nil; [apply outer_not_nil | intro oql].
  apply map_not_nil, outer_not_nil.
Qed.

(** What a row of the items-and-quests join of [u] is made of. *)
Lemma join5_user_In (s : Session) (u : User) (r : Row5) :
  In r (join5_user s u) ->
  r5_user r = u /\
  In (r5_link r) (outer (links_of s u)) /\
  In (r5_item r) (outer (items_of s (r5_link r))) /\
  In (r5_quest_link r) (outer (quest_links_of s u)) /\
  In (r5_quest r) (outer (quests_of s (r5_quest_link r))).
Proof.
  unfold join5_user. intro H.
  apply in_flat_map in H. destruct H as [ol [Hol H]].
  apply in_flat_map in H. destruct H as [oi [Hoi H]].
  apply in_flat_map in H. destruct H as [oql [Hoql H]].
  apply in_map_iff in H. destruct H as [oq [Hr Hoq]].
  subst r. simpl. tauto.
Qed.

Lemma join5_user_intro (s : Session) (u : User) ol oi oql oq :
  In ol (outer (links_of s u)) ->
  In oi (outer (items_of s ol)) ->
  In oql (outer (quest_links_of s u)) ->
  In oq (outer (quests_of s oql)) ->
  In (Build_Row5 u ol oi oql oq) (join5_user s u).
Proof.
  intros H1 H2 H3 H4. unfold join5_user.
  apply in_flat_map. exists ol. split; [assumption|].
  apply in_flat_map. exists oi. split; [assumption|].
  apply in_flat_map. exists oql. split; [assumption|].
  apply in_map_iff. exists oq. tauto.
Qed.

Lemma select_join5_In (s : Session) (cond : User -> bool) (r : Row5) :
  In r (select_join5 s cond) <->
  In (r5_user r) (db_users s) /\ cond (r5_user r) = true /\ In r (join5_user s (r5_user r)).
Proof.
  unfold select_join5. rewrite filter_In, in_flat_map. split.
  - intros [[u [Hu Hr]] Hc]. pose proof (join5_user_In s u r Hr) as [Hru _].
    subst u. tauto.
  - intros [Hu [Hc Hr]]. split; [exists (r5_user r); tauto | assumption].
Qed.

(** The join returns no row exactly when no user satisfies the condition. *)
Lemma select_join5_nil (s : Session) (cond : User -> bool) :
  select_join5 s cond = [] <-> filter cond (db_users s) = [].
Proof.
  split; intro H.
  - destruct (filter cond (db_users s)) as [|u us] eqn:E; [reflexivity|].
    assert (Hu : In u (filter cond (db_users s))) by (rewrite E; now left).
    apply filter_In in Hu. destruct Hu as [Hu Hc].
    destruct (join5_user s u) as [|r rs] eqn:Ej; [now apply join5_user_not_nil in Ej|].
    assert (Hr : In r (join5_user s u)) by (rewrite Ej; now left).
    pose proof (join5_user_In s u r Hr) as [Hru _].
    assert (Hin : In r (select_join5 s cond)).
    { apply select_join5_In. rewrite Hru. tauto. }
    rewrite H in Hin. destruct Hin.
  - destruct (select_join5 s cond) as [|r rs] eqn:E; [reflexivity|].
    assert (Hr : In r (select_join5 s cond)) by (rewrite E; now left).
    apply select_join5_In in Hr. destruct Hr as [Hu [Hc _]].
    assert (Hin : In (r5_user r) (filter cond (db_users s))) by (apply filter_In; tauto).
    rewrite H in Hin. destruct Hin.
Qed.

Lemma filter_nil_iff {A} (p : A -> bool) (l : list A) :
  filter p l = [] <-> forall a, In a l -> p a = false.
Proof.
  split.
  - intros H a Ha. destruct (p a) eqn:E; [|reflexivity].
    assert (Hin : In a (filter p l)) by (apply filter_In; tauto).
    rewrite H in Hin. destruct Hin.
  - intro H. induction l as [|a l IH]; simpl; [reflexivity|].
    rewrite (H a (or_introl eq_refl)). apply IH. intros b Hb. apply H. now right.
Qed.

Lemma select_join5_linked (s : Session) (cond : User -> bool) (r : Row5) :
  In r (select_join5 s cond) -> linked r.
Proof.
  intro H. apply select_join5_In in H. destruct H as [_ [_ H]].
  apply join5_user_In in H. destruct H as [_ [_ [Hi [_ Hq]]]].
  split; intros Hn He.
  - rewrite He in Hi. simpl in Hi. destruct Hi as [Hi|[]]. congruence.
  - rewrite He in Hq. simpl in Hq. destruct Hq as [Hq|[]]. congruence.
Qed.

Lemma user_items_linked (rows : list Row5) :
  (forall r, In r rows -> linked r) -> exists items, user_items rows = Ok items.
Proof.
  induction rows as [|r rows IH]; intro H; simpl; [eauto|].
  destruct IH as [items Hitems]; [intros x Hx; apply H; now right|].
  destruct (r5_item r) eqn:Ei; [|eauto].
  destruct (r5_link r) eqn:El.
  - rewrite Hitems. simpl. eauto.
  - destruct (H r (or_introl eq_refl)) as [Hl _]. rewrite Ei, El in Hl.
    exfalso. apply Hl; [discriminate | reflexivity].
Qed.

Lemma user_quests_linked (user : User) (rows : list Row5) :
  (forall r, In r rows -> linked r) -> exists quests, user_quests user rows = Ok quests.
Proof.
  induction rows as [|r rows IH]; intro H; simpl; [eauto|].
  destruct IH as [quests Hquests]; [intros x Hx; apply H; now right|].
  destruct (r5_quest r) eqn:Eq; [|eauto].
  destruct (r5_quest_link r) eqn:El.
  - rewrite Hquests. simpl. eauto.
  - destruct (H r (or_introl eq_refl)) as [_ Hl]. rewrite Eq, El in Hl.
    exfalso. apply Hl; [discriminate | reflexivity].
Qed.

(** On the rows of a join that found something, the aggregator returns. *)
Lemma construct_user_view_returns (s s0 : Session) (cond : User -> bool) :
  select_join5 s0 cond <> [] ->
  exists v, _construct_user_view s (select_join5 s0 cond) = Ok v.
Proof.
  intro Hne. unfold _construct_user_view.
  pose proof (select_join5_linked s0 cond) as Hl.
  destruct (select_join5 s0 cond) as [|row0 rest]; [congruence|]. cbv zeta.
  destruct (user_items_linked _ Hl) as [items Hi].
  destruct (user_quests_linked (r5_user row0) _ Hl) as [quests Hq].
  rewrite Hi, Hq. simpl. eauto.
Qed.

Lemma construct_user_view_raises (s : Session) (rows : list Row5) (e : exn) :
  _construct_user_view s rows = Raise e -> e = IndexError \/ e = AttributeError.
Proof.
  unfold _construct_user_view. destruct rows as [|row0 rest].
  - intro H; inversion H; tauto.
  - cbv zeta. generalize (row0 :: rest) at 1 2 as rows. intro rows.
    assert (Hi : forall rs e', user_items rs = Raise e' -> e' = AttributeError).
    { induction rs as [|r rs IH]; simpl; intros e' H; [discriminate|].
      destruct (r5_item r); [|now apply IH].
      destruct (r5_link r); [|congruence].
      destruct (user_items rs); simpl in H; [discriminate|].
      inversion H; subst. now apply IH. }
    assert (Hq : forall u rs e', user_quests u rs = Raise e' -> e' = AttributeError).
    { induction rs as [|r rs IH]; simpl; intros e' H; [discriminate|].
      destruct (r5_quest r); [|now apply IH].
      destruct (r5_quest_link r); [|congruence].
      destruct (user_quests u rs); simpl in H; [discriminate|].
      inversion H; subst. now apply IH. }
    destruct (user_items rows) eqn:Ei; simpl.
    + destruct (user_quests (r5_user row0) rows) eqn:Eq; simpl; [discriminate|].
      intro H; inversion H; subst. right. eapply Hq; eassumption.
    + intro H; inversion H; subst. right. eapply Hi; eassumption.
Qed.

(** ** The controller operations *)

(** A single-user fetch raises its error exactly when the join is empty,
    and returns a view otherwise. *)
Lemma fetch_or_not_found (s : Session) (cond : User -> bool) (err : exn) :
  let fetch := match select_join5 s cond with
               | [] => Raise err
               | rows => _construct_user_view s rows
               end in
  (fetch = Raise err <-> select_join5 s cond = []) /\
  (select_join5 s cond <> [] -> exists v, fetch = Ok v) /\
  (select_join5 s cond = [] <-> forall u, In u (db_users s) -> cond u = false).
Proof.
  cbv zeta. split; [|split].
  - split; intro H.
    + destruct (select_join5 s cond) as [|r rs] eqn:E; [reflexivity|].
      destruct (construct_user_view_returns s s cond) as [v Hv]; [rewrite E; discriminate|].
      rewrite E in Hv. congruence.
    + now rewrite H.
  - intro H. destruct (construct_user_view_returns s s cond H) as [v Hv].
    exists v. destruct (select_join5 s cond); [congruence | assumption].
  - rewrite select_join5_nil. apply filter_nil_iff.
Qed.

(** C6. [get_user_by_id], [get_user_by_username] and [get_user_by_email]
    raise the not-found error of their lookup field exactly when the join
    returns no row, that is when no user has the requested value, and return
    a view otherwise; [get_user_by_username_with_password] raises
    [NoResultFound] exactly when no user has the username. *)
Theorem fetch_not_found (s : Session) :
  (forall uid,
     (get_user_by_id s uid = Raise (UserNotFoundError uid) <->
        select_join5 s (id_is uid) = []) /\
     (select_join5 s (id_is uid) <> [] -> exists v, get_user_by_id s uid = Ok v) /\
     (select_join5 s (id_is uid) = [] <->
        forall u, In u (db_users s) -> user_id u <> uid)) /\
  (forall name,
     (get_user_by_username s name = Raise (UserUsernameNotFoundError name) <->
        select_join5 s (username_is name) = []) /\
     (select_join5 s (username_is name) <> [] ->
        exists v, get_user_by_username s name = Ok v) /\
     (select_join5 s (username_is name) = [] <->
        forall u, In u (db_users s) -> user_username u <> name)) /\
  (forall email,
     (get_user_by_email s email = Raise (UserEmailNotFoundError email) <->
        select_join5 s (email_is email) = []) /\
     (select_join5 s (email_is email) <> [] ->
        exists v, get_user_by_email s email = Ok v) /\
     (select_join5 s (email_is email) = [] <->
        forall u, In u (db_users s) -> user_email u <> email)) /\
  (forall name,
     get_user_by_username_with_password s name = Raise NoResultFound <->
     forall u, In u (db_users s) -> user_username u <> name).
Proof.
  split; [|split; [|split]].
  - intro uid.
    destruct (fetch_or_not_found s (id_is uid) (UserNotFoundError uid)) as [H1 [H2 H3]].
    split; [exact H1 | split; [exact H2|]].
    rewrite H3. unfold id_is.
    split; intros H u Hu; specialize (H u Hu); now apply N.eqb_neq.
  - intro name.
    destruct (fetch_or_not_found s (username_is name) (UserUsernameNotFoundError name))
      as [H1 [H2 H3]].
    split; [exact H1 | split; [exact H2|]].
    rewrite H3. unfold username_is.
    split; intros H u Hu; specialize (H u Hu); now apply String.eqb_neq.
  - intro email.
    destruct (fetch_or_not_found s (email_is email) (UserEmailNotFoundError email))
      as [H1 [H2 H3]].
    split; [exact H1 | split; [exact H2|]].
    rewrite H3. unfold email_is.
    split; intros H u Hu; specialize (H u Hu); now apply String.eqb_neq.
  - intro name. unfold get_user_by_username_with_password.
    assert (Hn : filter (username_is name) (db_users s) = [] <->
                 forall u, In u (db_users s) -> user_username u <> name).
    { rewrite filter_nil_iff. unfold username_is.
      split; intros H u Hu; specialize (H u Hu); now apply String.eqb_neq. }
    rewrite <- Hn. split; intro H.
    + destruct (filter (username_is name) (db_users s)) as [|a [|b l]];
        [reflexivity | discriminate | discriminate].
    + now rewrite H.
Qed.

Lemma one_Ok {A} (l : list A) (a : A) : one l = Ok a -> l = [a].
Proof. destruct l as [|x [|y l]]; simpl; intro H; inversion H; reflexivity. Qed.

Lemma filter_unique {A} (key : A -> UUID) (p : A -> bool) (l : list A) (a : A) :
  NoDup (map key l) -> In a l ->
  (forall x, In x l -> (p x = true <-> key x = key a)) ->
  filter p l = [a].
Proof.
  induction l as [|b l IH]; simpl; intros ND Hin Hp; [destruct Hin|].
  inversion ND as [|? ? Hn ND']; subst.
  assert (Hrest : forall x, In x l -> key x = key a -> x = a /\ b <> a).
  { intros x Hx Hk. destruct Hin as [->|Hin].
    - exfalso. apply Hn. rewrite <- Hk. now apply in_map.
    - split.
      + clear -ND' Hx Hin Hk. induction l as [|c l IHl]; [destruct Hx|].
        simpl in ND'. inversion ND' as [|? ? Hc ND'']; subst.
        destruct Hx as [->|Hx], Hin as [->|Hin]; try reflexivity.
        * exfalso. apply Hc. rewrite Hk. now apply in_map.
        * exfalso. apply Hc. rewrite <- Hk. now apply in_map.
        * now apply IHl.
      + intros ->. apply Hn. now apply in_map. }
  destruct Hin as [->|Hin].
  - rewrite (proj2 (Hp a (or_introl eq_refl)) eq_refl). f_equal.
    apply filter_nil_iff. intros x Hx. destruct (p x) eqn:E; [|reflexivity].
    apply (Hp x (or_intror Hx)) in E.
    exfalso. apply Hn. rewrite <- E. now apply in_map.
  - destruct (p b) eqn:E.
    + apply (Hp b (or_introl eq_refl)) in E.
      exfalso. apply Hn. rewrite E. now apply in_map.
    + apply IH; [assumption | assumption |].
      intros x Hx. apply Hp. now right.
Qed.

Lemma user_items_In (rows : list Row5) : forall items,
  user_items rows = Ok items ->
  forall e, In e items <->
    exists r i l, In r rows /\ r5_item r = Some i /\ r5_link r = Some l /\
                  e = mk_item_view i l.
Proof.
  induction rows as [|r rows IH]; simpl; intros items H e.
  - inversion H; subst. split; [intros [] | intros [? [? [? [[] _]]]]].
  - destruct (r5_item r) as [i|] eqn:Ei.
    + destruct (r5_link r) as [l|] eqn:El; [|discriminate].
      destruct (user_items rows) as [vs|] eqn:Ev; simpl in H; [|discriminate].
      inversion H; subst. simpl. rewrite (IH vs eq_refl e). split.
      * intros [He|[r' [i' [l' [Hr' Hrest]]]]].
        -- exists r, i, l. subst e. tauto.
        -- exists r', i', l'. tauto.
      * intros [r' [i' [l' [[Hr'|Hr'] [Hi' [Hl' He]]]]]].
        -- left. subst r'. congruence.
        -- right. exists r', i', l'. tauto.
    + rewrite (IH items H e). split.
      * intros [r' [i' [l' [Hr' Hrest]]]]. exists r', i', l'. tauto.
      * intros [r' [i' [l' [[Hr'|Hr'] [Hi' [Hl' He]]]]]].
        -- subst r'. congruence.
        -- exists r', i', l'. tauto.
Qed.

Lemma get_user_by_id_items (s : Session) (uid : UUID) (v : UserView) :
  get_user_by_id s uid = Ok v ->
  user_items (select_join5 s (id_is uid)) = Ok (uv_items v).
Proof.
  unfold get_user_by_id. intro H.
  destruct (select_join5 s (id_is uid)) as [|r rs] eqn:E; [discriminate|].
  destruct (construct_user_view_fields s _ H) as [row0 [rest [_ [_ [Hi _]]]]].
  exact Hi.
Qed.

(** The item entries of a fetched view are the links of the user whose item
    exists, each with the flag of its link. *)
Lemma get_user_by_id_item_entries (s : Session) (uid : UUID) (v : UserView) :
  get_user_by_id s uid = Ok v ->
  forall e, In e (uv_items v) <->
    exists u l i, In u (db_users s) /\ user_id u = uid /\
                  In l (db_user_item_links s) /\ uil_user_id l = uid /\
                  In i (db_items s) /\ item_id i = uil_item_id l /\
                  e = mk_item_view i l.
Proof.
  intros H e. rewrite (user_items_In _ (get_user_by_id_items s uid H) e). split.
  - intros [r [i [l [Hr [Hi [Hl He]]]]]].
    apply select_join5_In in Hr. destruct Hr as [Hu [Hc Hj]].
    apply join5_user_In in Hj. destruct Hj as [_ [Hlink [Hitem _]]].
    rewrite Hl in Hlink, Hitem. rewrite Hi in Hitem.
    apply (proj1 (outer_Some _ _)) in Hlink. apply (proj1 (outer_Some _ _)) in Hitem.
    unfold links_of in Hlink. unfold items_of in Hitem.
    apply filter_In in Hlink. apply filter_In in Hitem.
    destruct Hlink as [Hlin Hleq]. destruct Hitem as [Hiin Hieq].
    apply N.eqb_eq in Hleq, Hieq, Hc.
    exists (r5_user r), l, i. repeat split; try assumption; congruence.
  - intros [u [l [i [Hu [Huid [Hl [Hluid [Hi [Hiid He]]]]]]]]].
    destruct (outer (quest_links_of s u)) as [|oql ?] eqn:Eql;
      [now apply outer_not_nil in Eql|].
    destruct (outer (quests_of s oql)) as [|oq ?] eqn:Eq;
      [now apply outer_not_nil in Eq|].
    exists (Build_Row5 u (Some l) (Some i) oql oq), i, l.
    repeat split; try assumption.
    apply select_join5_In. simpl. repeat split; try assumption.
    + unfold id_is. now apply N.eqb_eq.
    + apply join5_user_intro.
      * apply outer_Some. unfold links_of. apply filter_In. split; [assumption|].
        apply N.eqb_eq. congruence.
      * apply outer_Some. unfold items_of. apply filter_In. split; [assumption|].
        apply N.eqb_eq. congruence.
      * rewrite Eql. now left.
      * rewrite Eq. now left.
Qed.

Lemma link_is_true (uid iid : UUID) (l : UserItemLink) :
  link_is uid iid l = true <-> uil_user_id l = uid /\ uil_item_id l = iid.
Proof. unfold link_is. now rewrite andb_true_iff, !N.eqb_eq. Qed.

(** What a successful [equip_item_to_user] did: both lookups found one row,
    the link was rewritten, and the view was fetched from the new session. *)
Lemma equip_item_to_user_Ok (s s' : Session) (uid iid : UUID) (equipped : bool) (v : UserView) :
  equip_item_to_user s uid iid equipped = (s', Ok v) ->
  exists u item_link,
    filter (id_is uid) (db_users s) = [u] /\
    filter (link_is uid iid) (db_user_item_links s) = [item_link] /\
    s' = with_user_item_links s
           (map (fun l => if link_is uid iid l then with_equipped l equipped else l)
                (db_user_item_links s)) /\
    get_user_by_id s' uid = Ok v.
Proof.
  unfold equip_item_to_user.
  destruct (one (filter (id_is uid) (db_users s))) as [u|e] eqn:Eu.
  2:{ destruct e; intro H; inversion H. }
  destruct (one (filter (link_is uid iid) (db_user_item_links s))) as [l0|e] eqn:El.
  2:{ destruct e; intro H; inversion H. }
  apply one_Ok in Eu, El. intro H. inversion H as [[Hs Hv]].
  exists u, l0. repeat split; try assumption.
  unfold store_equipped.
  assert (Hl0 : link_is uid iid l0 = true).
  { assert (Hin : In l0 (filter (link_is uid iid) (db_user_item_links s)))
      by (rewrite El; now left).
    apply filter_In in Hin. tauto. }
  apply link_is_true in Hl0. destruct Hl0 as [-> ->]. reflexivity.
Qed.

(** C7. With the user present and no link for ([uid], [iid]),
    [equip_item_to_user] raises [ItemLinkToUserNotFoundError] and leaves the
    session as it was.  When it returns a view, every item entry of the view
    for [iid] carries the requested flag (and there is one as soon as the
    item exists), the links other than the one for ([uid], [iid]) are kept as
    they were, and every other item entry shows the flag its link had before
    the call. *)
Theorem equip_item_to_user_spec (s : Session) (uid iid : UUID) (equipped : bool) :
  (NoDup (map user_id (db_users s)) ->
   (exists u, In u (db_users s) /\ user_id u = uid) ->
   (forall l, In l (db_user_item_links s) ->
              ~ (uil_user_id l = uid /\ uil_item_id l = iid)) ->
   equip_item_to_user s uid iid equipped =
     (s, Raise (ItemLinkToUserNotFoundError iid))) /\
  (forall s' v,
     equip_item_to_user s uid iid equipped = (s', Ok v) ->
     (forall e, In e (uv_items v) -> iuv_id e = iid -> iuv_equipped e = equipped) /\
     ((exists i, In i (db_items s) /\ item_id i = iid) ->
      exists e, In e (uv_items v) /\ iuv_id e = iid /\ iuv_equipped e = equipped) /\
     db_user_item_links s' =
       map (fun l => if link_is uid iid l then with_equipped l equipped else l)
           (db_user_item_links s) /\
     (forall l, link_is uid iid l = false ->
                (In l (db_user_item_links s) <-> In l (db_user_item_links s'))) /\
     (forall e, In e (uv_items v) -> iuv_id e <> iid ->
        exists l, In l (db_user_item_links s) /\ uil_user_id l = uid /\
                  uil_item_id l = iuv_id e /\ uil_equipped l = iuv_equipped e)).
Proof.
  split.
  - intros ND [u [Hu Huid]] Hno. unfold equip_item_to_user.
    rewrite (filter_unique user_id (id_is uid) (db_users s) u ND Hu).
    2:{ intros x _. unfold id_is. rewrite N.eqb_eq, Huid. tauto. }
    simpl.
    replace (filter (link_is uid iid) (db_user_item_links s)) with (@nil UserItemLink);
      [reflexivity|].
    symmetry. apply filter_nil_iff. intros l Hl.
    destruct (link_is uid iid l) eqn:E; [|reflexivity].
    apply link_is_true in E. exfalso. exact (Hno l Hl E).
  - intros s' v H.
    destruct (equip_item_to_user_Ok s uid iid equipped H)
      as [u [l0 [Hus [Hls [Hs' Hget]]]]].
    pose proof (get_user_by_id_item_entries s' uid Hget) as Hent.
    assert (Hlinks : db_user_item_links s' =
              map (fun l => if link_is uid iid l then with_equipped l equipped else l)
                  (db_user_item_links s)) by (rewrite Hs'; reflexivity).
    assert (Hitems : db_items s' = db_items s) by (rewrite Hs'; reflexivity).
    assert (Husers : db_users s' = db_users s) by (rewrite Hs'; reflexivity).
    assert (Hl0 : In l0 (db_user_item_links s) /\ link_is uid iid l0 = true).
    { apply filter_In. rewrite Hls. now left. }
    assert (Hu : In u (db_users s) /\ id_is uid u = true).
    { apply filter_In. rewrite Hus. now left. }
    split; [|split; [|split; [|split]]].
    + intros e He Hid. apply Hent in He.
      destruct He as [u' [l [i [_ [_ [Hl [Hluid [_ [Hiid He]]]]]]]]].
      rewrite Hlinks in Hl. apply in_map_iff in Hl. destruct Hl as [l1 [Hl1 _]].
      subst e. simpl in *.
      destruct (link_is uid iid l1) eqn:E; subst l; [reflexivity|].
      assert (link_is uid iid l1 = true) by (apply link_is_true; split; congruence).
      congruence.
    + intros [i [Hi Hiid]].
      exists (mk_item_view i (with_equipped l0 equipped)).
      split; [|split; [exact Hiid | reflexivity]].
      apply Hent. exists u, (with_equipped l0 equipped), i.
      destruct Hl0 as [Hl0 Hl0is]. destruct Hu as [Hu Huid].
      pose proof (proj1 (link_is_true uid iid l0) Hl0is) as [Hl0u Hl0i].
      unfold id_is in Huid. apply N.eqb_eq in Huid.
      repeat split; simpl; try congruence.
      * rewrite Hlinks. apply in_map_iff. exists l0. now rewrite Hl0is.
    + exact Hlinks.
    + intros l Hnot. rewrite Hlinks, in_map_iff. split.
      * intro Hl. exists l. now rewrite Hnot.
      * intros [l1 [Hl1 Hin]].
        destruct (link_is uid iid l1) eqn:E; [|now subst l].
        subst l. unfold link_is in Hnot, E. simpl in Hnot. congruence.
    + intros e He Hid. apply Hent in He.
      destruct He as [u' [l [i [_ [_ [Hl [Hluid [_ [Hiid He]]]]]]]]].
      rewrite Hlinks in Hl. apply in_map_iff in Hl. destruct Hl as [l1 [Hl1 Hin1]].
      subst e. simpl in *.
      destruct (link_is uid iid l1) eqn:E.
      * apply link_is_true in E. subst l. simpl in *. exfalso. apply Hid.
        destruct E. congruence.
      * subst l. exists l1. repeat split; congruence.
Qed.

Lemma first_filter_none {A} (p : A -> bool) (l : list A) :
  (forall a, In a l -> p a = false) -> first (filter p l) = None.
Proof. intro H. now rewrite (proj2 (filter_nil_iff p l) H). Qed.

(** C8. When the commit signals [IntegrityError] and neither re-query finds
    a user, with the requested email or with the requested username,
    [create_user] raises nothing and returns [None], the session unchanged. *)
Theorem create_user_silent_none (get_password_hash : string -> string)
    (integrity_error : Session -> User -> bool)
    (s : Session) (new_id : UUID) (user_create : UserCreate) :
  integrity_error s (new_user_row get_password_hash new_id user_create) = true ->
  (forall u, In u (db_users s) -> user_email u <> uc_email user_create) ->
  (forall u, In u (db_users s) -> user_username u <> uc_username user_create) ->
  create_user get_password_hash integrity_error s new_id user_create = (s, Ok None).
Proof.
  intros Hint Hemail Hname. unfold create_user. cbv zeta. rewrite Hint.
  rewrite first_filter_none.
  2:{ intros u Hu. unfold email_is. apply String.eqb_neq. now apply Hemail. }
  rewrite first_filter_none.
  2:{ intros u Hu. unfold username_is. apply String.eqb_neq. now apply Hname. }
  reflexivity.
Qed.

Lemma store_password_lookup (s : Session) (uid : UUID) (db_user : User) (password : string) :
  filter (id_is uid) (db_users s) = [db_user] ->
  filter (id_is uid) (db_users (store_password s db_user password)) =
  [with_password db_user password].
Proof.
  intro H.
  assert (Hin : In db_user (filter (id_is uid) (db_users s))) by (rewrite H; now left).
  apply filter_In in Hin. destruct Hin as [_ Hid].
  unfold id_is in Hid. apply N.eqb_eq in Hid.
  unfold store_password. simpl. rewrite filter_map_swap.
  rewrite (filter_ext _ (id_is uid)).
  2:{ intro u. now destruct (id_is (user_id db_user) u). }
  rewrite H. simpl. unfold id_is. now rewrite N.eqb_refl.
Qed.

(** C9. [update_user_password] writes the string it is given into the
    [password] column: once it has found the user, it returns a view and the
    row then stored under that id holds the raw input.  [create_user], by
    contrast, stores [get_password_hash] of the input. *)
Theorem update_user_password_stores_raw (s : Session) (uid : UUID) (password : string)
    (db_user : User) :
  one (filter (id_is uid) (db_users s)) = Ok db_user ->
  (exists v, update_user_password s uid password =
               (store_password s db_user password, Ok v)) /\
  one (filter (id_is uid) (db_users (fst (update_user_password s uid password)))) =
    Ok (with_password db_user password) /\
  user_password (with_password db_user password) = password /\
  (forall get_password_hash integrity_error new_id user_create,
     integrity_error s (new_user_row get_password_hash new_id user_create) = false ->
     exists u,
       create_user get_password_hash integrity_error s new_id user_create =
         (with_users s (db_users s ++ [u]), Ok (Some u)) /\
       user_password u = get_password_hash (uc_password user_create)).
Proof.
  intro Hone. pose proof (one_Ok _ Hone) as Hf.
  pose proof (store_password_lookup s uid password Hf) as Hf'.
  assert (Hid : user_id db_user = uid).
  { assert (Hin : In db_user (filter (id_is uid) (db_users s))) by (rewrite Hf; now left).
    apply filter_In in Hin. destruct Hin as [_ Hid]. now apply N.eqb_eq in Hid. }
  assert (Hupd : update_user_password s uid password =
            (store_password s db_user password,
             _construct_user_view (store_password s db_user password)
               (select_join5 (store_password s db_user password) (id_is uid)))).
  { unfold update_user_password. rewrite Hone. cbv zeta. now rewrite Hid. }
  split; [|split; [|split]].
  - destruct (construct_user_view_returns (store_password s db_user password)
                (store_password s db_user password) (id_is uid)) as [v Hv].
    + rewrite select_join5_nil, Hf'. discriminate.
    + exists v. now rewrite Hupd, Hv.
  - rewrite Hupd. simpl fst. now rewrite Hf'.
  - reflexivity.
  - intros get_password_hash integrity_error new_id user_create Hint.
    exists (new_user_row get_password_hash new_id user_create).
    unfold create_user. cbv zeta. rewrite Hint. split; reflexivity.
Qed.

Lemma dedup_first_length {A K} (eqb : K -> K -> bool) (key : A -> K) (l : list A) :
  List.length (dedup_first eqb key l) <= List.length l.
Proof.
  induction l as [|a l IH]; simpl; [lia|].
  pose proof (filter_length_le (fun y => negb (eqb (key y) (key a)))
                (dedup_first eqb key l)). lia.
Qed.

Lemma construct_user_views_length (rows : list Row9) :
  List.length (_construct_user_views rows) <= List.length rows.
Proof.
  rewrite construct_user_views_eq, length_map. apply dedup_first_length.
Qed.

Lemma limit_rows_length {A} (limit : Z) (rows : list A) :
  (0 <= limit)%Z -> (Z.of_nat (List.length (limit_rows limit rows)) <= limit)%Z.
Proof.
  intro H. unfold limit_rows.
  destruct (limit <? 0)%Z eqn:E; [apply Z.ltb_lt in E; lia|].
  pose proof (firstn_le_length (Z.to_nat limit) rows). lia.
Qed.

Lemma limit_rows_negative {A} (limit : Z) (rows : list A) :
  (limit < 0)%Z -> limit_rows limit rows = rows.
Proof. intro H. unfold limit_rows. now rewrite (proj2 (Z.ltb_lt _ _) H). Qed.

(** On natural numbers the integer reading is the plain cut. *)
Lemma get_users_int_of_nat (s : Session) (offset limit : nat) :
  get_users_int s (Z.of_nat offset) (Z.of_nat limit) = get_users s offset limit.
Proof.
  unfold get_users_int, get_users, get_users_int_rows, get_users_rows,
    limit_rows, offset_rows.
  rewrite !Nat2Z.id.
  destruct (Z.of_nat limit <? 0)%Z eqn:E; [apply Z.ltb_lt in E; lia | reflexivity].
Qed.

(** C10, as amended. [get_users] cuts the joined, ordered rows with [offset]
    and [limit] and only then aggregates.  For a limit that is not negative
    at most [limit] rows reach the aggregator and at most [limit] views come
    back; a negative limit cuts nothing.  A user whose rows cross the cut can
    get a view with fewer items than the aggregation of all rows gives, and a
    page can hold fewer views than users although every user fits the
    limit. *)
Theorem get_users_cuts_rows :
  (forall s offset limit,
     get_users_int s offset limit =
       _construct_user_views
         (limit_rows limit (offset_rows offset (order_by_username (select_join9 s))))) /\
  (forall s offset limit, (0 <= limit)%Z ->
     (Z.of_nat (List.length (get_users_int_rows s offset limit)) <= limit)%Z /\
     (Z.of_nat (List.length (get_users_int s offset limit)) <= limit)%Z) /\
  (forall s offset limit, (limit < 0)%Z ->
     get_users_int_rows s offset limit =
       skipn (Z.to_nat offset) (order_by_username (select_join9 s))) /\
  (exists s offset limit pid v v_all,
     (0 <= limit)%Z /\
     In v (get_users_int s offset limit) /\ view_user_id v = Some pid /\
     In v_all (_construct_user_views (order_by_username (select_join9 s))) /\
     view_user_id v_all = Some pid /\
     List.length (uv_items v) < List.length (uv_items v_all)) /\
  (exists s limit,
     (Z.of_nat (List.length (db_users s)) <= limit)%Z /\
     List.length (get_users_int s 0 limit) < List.length (db_users s)).
Proof.
  split; [|split; [|split; [|split]]].
  - reflexivity.
  - intros s offset limit Hl.
    assert (H : (Z.of_nat (List.length (get_users_int_rows s offset limit)) <= limit)%Z)
      by (apply limit_rows_length; exact Hl).
    split; [exact H|].
    unfold get_users_int.
    pose proof (construct_user_views_length (get_users_int_rows s offset limit)). lia.
  - intros s offset limit Hl. unfold get_users_int_rows.
    now rewrite limit_rows_negative.
  - exists sample_session, 0%Z, 1%Z, 1%N.
    eexists. eexists. vm_compute.
    split; [discriminate|].
    split; [left; reflexivity|]. split; [reflexivity|].
    split; [left; reflexivity|]. split; [reflexivity|]. lia.
  - exists sample_session, 2%Z. vm_compute. split; [discriminate | lia].
Qed.

(** C10, as first stated, fails twice on the sample session.  With limit -1
    all thirteen joined rows are consumed, more than the limit.  With limit 7
    the cut falls inside the twelve rows of alice, seven of them consumed,
    and her view is still the one the aggregation of all rows gives. *)
Lemma get_users_cut_counterexample :
  ~ (Z.of_nat (List.length (get_users_int_rows sample_session 0 (-1))) <= -1)%Z /\
  (List.length (rows_of 1%N (get_users_int_rows sample_session 0 7)) = 7 /\
   List.length (rows_of 1%N (order_by_username (select_join9 sample_session))) = 12 /\
   filter (view_is_for 1%N) (get_users_int sample_session 0 7) =
   filter (view_is_for 1%N)
     (_construct_user_views (order_by_username (select_join9 sample_session)))).
Proof.
  split.
  - vm_compute. intro H. now apply H.
  - repeat split; reflexivity.
Qed.

Lemma user_items_ids (rows : list Row5) : forall items,
  user_items rows = Ok items ->
  map iuv_id items = map item_id (collect r5_item rows).
Proof.
  induction rows as [|r rows IH]; simpl; intros items H.
  - now inversion H.
  - destruct (r5_item r) as [i|]; [|now apply IH].
    destruct (r5_link r) as [l|]; [|discriminate].
    destruct (user_items rows) as [vs|]; simpl in H; [|discriminate].
    inversion H; subst. simpl. f_equal. now apply IH.
Qed.

(** The single-user aggregator copies the item ids of its rows one for one:
    its items are free of repeats exactly when the rows are. *)
Lemma construct_user_view_items_ids (s : Session) (rows : list Row5) (v : UserView) :
  _construct_user_view s rows = Ok v ->
  map iuv_id (uv_items v) = map item_id (collect r5_item rows).
Proof.
  intro H. destruct (construct_user_view_fields s rows H) as [row0 [rest [_ [_ [Hi _]]]]].
  now apply user_items_ids.
Qed.

(** C2. On the rows the join returns for alice, who holds two items and
    takes part in two quests, [_construct_user_view] lists every item and
    every quest twice, although all rows share the same user. *)
Theorem construct_user_view_repeats_items :
  let rows := select_join5 sample_session (id_is 1%N) in
  rows <> [] /\
  (forall r, In r rows -> r5_user r = alice) /\
  exists v,
    get_user_by_id sample_session 1%N = Ok v /\
    _construct_user_view sample_session rows = Ok v /\
    map iuv_id (uv_items v) = [10; 10; 11; 11]%N /\
    map quv_id (uv_quests v) = [20; 21; 20; 21]%N /\
    ~ NoDup (map iuv_id (uv_items v)) /\
    ~ NoDup (map quv_id (uv_quests v)).
Proof.
  cbv zeta. split; [vm_compute; discriminate|]. split.
  - vm_compute. intros r H.
    repeat (destruct H as [H|H]; [subst r; reflexivity|]). destruct H.
  - eexists. split; [vm_compute; reflexivity|]. split; [vm_compute; reflexivity|].
    split; [reflexivity|]. split; [reflexivity|]. split.
    + simpl. intro H. inversion H as [|? ? Hn _]; subst. apply Hn. now left.
    + simpl. intro H. inversion H as [|? ? _ H']; subst.
      inversion H' as [|? ? _ H'']; subst.
      inversion H as [|? ? Hn _]; subst. apply Hn. right. now left.
Qed.

(** ** The sample session, worked *)

(** The twelve rows the full join returns for alice collapse to two items,
    three tasks and two quests; bob gets an empty view. *)
Example get_users_sample :
  map (fun v => (view_user_id v, map iuv_id (uv_items v), map ov_id (uv_tasks v),
                 map quv_id (uv_quests v)))
      (get_users sample_session 0 100) =
  [ (Some 1, [10; 11], [30; 31; 32], [20; 21]);
    (Some 2, [], [], []) ]%N.
Proof. reflexivity. Qed.

Lemma construct_user_views_item_once_witness :
  exists v,
    filter (view_is_for 1%N) (_construct_user_views (select_join9 sample_session)) = [v] /\
    List.length (filter (fun e => N.eqb (iuv_id e) 10%N) (uv_items v)) = 1.
Proof.
  apply (@construct_user_views_item_once (select_join9 sample_session) 1%N 10%N).
  exists (Build_Row9 alice (Some alice_sword) (Some sword) (Some (chore 30%N))
            None None None (Some alice_hunt) (Some hunt)), alice_sword, sword.
  split; [vm_compute; left; reflexivity|].
  repeat split; reflexivity.
Defined.

Lemma construct_user_views_order_witness :
  exists v,
    In v (_construct_user_views (select_join9 sample_session)) /\
    view_user_id v = Some 1%N /\
    map (fun e => (iuv_id e, 1%N)) (uv_items v) =
      first_occurrences pair_eqb
        (entry_keys item_entry (rows_of 1%N (select_join9 sample_session))).
Proof.
  assert (H : exists v, In v (_construct_user_views (select_join9 sample_session)) /\
                        view_user_id v = Some 1%N).
  { vm_compute. eexists. split; [left; reflexivity | reflexivity]. }
  destruct H as [v [Hin Hid]]. exists v.
  split; [exact Hin|]. split; [exact Hid|].
  exact (proj1 (proj2 (@construct_user_views_order (select_join9 sample_session))
                 v 1%N Hin Hid)).
Defined.

Lemma views_exclude_password_witness :
  exists v,
    _construct_user_view sample_session (select_join5 sample_session (id_is 1%N)) = Ok v /\
    kwargs_get "password" (uv_fields v) = None /\
    ~ In "password"%string (map fst (uv_fields v)).
Proof.
  assert (H : exists v, _construct_user_view sample_session
                          (select_join5 sample_session (id_is 1%N)) = Ok v).
  { vm_compute. eexists. reflexivity. }
  destruct H as [v Hv]. exists v. split; [exact Hv|].
  exact (proj1 (@views_exclude_password) sample_session
           (select_join5 sample_session (id_is 1%N)) v Hv).
Defined.

Lemma fetch_not_found_witness :
  select_join5 sample_session (id_is 99%N) = [] /\
  get_user_by_id sample_session 99%N = Raise (UserNotFoundError 99%N).
Proof.
  assert (H : select_join5 sample_session (id_is 99%N) = []) by reflexivity.
  split; [exact H|].
  exact (proj2 (proj1 (proj1 (@fetch_not_found sample_session) 99%N)) H).
Defined.

Lemma equip_item_to_user_spec_witness :
  equip_item_to_user sample_session 2%N 10%N true =
    (sample_session, Raise (ItemLinkToUserNotFoundError 10%N)) /\
  exists s' v,
    equip_item_to_user sample_session 1%N 10%N true = (s', Ok v) /\
    (forall e, In e (uv_items v) -> iuv_id e = 10%N -> iuv_equipped e = true).
Proof.
  split.
  - apply (proj1 (@equip_item_to_user_spec sample_session 2%N 10%N true)).
    + simpl. constructor; [intros [H|[]]; discriminate|].
      constructor; [intros [] | constructor].
    + exists bob. split; [right; left; reflexivity | reflexivity].
    + simpl. intros l [<-|[<-|[]]] [H _]; discriminate.
  - assert (H : exists s' v,
               equip_item_to_user sample_session 1%N 10%N true = (s', Ok v)).
    { vm_compute. eexists. eexists. reflexivity. }
    destruct H as [s' [v Hv]]. exists s', v. split; [exact Hv|].
    exact (proj1 (proj2 (@equip_item_to_user_spec sample_session 1%N 10%N true) s' v Hv)).
Defined.

Lemma create_user_silent_none_witness :
  unique_columns sample_session (new_user_row sample_hash 1%N carol_create) = true /\
  create_user sample_hash unique_columns sample_session 1%N carol_create =
    (sample_session, Ok None).
Proof.
  assert (H : unique_columns sample_session (new_user_row sample_hash 1%N carol_create)
              = true) by reflexivity.
  split; [exact H|].
  apply (@create_user_silent_none sample_hash unique_columns sample_session 1%N
           carol_create H).
  - simpl. intros u [<-|[<-|[]]]; discriminate.
  - simpl. intros u [<-|[<-|[]]]; discriminate.
Defined.

Lemma update_user_password_stores_raw_witness :
  one (filter (id_is 1%N) (db_users sample_session)) = Ok alice /\
  one (filter (id_is 1%N)
         (db_users (fst (update_user_password sample_session 1%N "plain text")))) =
    Ok (with_password alice "plain text").
Proof.
  assert (H : one (filter (id_is 1%N) (db_users sample_session)) = Ok alice)
    by reflexivity.
  split; [exact H|].
  exact (proj1 (proj2 (@update_user_password_stores_raw sample_session 1%N
                         "plain text" alice H))).
Defined.

(** * Further properties *)

(** ** The batch aggregator as a grouping *)

(** X1. [_construct_user_views] is a grouping of its rows: one view per distinct
    user id, in the order the ids first appear, built from the first row of
    the user and, per collection, from the first of the user's rows carrying
    each key; what later rows say about a key already seen is ignored. *)
Theorem construct_user_views_grouping (rows : list Row9) :
  _construct_user_views rows =
  map (grouped_view rows) (dedup_first N.eqb row_user_id rows).
Proof.
  rewrite construct_user_views_eq. apply map_ext. intro r0.
  apply view_of_user_data_of.
Qed.

Lemma views_grouped (rows : list Row9) :
  _construct_user_views rows =
  map (grouped_view rows) (dedup_first N.eqb row_user_id rows).
Proof.
  rewrite construct_user_views_eq. apply map_ext. intro r0.
  apply view_of_user_data_of.
Qed.

Lemma grouped_view_keys (rows : list Row9) (r0 : Row9) :
  let v := grouped_view rows r0 in
  let pid := row_user_id r0 in
  map (fun e => (iuv_id e, pid)) (uv_items v) =
    first_occurrences pair_eqb (entry_keys item_entry (rows_of pid rows)) /\
  map ov_id (uv_tasks v) =
    first_occurrences N.eqb (entry_keys task_entry (rows_of pid rows)) /\
  map ov_id (uv_ratings v) =
    first_occurrences N.eqb (entry_keys rating_entry (rows_of pid rows)) /\
  map ov_id (uv_comments v) =
    first_occurrences N.eqb (entry_keys comment_entry (rows_of pid rows)) /\
  map ov_id (uv_reactions v) =
    first_occurrences N.eqb (entry_keys reaction_entry (rows_of pid rows)) /\
  map (fun e => (quv_id e, pid)) (uv_quests v) =
    first_occurrences pair_eqb (entry_keys quest_entry (rows_of pid rows)).
Proof.
  cbv zeta. unfold grouped_view, entry_keys. simpl.
  repeat split.
  - apply first_keys_pairs. intros k v. apply item_entry_shape.
  - apply first_keys_ids. intros k v. apply (owned_entry_shape r9_task).
  - apply first_keys_ids. intros k v. apply (owned_entry_shape r9_rating).
  - apply first_keys_ids. intros k v. apply (owned_entry_shape r9_comment).
  - apply first_keys_ids. intros k v. apply (owned_entry_shape r9_reaction).
  - apply first_keys_pairs. intros k v. apply quest_entry_shape.
Qed.

Lemma NoDup_first_occurrences {K} (eqb : K -> K -> bool)
    (eqb_eq : forall a b, eqb a b = true <-> a = b) (l : list K) :
  NoDup (first_occurrences eqb l).
Proof.
  unfold first_occurrences.
  pose proof (NoDup_dedup_first eqb eqb_eq (fun k : K => k) l) as H.
  now rewrite map_id in H.
Qed.

Lemma In_first_occurrences {K} (eqb : K -> K -> bool)
    (eqb_eq : forall a b, eqb a b = true <-> a = b) (l : list K) (k : K) :
  In k (first_occurrences eqb l) <-> In k l.
Proof.
  unfold first_occurrences. split; [apply dedup_first_incl|].
  intro H.
  pose proof (existsb_dedup_first eqb eqb_eq (fun x : K => x) k l) as E.
  cbv beta in E.
  assert (Hl : existsb (fun y => eqb k y) l = true).
  { apply existsb_exists. exists k. split; [assumption | now apply eqb_eq]. }
  rewrite Hl in E. apply existsb_exists in E. destruct E as [x [Hx Hk]].
  apply eqb_eq in Hk. now subst x.
Qed.

Lemma NoDup_map_fst_pair {A} (f : A -> UUID) (pid : UUID) (l : list A) :
  NoDup (map (fun e => (f e, pid)) l) -> NoDup (map f l).
Proof.
  intro H. apply (NoDup_map_inv (fun x : UUID => (x, pid))).
  now rewrite map_map.
Qed.

Lemma NoDup_map_Some {A} (l : list A) : NoDup l -> NoDup (map Some l).
Proof.
  induction 1 as [|a l Hn ND IH]; simpl; constructor; [|assumption].
  intro H. apply in_map_iff in H. destruct H as [x [Hx Hin]].
  inversion Hx; subst. contradiction.
Qed.

Lemma grouped_view_id (rows : list Row9) (r0 : Row9) :
  view_user_id (grouped_view rows r0) = Some (row_user_id r0).
Proof. reflexivity. Qed.

(** X2. No two views of [_construct_user_views] are for the same user, and
    inside a view no collection holds two entries with the same child id. *)
Theorem construct_user_views_no_repeats (rows : list Row9) :
  NoDup (map view_user_id (_construct_user_views rows)) /\
  forall v, In v (_construct_user_views rows) ->
    NoDup (map iuv_id (uv_items v)) /\
    NoDup (map ov_id (uv_tasks v)) /\
    NoDup (map ov_id (uv_ratings v)) /\
    NoDup (map ov_id (uv_comments v)) /\
    NoDup (map ov_id (uv_reactions v)) /\
    NoDup (map quv_id (uv_quests v)).
Proof.
  rewrite views_grouped. split.
  - rewrite map_map.
    rewrite (map_ext _ (fun r0 => Some (row_user_id r0))) by apply grouped_view_id.
    rewrite <- (map_map row_user_id Some). apply NoDup_map_Some.
    apply (NoDup_dedup_first N.eqb N.eqb_eq).
  - intros v Hv. apply in_map_iff in Hv. destruct Hv as [r0 [Hv _]]. subst v.
    destruct (grouped_view_keys rows r0) as [Hi [Ht [Hra [Hc [Hre Hq]]]]].
    cbv zeta in *.
    repeat split.
    + apply (NoDup_map_fst_pair iuv_id (row_user_id r0)). rewrite Hi.
      apply (NoDup_first_occurrences pair_eqb pair_eqb_eq).
    + rewrite Ht. apply (NoDup_first_occurrences N.eqb N.eqb_eq).
    + rewrite Hra. apply (NoDup_first_occurrences N.eqb N.eqb_eq).
    + rewrite Hc. apply (NoDup_first_occurrences N.eqb N.eqb_eq).
    + rewrite Hre. apply (NoDup_first_occurrences N.eqb N.eqb_eq).
    + apply (NoDup_map_fst_pair quv_id (row_user_id r0)). rewrite Hq.
      apply (NoDup_first_occurrences pair_eqb pair_eqb_eq).
Qed.

Lemma count_one {A} (f : A -> UUID) (l : list A) (k : UUID) :
  NoDup (map f l) -> In k (map f l) ->
  List.length (filter (fun e => N.eqb (f e) k) l) = 1.
Proof.
  induction l as [|a l IH]; simpl; intros ND Hin; [destruct Hin|].
  inversion ND as [|? ? Hn ND']; subst.
  destruct (N.eqb (f a) k) eqn:E.
  - apply N.eqb_eq in E. simpl. f_equal.
    rewrite (proj2 (filter_nil_iff (fun e => N.eqb (f e) k) l)); [reflexivity|].
    intros x Hx. apply N.eqb_neq. intro Hk. apply Hn. rewrite E, <- Hk.
    now apply in_map.
  - apply N.eqb_neq in E. destruct Hin as [Hin|Hin]; [contradiction|].
    now apply IH.
Qed.

Lemma views_for_row_user (rows : list Row9) (r : Row9) :
  In r rows ->
  exists r0, In r0 rows /\ row_user_id r0 = row_user_id r /\
    filter (view_is_for (row_user_id r)) (_construct_user_views rows) =
      [grouped_view rows r0].
Proof.
  intro Hin. rewrite views_for_user.
  destruct (find_exists (fun x => N.eqb (row_user_id r) (row_user_id x)) rows r Hin)
    as [r0 [Hf [Hp Hr0]]]; [apply N.eqb_refl|].
  rewrite Hf. apply N.eqb_eq in Hp. exists r0.
  split; [assumption|]. split; [now symmetry|].
  now rewrite view_of_user_data_of.
Qed.

Lemma owned_key_present (f : Row9 -> option Owned) (rows : list Row9) (r : Row9) (o : Owned) :
  In r rows -> f r = Some o ->
  In (owned_id o)
     (entry_keys (fun x => owned_entry (f x)) (rows_of (row_user_id r) rows)).
Proof.
  intros Hin Hf. unfold entry_keys. apply in_map_iff.
  exists (owned_id o, mk_owned_view o). split; [reflexivity|].
  apply collect_In. exists r. split.
  - apply filter_In. split; [assumption | apply N.eqb_refl].
  - now rewrite Hf.
Qed.

Lemma row_children_once (rows : list Row9) (r : Row9) :
  In r rows ->
  exists v,
    filter (view_is_for (row_user_id r)) (_construct_user_views rows) = [v] /\
    (forall l i, r9_link r = Some l -> r9_item r = Some i ->
       List.length (filter (fun e => N.eqb (iuv_id e) (item_id i)) (uv_items v)) = 1) /\
    (forall t, r9_task r = Some t ->
       List.length (filter (fun e => N.eqb (ov_id e) (owned_id t)) (uv_tasks v)) = 1) /\
    (forall t, r9_rating r = Some t ->
       List.length (filter (fun e => N.eqb (ov_id e) (owned_id t)) (uv_ratings v)) = 1) /\
    (forall t, r9_comment r = Some t ->
       List.length (filter (fun e => N.eqb (ov_id e) (owned_id t)) (uv_comments v)) = 1) /\
    (forall t, r9_reaction r = Some t ->
       List.length (filter (fun e => N.eqb (ov_id e) (owned_id t)) (uv_reactions v)) = 1) /\
    (forall l q, r9_quest_link r = Some l -> r9_quest r = Some q ->
       List.length (filter (fun e => N.eqb (quv_id e) (quest_id q)) (uv_quests v)) = 1).
Proof.
  intro Hin. destruct (views_for_row_user rows r Hin) as [r0 [Hr0 [Hid Hv]]].
  exists (grouped_view rows r0). split; [exact Hv|].
  destruct (grouped_view_keys rows r0) as [Hi [Ht [Hra [Hc [Hre Hq]]]]].
  cbv zeta in *. rewrite Hid in *.
  repeat split.
  - intros l i Hl Hi'.
    assert (Hnd : NoDup (map iuv_id (uv_items (grouped_view rows r0)))).
    { apply (NoDup_map_fst_pair iuv_id (row_user_id r)). rewrite Hi.
      apply (NoDup_first_occurrences pair_eqb pair_eqb_eq). }
    apply count_one; [exact Hnd|].
    assert (Hk : In (item_id i, row_user_id r)
                    (map (fun e => (iuv_id e, row_user_id r))
                         (uv_items (grouped_view rows r0)))).
    { rewrite Hi. apply (In_first_occurrences pair_eqb pair_eqb_eq).
      unfold entry_keys. apply in_map_iff.
      exists ((item_id i, row_user_id r), mk_item_view i l).
      split; [reflexivity|]. apply collect_In. exists r. split.
      - apply filter_In. split; [assumption | apply N.eqb_refl].
      - unfold item_entry. now rewrite Hl, Hi'. }
    apply in_map_iff in Hk. destruct Hk as [e [He Hine]].
    apply in_map_iff. exists e. split; [congruence | assumption].
  - intros t Ht'. apply count_one.
    + rewrite Ht. apply (NoDup_first_occurrences N.eqb N.eqb_eq).
    + rewrite Ht. apply (In_first_occurrences N.eqb N.eqb_eq).
      now apply (owned_key_present r9_task).
  - intros t Ht'. apply count_one.
    + rewrite Hra. apply (NoDup_first_occurrences N.eqb N.eqb_eq).
    + rewrite Hra. apply (In_first_occurrences N.eqb N.eqb_eq).
      now apply (owned_key_present r9_rating).
  - intros t Ht'. apply count_one.
    + rewrite Hc. apply (NoDup_first_occurrences N.eqb N.eqb_eq).
    + rewrite Hc. apply (In_first_occurrences N.eqb N.eqb_eq).
      now apply (owned_key_present r9_comment).
  - intros t Ht'. apply count_one.
    + rewrite Hre. apply (NoDup_first_occurrences N.eqb N.eqb_eq).
    + rewrite Hre. apply (In_first_occurrences N.eqb N.eqb_eq).
      now apply (owned_key_present r9_reaction).
  - intros l q Hl Hq'.
    assert (Hnd : NoDup (map quv_id (uv_quests (grouped_view rows r0)))).
    { apply (NoDup_map_fst_pair quv_id (row_user_id r)). rewrite Hq.
      apply (NoDup_first_occurrences pair_eqb pair_eqb_eq). }
    apply count_one; [exact Hnd|].
    assert (Hk : In (quest_id q, row_user_id r)
                    (map (fun e => (quv_id e, row_user_id r))
                         (uv_quests (grouped_view rows r0)))).
    { rewrite Hq. apply (In_first_occurrences pair_eqb pair_eqb_eq).
      unfold entry_keys. apply in_map_iff.
      exists ((quest_id q, row_user_id r), mk_quest_view q None l).
      split; [reflexivity|]. apply collect_In. exists r. split.
      - apply filter_In. split; [assumption | apply N.eqb_refl].
      - unfold quest_entry. now rewrite Hl, Hq'. }
    apply in_map_iff in Hk. destruct Hk as [e [He Hine]].
    apply in_map_iff. exists e. split; [congruence | assumption].
Qed.

(** X3. Whenever a row carries a task, a rating, a comment, a reaction or a
    quest with its participation, exactly one view is built for the user of
    the row and its collection of that kind holds exactly one entry with the
    id of the child, however many rows repeat it. *)
Theorem construct_user_views_child_once (rows : list Row9) (r : Row9) :
  In r rows ->
  exists v,
    filter (view_is_for (row_user_id r)) (_construct_user_views rows) = [v] /\
    (forall t, r9_task r = Some t ->
       List.length (filter (fun e => N.eqb (ov_id e) (owned_id t)) (uv_tasks v)) = 1) /\
    (forall t, r9_rating r = Some t ->
       List.length (filter (fun e => N.eqb (ov_id e) (owned_id t)) (uv_ratings v)) = 1) /\
    (forall t, r9_comment r = Some t ->
       List.length (filter (fun e => N.eqb (ov_id e) (owned_id t)) (uv_comments v)) = 1) /\
    (forall t, r9_reaction r = Some t ->
       List.length (filter (fun e => N.eqb (ov_id e) (owned_id t)) (uv_reactions v)) = 1) /\
    (forall l q, r9_quest_link r = Some l -> r9_quest r = Some q ->
       List.length (filter (fun e => N.eqb (quv_id e) (quest_id q)) (uv_quests v)) = 1).
Proof.
  intro Hin. destruct (row_children_once rows r Hin) as [v [Hv [_ H]]].
  exists v. split; assumption.
Qed.

(** ** The single-user aggregator and the fetches *)

Lemma user_items_outcome (rows : list Row5) :
  (exists items, user_items rows = Ok items /\
                 forall r, In r rows -> r5_item r <> None -> r5_link r <> None) \/
  (user_items rows = Raise AttributeError /\
   exists r, In r rows /\ r5_item r <> None /\ r5_link r = None).
Proof.
  induction rows as [|r rows IH]; simpl.
  - left. exists []. split; [reflexivity | intros r []].
  - destruct (r5_item r) as [i|] eqn:Ei.
    + destruct (r5_link r) as [l|] eqn:El.
      * destruct IH as [[items [Hi Hall]]|[Hr [x [Hx Hbad]]]].
        -- left. rewrite Hi. simpl. eexists. split; [reflexivity|].
           intros x [<-|Hx]; [congruence | now apply Hall].
        -- right. rewrite Hr. simpl. split; [reflexivity|]. exists x. tauto.
      * right. split; [reflexivity|]. exists r.
        split; [now left|]. split; congruence.
    + destruct IH as [[items [Hi Hall]]|[Hr [x [Hx Hbad]]]].
      * left. exists items. split; [assumption|].
        intros x [<-|Hx]; [congruence | now apply Hall].
      * right. split; [assumption|]. exists x. tauto.
Qed.

Lemma user_quests_outcome (user : User) (rows : list Row5) :
  (exists quests, user_quests user rows = Ok quests /\
                  forall r, In r rows -> r5_quest r <> None -> r5_quest_link r <> None) \/
  (user_quests user rows = Raise AttributeError /\
   exists r, In r rows /\ r5_quest r <> None /\ r5_quest_link r = None).
Proof.
  induction rows as [|r rows IH]; simpl.
  - left. exists []. split; [reflexivity | intros r []].
  - destruct (r5_quest r) as [q|] eqn:Eq.
    + destruct (r5_quest_link r) as [l|] eqn:El.
      * destruct IH as [[quests [Hq Hall]]|[Hr [x [Hx Hbad]]]].
        -- left. rewrite Hq. simpl. eexists. split; [reflexivity|].
           intros x [<-|Hx]; [congruence | now apply Hall].
        -- right. rewrite Hr. simpl. split; [reflexivity|]. exists x. tauto.
      * right. split; [reflexivity|]. exists r.
        split; [now left|]. split; congruence.
    + destruct IH as [[quests [Hq Hall]]|[Hr [x [Hx Hbad]]]].
      * left. exists quests. split; [assumption|].
        intros x [<-|Hx]; [congruence | now apply Hall].
      * right. split; [assumption|]. exists x. tauto.
Qed.

(** X4. [_construct_user_view] raises [IndexError] on no rows; on some rows it
    returns a view exactly when no row carries an item without its link or a
    quest without its participation, and raises [AttributeError] otherwise. *)
Theorem construct_user_view_outcome (s : Session) (rows : list Row5) :
  (rows = [] -> _construct_user_view s rows = Raise IndexError) /\
  (rows <> [] ->
     ((exists v, _construct_user_view s rows = Ok v) <->
      (forall r, In r rows -> linked r)) /\
     ((exists v, _construct_user_view s rows = Ok v) \/
      _construct_user_view s rows = Raise AttributeError)).
Proof.
  split; [intros ->; reflexivity|].
  intro Hne. destruct rows as [|row0 rest]; [congruence|].
  unfold _construct_user_view. cbv zeta.
  destruct (user_items_outcome (row0 :: rest)) as [[items [Hi Hia]]|[Hi [x [Hx [Hxi Hxl]]]]];
    rewrite Hi; cbn [bind].
  - destruct (user_quests_outcome (r5_user row0) (row0 :: rest))
      as [[quests [Hq Hqa]]|[Hq [x [Hx [Hxq Hxl]]]]]; rewrite Hq; cbn [bind].
    + split; [|left; eauto]. split; [|eauto].
      intros _ r Hr. split; [now apply Hia | now apply Hqa].
    + split; [|now right]. split; [intros [v Hv]; discriminate|].
      intro Hall. destruct (Hall x Hx) as [_ Hl]. exfalso. now apply Hl.
  - split; [|now right]. split; [intros [v Hv]; discriminate|].
    intro Hall. destruct (Hall x Hx) as [Hl _]. exfalso. now apply Hl.
Qed.

Lemma fetch_first_row (s : Session) (cond : User -> bool) (err : exn) (v : UserView) :
  match select_join5 s cond with
  | [] => Raise err
  | rows => _construct_user_view s rows
  end = Ok v ->
  exists u, In u (db_users s) /\ cond u = true /\
    v = {| uv_fields := user_model_dump_exclude ["password"%string] u;
           uv_items := uv_items v;
           uv_quests := uv_quests v;
           uv_tasks := map mk_owned_view (owned_by u (db_tasks s));
           uv_ratings := map mk_owned_view (owned_by u (db_ratings s));
           uv_comments := map mk_owned_view (owned_by u (db_comments s));
           uv_reactions := map mk_owned_view (owned_by u (db_reactions s)) |}.
Proof.
  destruct (select_join5 s cond) as [|row0 rest] eqn:E; [discriminate|].
  assert (Hin : In row0 (select_join5 s cond)) by (rewrite E; now left).
  apply select_join5_In in Hin. destruct Hin as [Hu [Hc _]].
  unfold _construct_user_view. cbv zeta.
  destruct (user_items (row0 :: rest)); [|discriminate].
  destruct (user_quests (r5_user row0) (row0 :: rest)); [|discriminate].
  simpl. intro H. inversion H; subst. exists (r5_user row0). simpl. tauto.
Qed.

(** X6. A fetch that returns gives the view of a stored user with the requested
    id, username or email: the view carries that value in its fields. *)
Theorem fetch_returns_requested (s : Session) (v : UserView) :
  (forall uid, get_user_by_id s uid = Ok v -> view_user_id v = Some uid) /\
  (forall name, get_user_by_username s name = Ok v -> view_username v = Some name) /\
  (forall email, get_user_by_email s email = Ok v ->
     kwargs_get "email" (uv_fields v) = Some (VStr email)).
Proof.
  split; [|split].
  - intros uid H. destruct (fetch_first_row s (id_is uid) _ H) as [u [_ [Hc Hv]]].
    rewrite Hv. unfold id_is in Hc. apply N.eqb_eq in Hc. now rewrite <- Hc.
  - intros name H.
    destruct (fetch_first_row s (username_is name) _ H) as [u [_ [Hc Hv]]].
    rewrite Hv. unfold username_is in Hc. apply String.eqb_eq in Hc. now rewrite <- Hc.
  - intros email H.
    destruct (fetch_first_row s (email_is email) _ H) as [u [_ [Hc Hv]]].
    rewrite Hv. unfold email_is in Hc. apply String.eqb_eq in Hc. now rewrite <- Hc.
Qed.

Lemma owned_by_id (u : User) (rows : list Owned) :
  owned_by u rows = filter (fun o => N.eqb (owned_user_id o) (user_id u)) rows.
Proof. reflexivity. Qed.

(** X7. The view [get_user_by_id] returns takes its tasks, ratings, comments and
    reactions from the rows of the session owned by the user, in table
    order, whatever the join returned; its items are empty exactly when the
    user has no link to an existing item. *)
Theorem get_user_by_id_collections (s : Session) (uid : UUID) (v : UserView) :
  get_user_by_id s uid = Ok v ->
  uv_tasks v =
    map mk_owned_view (filter (fun o => N.eqb (owned_user_id o) uid) (db_tasks s)) /\
  uv_ratings v =
    map mk_owned_view (filter (fun o => N.eqb (owned_user_id o) uid) (db_ratings s)) /\
  uv_comments v =
    map mk_owned_view (filter (fun o => N.eqb (owned_user_id o) uid) (db_comments s)) /\
  uv_reactions v =
    map mk_owned_view (filter (fun o => N.eqb (owned_user_id o) uid) (db_reactions s)) /\
  (uv_items v = [] <->
   forall l i, In l (db_user_item_links s) -> uil_user_id l = uid ->
               In i (db_items s) -> item_id i <> uil_item_id l).
Proof.
  intro H. pose proof (get_user_by_id_item_entries s uid H) as Hent.
  destruct (fetch_first_row s (id_is uid) _ H) as [u [Hu [Hc Hv]]].
  unfold id_is in Hc. apply N.eqb_eq in Hc.
  repeat split; try (rewrite Hv; simpl; rewrite owned_by_id, Hc; reflexivity).
  - intros Hnil l i Hl Hluid Hi Heq.
    assert (Hin : In (mk_item_view i l) (uv_items v)).
    { apply Hent. exists u, l, i. tauto. }
    rewrite Hnil in Hin. destruct Hin.
  - intro Hno. destruct (uv_items v) as [|e es] eqn:E; [reflexivity|].
    assert (Hin : In e (e :: es)) by now left.
    apply Hent in Hin. destruct Hin as [u' [l [i [_ [_ [Hl [Hluid [Hi [Hiid _]]]]]]]]].
    exfalso. exact (Hno l i Hl Hluid Hi Hiid).
Qed.

(** ** Creating a user *)

Lemma join5_user_rows_user (s : Session) (cond : User -> bool) (u : User) :
  filter (fun r => cond (r5_user r)) (join5_user s u) =
  if cond u then join5_user s u else [].
Proof.
  destruct (cond u) eqn:E.
  - apply forallb_filter_id. apply forallb_forall. intros r Hr.
    apply join5_user_In in Hr. destruct Hr as [-> _]. exact E.
  - apply filter_nil_iff. intros r Hr.
    apply join5_user_In in Hr. destruct Hr as [-> _]. exact E.
Qed.

Lemma select_join5_app (s : Session) (cond : User -> bool) (us : list User) (u : User) :
  db_users s = us ++ [u] ->
  select_join5 s cond =
  filter (fun r => cond (r5_user r)) (flat_map (join5_user s) us) ++
  (if cond u then join5_user s u else []).
Proof.
  intro H. unfold select_join5. rewrite H, flat_map_app, filter_app. simpl.
  now rewrite app_nil_r, join5_user_rows_user.
Qed.

Lemma stats_of_tribe (tribe : tribe_value) :
  [ ("intelligence", stat "intelligence" (calculate_initial_stats tribe));
    ("strength", stat "strength" (calculate_initial_stats tribe));
    ("agility", stat "agility" (calculate_initial_stats tribe));
    ("wise", stat "wise" (calculate_initial_stats tribe));
    ("psycho", stat "psycho" (calculate_initial_stats tribe)) ]%string =
  calculate_initial_stats tribe.
Proof. destruct tribe as [[]| |repr]; reflexivity. Qed.

(** X10. When the commit is accepted and the new id is unused, [create_user]
    returns the row it appended to the users: the payload with the hashed
    password and the stats of the tribe.  The new user can then be fetched
    by id, and fetching any other id gives what it gave before. *)
Theorem create_user_stores_row (get_password_hash : string -> string)
    (integrity_error : Session -> User -> bool)
    (s : Session) (new_id : UUID) (user_create : UserCreate) :
  integrity_error s (new_user_row get_password_hash new_id user_create) = false ->
  (forall u, In u (db_users s) -> user_id u <> new_id) ->
  exists u s',
    create_user get_password_hash integrity_error s new_id user_create =
      (s', Ok (Some u)) /\
    db_users s' = db_users s ++ [u] /\
    user_id u = new_id /\
    user_username u = uc_username user_create /\
    user_email u = uc_email user_create /\
    user_tribe u = uc_tribe user_create /\
    user_password u = get_password_hash (uc_password user_create) /\
    [ ("intelligence", user_intelligence u); ("strength", user_strength u);
      ("agility", user_agility u); ("wise", user_wise u);
      ("psycho", user_psycho u) ]%string =
      calculate_initial_stats (uc_tribe user_create) /\
    (exists v, get_user_by_id s' new_id = Ok v /\
               uv_fields v = user_model_dump_exclude ["password"%string] u) /\
    (forall uid, uid <> new_id -> get_user_by_id s' uid = get_user_by_id s uid).
Proof.
  intros Hint Hfresh.
  set (u := new_user_row get_password_hash new_id user_create).
  set (s' := with_users s (db_users s ++ [u])).
  exists u, s'.
  assert (Hcreate : create_user get_password_hash integrity_error s new_id user_create =
                    (s', Ok (Some u))).
  { unfold create_user. cbv zeta. now rewrite Hint. }
  split; [exact Hcreate|].
  split; [reflexivity|]. split; [reflexivity|]. split; [reflexivity|].
  split; [reflexivity|]. split; [reflexivity|]. split; [reflexivity|].
  split; [apply stats_of_tribe|].
  assert (Hold : forall cond, filter (fun r => cond (r5_user r))
                                (flat_map (join5_user s') (db_users s)) =
                              select_join5 s cond) by reflexivity.
  split.
  - assert (Hne : select_join5 s' (id_is new_id) <> []).
    { rewrite select_join5_nil. simpl. rewrite filter_app. simpl.
      unfold id_is at 2. simpl. rewrite N.eqb_refl.
      intro H. apply app_eq_nil in H. destruct H as [_ H]. discriminate. }
    destruct (proj1 (proj2 (fetch_or_not_found s' (id_is new_id) (UserNotFoundError new_id)))
                Hne) as [v Hv].
    exists v. split; [exact Hv|].
    destruct (fetch_first_row s' (id_is new_id) _ Hv) as [u' [Hu' [Hc Hfields]]].
    rewrite Hfields. simpl. f_equal.
    simpl in Hu'. apply in_app_or in Hu'. destruct Hu' as [Hu'|[Hu'|[]]].
    + unfold id_is in Hc. apply N.eqb_eq in Hc. exfalso. exact (Hfresh u' Hu' Hc).
    + now symmetry.
  - intros uid Hneq. unfold get_user_by_id.
    rewrite (@select_join5_app s' (id_is uid) (db_users s) u eq_refl), Hold.
    replace (id_is uid u) with false.
    2:{ symmetry. unfold id_is. apply N.eqb_neq. simpl. congruence. }
    rewrite app_nil_r. reflexivity.
Qed.


(** ** Equipping an item *)

Lemma fetch_existing (s : Session) (uid : UUID) (u : User) :
  In u (db_users s) -> user_id u = uid -> exists v, get_user_by_id s uid = Ok v.
Proof.
  intros Hu Hid.
  apply (proj1 (proj2 (fetch_or_not_found s (id_is uid) (UserNotFoundError uid)))).
  rewrite select_join5_nil. intro H.
  assert (Hin : In u (filter (id_is uid) (db_users s))).
  { apply filter_In. split; [assumption|]. unfold id_is. now apply N.eqb_eq. }
  rewrite H in Hin. destruct Hin.
Qed.

Lemma filter_singleton_In {A} (p : A -> bool) (l : list A) (a : A) :
  filter p l = [a] -> In a l /\ p a = true.
Proof. intro H. apply filter_In. rewrite H. now left. Qed.

(** X12. [equip_item_to_user] reports a missing user before it looks at the
    link, changes nothing when it raises, and when it returns a view it has
    rewritten the link table only and the view is the one of [uid].  It
    returns a view as soon as one user row and one link row match. *)
Theorem equip_item_to_user_outcome (s : Session) (uid iid : UUID) (equipped : bool) :
  (filter (id_is uid) (db_users s) = [] ->
   equip_item_to_user s uid iid equipped = (s, Raise (UserNotFoundError uid))) /\
  (forall s' e, equip_item_to_user s uid iid equipped = (s', Raise e) -> s' = s) /\
  (forall s' v, equip_item_to_user s uid iid equipped = (s', Ok v) ->
     s' = with_user_item_links s (db_user_item_links s') /\
     view_user_id v = Some uid /\
     get_user_by_id s' uid = Ok v) /\
  (forall u l,
     filter (id_is uid) (db_users s) = [u] ->
     filter (link_is uid iid) (db_user_item_links s) = [l] ->
     exists v, equip_item_to_user s uid iid equipped =
                 (store_equipped s l equipped, Ok v)).
Proof.
  assert (Hreturns : forall u l,
            filter (id_is uid) (db_users s) = [u] ->
            exists v, get_user_by_id (store_equipped s l equipped) uid = Ok v).
  { intros u l Hu. apply filter_singleton_In in Hu. destruct Hu as [Hu Hid].
    apply (@fetch_existing (store_equipped s l equipped) uid u); [exact Hu|].
    unfold id_is in Hid. now apply N.eqb_eq. }
  split; [|split; [|split]].
  - intro H. unfold equip_item_to_user. now rewrite H.
  - intros s' e. unfold equip_item_to_user.
    destruct (filter (id_is uid) (db_users s)) as [|u [|u2 us]] eqn:Eu; simpl;
      try (intro H; inversion H; reflexivity).
    destruct (filter (link_is uid iid) (db_user_item_links s)) as [|l [|l2 ls]] eqn:El;
      simpl; try (intro H; inversion H; reflexivity).
    destruct (Hreturns u l eq_refl) as [v Hv]. rewrite Hv. discriminate.
  - intros s' v H.
    destruct (equip_item_to_user_Ok s uid iid equipped H) as [u [l [_ [_ [Hs' Hget]]]]].
    split; [rewrite Hs' at 1; rewrite Hs'; reflexivity|].
    split; [|exact Hget].
    destruct (fetch_first_row s' (id_is uid) _ Hget) as [u' [_ [Hc Hv]]].
    rewrite Hv. unfold id_is in Hc. apply N.eqb_eq in Hc. now rewrite <- Hc.
  - intros u l Hu Hl. unfold equip_item_to_user. rewrite Hu, Hl. simpl.
    destruct (Hreturns u l Hu) as [v Hv]. exists v. now rewrite Hv.
Qed.

Lemma link_is_with_equipped (uid iid : UUID) (l : UserItemLink) (b : bool) :
  link_is uid iid (with_equipped l b) = link_is uid iid l.
Proof. reflexivity. Qed.

(** X13. A second [equip_item_to_user] on the same link overrides the first: it
    gives the session and the view the second call alone would have given.
    In particular, repeating a call changes nothing. *)
Theorem equip_item_to_user_last_wins (s s' : Session) (uid iid : UUID)
    (b b' : bool) (v : UserView) :
  equip_item_to_user s uid iid b = (s', Ok v) ->
  equip_item_to_user s' uid iid b' = equip_item_to_user s uid iid b' /\
  equip_item_to_user s' uid iid b = (s', Ok v).
Proof.
  intro H.
  assert (Hgen : forall c, equip_item_to_user s' uid iid c = equip_item_to_user s uid iid c).
  { intro c.
    destruct (equip_item_to_user_Ok s uid iid b H) as [u [l0 [Hus [Hls [Hs' _]]]]].
    pose proof (filter_singleton_In _ _ Hls) as [_ Hl0].
    apply link_is_true in Hl0. destruct Hl0 as [Hl0u Hl0i].
    unfold equip_item_to_user. rewrite Hs'. simpl db_users. simpl db_user_item_links.
    rewrite Hus. simpl one.
    rewrite filter_map_swap.
    rewrite (filter_ext (fun a => link_is uid iid (if link_is uid iid a
                                                   then with_equipped a b else a))
               (link_is uid iid)).
    2:{ intro a. now destruct (link_is uid iid a) eqn:E. }
    rewrite Hls. simpl map. simpl one.
    replace (link_is uid iid l0) with true by (symmetry; apply link_is_true; tauto).
    cbv zeta.
    replace (store_equipped
               (with_user_item_links s
                  (map (fun l => if link_is uid iid l then with_equipped l b else l)
                     (db_user_item_links s)))
               (with_equipped l0 b) c)
      with (store_equipped s l0 c); [reflexivity|].
    unfold store_equipped, with_user_item_links. simpl. rewrite Hl0u, Hl0i. f_equal.
    rewrite map_map. apply map_ext. intro a.
    destruct (link_is uid iid a) eqn:E; [|now rewrite E].
    now rewrite link_is_with_equipped, E. }
  split; [apply Hgen | now rewrite Hgen].
Qed.

(** ** Changing the password *)

Lemma map_flat_map {A B C} (g : B -> C) (f : A -> list B) (l : list A) :
  map g (flat_map f l) = flat_map (fun a => map g (f a)) l.
Proof.
  induction l as [|a l IH]; simpl; [reflexivity|]. now rewrite map_app, IH.
Qed.

Lemma join5_user_with_password (s : Session) (us : list User) (u : User) (password : string) :
  join5_user (with_users s us) (with_password u password) =
  map (row5_with_password password) (join5_user s u).
Proof.
  unfold join5_user. rewrite map_flat_map. apply flat_map_ext. intro ol.
  rewrite map_flat_map. apply flat_map_ext. intro oi.
  rewrite map_flat_map. apply flat_map_ext. intro oql.
  rewrite map_map. reflexivity.
Qed.

Lemma construct_user_view_ignores_password (s : Session) (us : list User)
    (password : string) (rows : list Row5) :
  _construct_user_view (with_users s us) (map (row5_with_password password) rows) =
  _construct_user_view s rows.
Proof.
  destruct rows as [|row0 rest]; [reflexivity|].
  pose proof (user_items_ignores_password password (row0 :: rest)) as Hi.
  pose proof (user_quests_ignores_password password (r5_user row0) (row0 :: rest)) as Hq.
  cbn [map] in Hi, Hq. unfold _construct_user_view. cbv zeta.
  cbn [map]. rewrite Hi.
  change (r5_user (row5_with_password password row0))
    with (with_password (r5_user row0) password).
  rewrite Hq. reflexivity.
Qed.

Lemma select_join5_rewritten (s : Session) (us l : list User) (uid : UUID)
    (password : string) :
  filter (fun r => id_is uid (r5_user r))
    (flat_map (join5_user (with_users s us))
       (map (fun u => if id_is uid u then with_password u password else u) l)) =
  map (row5_with_password password)
    (filter (fun r => id_is uid (r5_user r)) (flat_map (join5_user s) l)).
Proof.
  induction l as [|x l IH]; [reflexivity|].
  cbn [map flat_map]. rewrite !filter_app, map_app, IH. f_equal.
  destruct (id_is uid x) eqn:E.
  - rewrite join5_user_with_password.
    rewrite (join5_user_rows_user s (id_is uid) x), E.
    rewrite filter_map_swap.
    rewrite (filter_ext _ (fun r => id_is uid (r5_user r))) by reflexivity.
    now rewrite (join5_user_rows_user s (id_is uid) x), E.
  - rewrite (join5_user_rows_user s (id_is uid) x), E.
    change (join5_user (with_users s us) x) with (join5_user s x).
    now rewrite (join5_user_rows_user s (id_is uid) x), E.
Qed.

Lemma select_join5_store_password (s : Session) (uid : UUID) (password : string) :
  let users' := map (fun u => if id_is uid u then with_password u password else u)
                    (db_users s) in
  select_join5 (with_users s users') (id_is uid) =
  map (row5_with_password password) (select_join5 s (id_is uid)).
Proof. cbv zeta. unfold select_join5. simpl db_users. apply select_join5_rewritten. Qed.

(** X15. [update_user_password] raises [UserNotFoundError] and changes nothing
    when no user has the id.  When it finds the user, the view it returns is
    the one [get_user_by_id] gave before the call, only the [users] table is
    rewritten, and the rows of the other users are kept as they were. *)
Theorem update_user_password_view (s : Session) (uid : UUID) (password : string) :
  (filter (id_is uid) (db_users s) = [] ->
   update_user_password s uid password = (s, Raise (UserNotFoundError uid))) /\
  (forall db_user,
     one (filter (id_is uid) (db_users s)) = Ok db_user ->
     snd (update_user_password s uid password) = get_user_by_id s uid /\
     fst (update_user_password s uid password) =
       with_users s (db_users (fst (update_user_password s uid password))) /\
     map user_id (db_users (fst (update_user_password s uid password))) =
       map user_id (db_users s) /\
     (forall u, In u (db_users s) -> user_id u <> uid ->
                In u (db_users (fst (update_user_password s uid password))))).
Proof.
  split.
  - intro H. unfold update_user_password. now rewrite H.
  - intros db_user Hone. pose proof (one_Ok _ Hone) as Hf.
    pose proof (filter_singleton_In _ _ Hf) as [Hin Hid].
    unfold id_is in Hid. apply N.eqb_eq in Hid.
    unfold update_user_password. rewrite Hone. cbv zeta.
    unfold store_password. rewrite Hid. simpl fst. simpl snd.
    split; [|split; [|split]].
    + rewrite (select_join5_store_password s uid password).
      rewrite construct_user_view_ignores_password.
      unfold get_user_by_id.
      destruct (select_join5 s (id_is uid)) as [|r rs] eqn:E; [|reflexivity].
      apply select_join5_nil in E. rewrite Hf in E. discriminate.
    + reflexivity.
    + simpl. rewrite map_map. apply map_ext. intro u.
      now destruct (id_is uid u).
    + intros u Hu Hneq. simpl. apply in_map_iff. exists u. split; [|assumption].
      unfold id_is. now rewrite (proj2 (N.eqb_neq _ _) Hneq).
Qed.

(** ** The listings *)

Lemma join9_user_In (s : Session) (u : User) (r : Row9) :
  In r (join9_user s u) <->
  r9_user r = u /\
  In (r9_link r) (outer (links_of s u)) /\
  In (r9_item r) (outer (items_of s (r9_link r))) /\
  In (r9_task r) (outer (owned_by u (db_tasks s))) /\
  In (r9_rating r) (outer (owned_by u (db_ratings s))) /\
  In (r9_comment r) (outer (owned_by u (db_comments s))) /\
  In (r9_reaction r) (outer (owned_by u (db_reactions s))) /\
  In (r9_quest_link r) (outer (quest_links_of s u)) /\
  In (r9_quest r) (outer (quests_of s (r9_quest_link r))).
Proof.
  unfold join9_user. split.
  - intro H.
    apply in_flat_map in H. destruct H as [ol [Hol H]].
    apply in_flat_map in H. destruct H as [oi [Hoi H]].
    apply in_flat_map in H. destruct H as [ot [Hot H]].
    apply in_flat_map in H. destruct H as [ora [Hora H]].
    apply in_flat_map in H. destruct H as [oc [Hoc H]].
    apply in_flat_map in H. destruct H as [ore [Hore H]].
    apply in_flat_map in H. destruct H as [oql [Hoql H]].
    apply in_map_iff in H. destruct H as [oq [Hr Hoq]].
    subst r. simpl. tauto.
  - destruct r as [u' ol oi ot ora oc ore oql oq]. simpl.
    intros [-> [H1 [H2 [H3 [H4 [H5 [H6 [H7 H8]]]]]]]].
    apply in_flat_map. exists ol. split; [assumption|].
    apply in_flat_map. exists oi. split; [assumption|].
    apply in_flat_map. exists ot. split; [assumption|].
    apply in_flat_map. exists ora. split; [assumption|].
    apply in_flat_map. exists oc. split; [assumption|].
    apply in_flat_map. exists ore. split; [assumption|].
    apply in_flat_map. exists oql. split; [assumption|].
    apply in_map_iff. exists oq. tauto.
Qed.

Lemma select_join9_In (s : Session) (r : Row9) :
  In r (select_join9 s) <-> In (r9_user r) (db_users s) /\ In r (join9_user s (r9_user r)).
Proof.
  unfold select_join9. rewrite in_flat_map. split.
  - intros [u [Hu Hr]]. pose proof (proj1 (join9_user_In s u r) Hr) as [Hru _].
    subst u. tauto.
  - intros [Hu Hr]. exists (r9_user r). tauto.
Qed.

Lemma In_firstn {A} (n : nat) (l : list A) (a : A) : In a (firstn n l) -> In a l.
Proof.
  intro H. rewrite <- (firstn_skipn n l). apply in_or_app. now left.
Qed.

Lemma In_skipn {A} (n : nat) (l : list A) (a : A) : In a (skipn n l) -> In a l.
Proof.
  intro H. rewrite <- (firstn_skipn n l). apply in_or_app. now right.
Qed.

Lemma Tribe_eqb_eq (a b : Tribe) : Tribe_eqb a b = true <-> a = b.
Proof. destruct a, b; simpl; split; intro H; try reflexivity; discriminate. Qed.

Lemma views_from_rows (rows : list Row9) (v : UserView) :
  In v (_construct_user_views rows) ->
  exists r0, In r0 rows /\ v = grouped_view rows r0.
Proof.
  rewrite views_grouped. intro H. apply in_map_iff in H.
  destruct H as [r0 [Hv Hr0]]. exists r0. split; [|now symmetry].
  now apply (dedup_first_incl N.eqb row_user_id).
Qed.

Lemma In_limit_rows {A} (limit : Z) (rows : list A) (a : A) :
  In a (limit_rows limit rows) -> In a rows.
Proof.
  unfold limit_rows. destruct (limit <? 0)%Z; [tauto | apply In_firstn].
Qed.

Lemma In_offset_rows {A} (offset : Z) (rows : list A) (a : A) :
  In a (offset_rows offset rows) -> In a rows.
Proof. apply In_skipn. Qed.

(** X21. For a limit that is not negative [get_users_by_tribe] returns at
    most [limit] views; whatever the offset and the limit, each view it
    returns is that of a stored user of the requested tribe. *)
Theorem get_users_by_tribe_of_tribe (s : Session) (tribe : Tribe) (offset limit : Z) :
  ((0 <= limit)%Z ->
   (Z.of_nat (List.length (get_users_by_tribe s tribe offset limit)) <= limit)%Z) /\
  forall v, In v (get_users_by_tribe s tribe offset limit) ->
    kwargs_get "tribe" (uv_fields v) = Some (VTribe (TribeMember tribe)) /\
    exists u, In u (db_users s) /\ user_tribe u = TribeMember tribe /\
              view_user_id v = Some (user_id u).
Proof.
  split.
  - intro Hl. unfold get_users_by_tribe.
    pose proof (construct_user_views_length (get_users_by_tribe_rows s tribe offset limit)).
    assert ((Z.of_nat (List.length (get_users_by_tribe_rows s tribe offset limit))
             <= limit)%Z) by (apply limit_rows_length; exact Hl).
    lia.
  - intros v Hv. unfold get_users_by_tribe in Hv.
    apply views_from_rows in Hv. destruct Hv as [r0 [Hr0 Hv]].
    unfold get_users_by_tribe_rows in Hr0.
    apply In_limit_rows, In_offset_rows, filter_In in Hr0. destruct Hr0 as [Hr0 Ht].
    apply select_join9_In in Hr0. destruct Hr0 as [Hu _].
    assert (Htribe : user_tribe (r9_user r0) = TribeMember tribe).
    { unfold tribe_is in Ht. destruct (user_tribe (r9_user r0)); try discriminate.
      apply Tribe_eqb_eq in Ht. now subst. }
    subst v. split.
    + rewrite <- Htribe. reflexivity.
    + exists (r9_user r0). repeat split; assumption.
Qed.

Lemma string_leb_trans (a b c : string) :
  String.leb a b = true -> String.leb b c = true -> String.leb a c = true.
Proof.
  unfold String.leb. intros Hab Hbc.
  destruct (String.compare a b) eqn:Eab; [| |discriminate].
  - apply OrderedTypeEx.String_as_OT.cmp_eq in Eab. now subst b.
  - destruct (String.compare b c) eqn:Ebc; [| |discriminate].
    + apply OrderedTypeEx.String_as_OT.cmp_eq in Ebc. subst c. now rewrite Eab.
    + apply OrderedTypeEx.String_as_OT.cmp_lt in Eab, Ebc.
      pose proof (OrderedTypeEx.String_as_OT.lt_trans _ _ _ Eab Ebc) as Hac.
      apply OrderedTypeEx.String_as_OT.cmp_lt in Hac.
      unfold OrderedTypeEx.String_as_OT.cmp in Hac. now rewrite Hac.
Qed.

Lemma insert_by_username_In (r x : Row9) (rows : list Row9) :
  In x (insert_by_username r rows) <-> x = r \/ In x rows.
Proof.
  induction rows as [|y rows IH]; simpl.
  - split; [intros [H|[]]; now left | intros [H|[]]; now left].
  - destruct (String.leb _ _); simpl; [|rewrite IH]; intuition congruence.
Qed.

Lemma order_by_username_In (x : Row9) (rows : list Row9) :
  In x (order_by_username rows) <-> In x rows.
Proof.
  induction rows as [|r rows IH]; simpl; [tauto|].
  rewrite insert_by_username_In, IH. intuition congruence.
Qed.

Lemma insert_by_username_length (r : Row9) (rows : list Row9) :
  List.length (insert_by_username r rows) = S (List.length rows).
Proof.
  induction rows as [|y rows IH]; simpl; [reflexivity|].
  destruct (String.leb _ _); simpl; [reflexivity | now rewrite IH].
Qed.

Lemma order_by_username_length (rows : list Row9) :
  List.length (order_by_username rows) = List.length rows.
Proof.
  induction rows as [|r rows IH]; simpl; [reflexivity|].
  now rewrite insert_by_username_length, IH.
Qed.

Lemma insert_by_username_sorted (r : Row9) (rows : list Row9) :
  StronglySorted (fun a b => String.leb (user_username (r9_user a))
                                        (user_username (r9_user b)) = true) rows ->
  StronglySorted (fun a b => String.leb (user_username (r9_user a))
                                        (user_username (r9_user b)) = true)
                 (insert_by_username r rows).
Proof.
  induction 1 as [|y rows Hs IH Hall]; simpl.
  - constructor; constructor.
  - destruct (String.leb (user_username (r9_user r)) (user_username (r9_user y))) eqn:E.
    + constructor; [constructor; assumption|].
      constructor; [assumption|].
      apply Forall_forall. intros z Hz. rewrite Forall_forall in Hall.
      eapply string_leb_trans; [exact E | now apply Hall].
    + constructor; [assumption|].
      apply Forall_forall. intros z Hz. apply insert_by_username_In in Hz.
      destruct Hz as [->|Hz].
      * destruct (String.leb_total (user_username (r9_user r))
                                   (user_username (r9_user y))); congruence.
      * rewrite Forall_forall in Hall. now apply Hall.
Qed.

Lemma order_by_username_sorted (rows : list Row9) :
  StronglySorted (fun a b => String.leb (user_username (r9_user a))
                                        (user_username (r9_user b)) = true)
                 (order_by_username rows).
Proof.
  induction rows as [|r rows IH]; simpl; [constructor|].
  now apply insert_by_username_sorted.
Qed.

Section SortedSublists.
Variable A : Type.
Variable R : A -> A -> Prop.

Lemma StronglySorted_filter (p : A -> bool) (l : list A) :
  StronglySorted R l -> StronglySorted R (filter p l).
Proof.
  induction 1 as [|a l Hs IH Hall]; simpl; [constructor|].
  destruct (p a); [|assumption]. constructor; [assumption|].
  apply Forall_forall. intros x Hx. apply filter_In in Hx.
  rewrite Forall_forall in Hall. now apply Hall.
Qed.

Lemma StronglySorted_skipn (n : nat) (l : list A) :
  StronglySorted R l -> StronglySorted R (skipn n l).
Proof.
  revert l; induction n as [|n IH]; intros l H; [assumption|].
  destruct l as [|a l]; [constructor|]. simpl. apply IH. now inversion H.
Qed.

Lemma StronglySorted_firstn (n : nat) (l : list A) :
  StronglySorted R l -> StronglySorted R (firstn n l).
Proof.
  revert l; induction n as [|n IH]; intros l H; [constructor|].
  destruct l as [|a l]; [constructor|]. simpl.
  inversion H as [|? ? Hs Hall]; subst. constructor; [now apply IH|].
  apply Forall_forall. intros x Hx. apply In_firstn in Hx.
  rewrite Forall_forall in Hall. now apply Hall.
Qed.

Lemma StronglySorted_dedup_first {K} (eqb : K -> K -> bool) (key : A -> K) (l : list A) :
  StronglySorted R l -> StronglySorted R (dedup_first eqb key l).
Proof.
  induction 1 as [|a l Hs IH Hall]; simpl; [constructor|].
  constructor; [now apply StronglySorted_filter|].
  apply Forall_forall. intros x Hx. apply filter_In in Hx. destruct Hx as [Hx _].
  apply dedup_first_incl in Hx. rewrite Forall_forall in Hall. now apply Hall.
Qed.

End SortedSublists.

Lemma StronglySorted_map {A B} (f : A -> B) (R : B -> B -> Prop) (l : list A) :
  StronglySorted (fun a b => R (f a) (f b)) l -> StronglySorted R (map f l).
Proof.
  induction 1 as [|a l Hs IH Hall]; simpl; constructor; [assumption|].
  apply Forall_forall. intros y Hy. apply in_map_iff in Hy.
  destruct Hy as [x [<- Hx]]. rewrite Forall_forall in Hall. now apply Hall.
Qed.

(** X17. The views of [get_users] come in non-decreasing order of username, for
    every offset and limit. *)
Theorem get_users_sorted (s : Session) (offset limit : nat) :
  exists names,
    map view_username (get_users s offset limit) = map Some names /\
    StronglySorted (fun a b => String.leb a b = true) names.
Proof.
  exists (map (fun r => user_username (r9_user r))
              (dedup_first N.eqb row_user_id (get_users_rows s offset limit))).
  split.
  - unfold get_users. rewrite views_grouped, !map_map. reflexivity.
  - apply StronglySorted_map, StronglySorted_dedup_first.
    unfold get_users_rows.
    apply StronglySorted_firstn, StronglySorted_skipn, order_by_username_sorted.
Qed.

Lemma outer_inhabited {A} (l : list A) : exists x, In x (outer l).
Proof. destruct l as [|a l]; simpl; eauto. Qed.

Ltac pick x l :=
  let H := fresh "Hpick" in destruct (outer_inhabited l) as [x H].

Ltac row_in_join9 :=
  apply join9_user_In; simpl; repeat split; try assumption;
  now apply (proj2 (outer_Some _ _)).

Lemma join9_has_user (s : Session) (u : User) :
  exists r, In r (join9_user s u) /\ r9_user r = u.
Proof.
  pick ol (links_of s u). pick oi (items_of s ol).
  pick ot (owned_by u (db_tasks s)). pick ora (owned_by u (db_ratings s)).
  pick oc (owned_by u (db_comments s)). pick ore (owned_by u (db_reactions s)).
  pick oql (quest_links_of s u). pick oq (quests_of s oql).
  exists (Build_Row9 u ol oi ot ora oc ore oql oq).
  split; [|reflexivity]. apply join9_user_In; simpl; repeat split; assumption.
Qed.

Lemma join9_has_item (s : Session) (u : User) (l : UserItemLink) (i : Item) :
  In l (links_of s u) -> In i (items_of s (Some l)) ->
  exists r, In r (join9_user s u) /\ r9_user r = u /\
            r9_link r = Some l /\ r9_item r = Some i.
Proof.
  intros Hl Hi.
  pick ot (owned_by u (db_tasks s)). pick ora (owned_by u (db_ratings s)).
  pick oc (owned_by u (db_comments s)). pick ore (owned_by u (db_reactions s)).
  pick oql (quest_links_of s u). pick oq (quests_of s oql).
  exists (Build_Row9 u (Some l) (Some i) ot ora oc ore oql oq).
  split; [row_in_join9 | repeat split].
Qed.

Lemma join9_has_quest (s : Session) (u : User) (l : UserQuestLink) (q : Quest) :
  In l (quest_links_of s u) -> In q (quests_of s (Some l)) ->
  exists r, In r (join9_user s u) /\ r9_user r = u /\
            r9_quest_link r = Some l /\ r9_quest r = Some q.
Proof.
  intros Hl Hq.
  pick ol (links_of s u). pick oi (items_of s ol).
  pick ot (owned_by u (db_tasks s)). pick ora (owned_by u (db_ratings s)).
  pick oc (owned_by u (db_comments s)). pick ore (owned_by u (db_reactions s)).
  exists (Build_Row9 u ol oi ot ora oc ore (Some l) (Some q)).
  split; [row_in_join9 | repeat split].
Qed.

Lemma join9_has_task (s : Session) (u : User) (t : Task) :
  In t (owned_by u (db_tasks s)) ->
  exists r, In r (join9_user s u) /\ r9_user r = u /\ r9_task r = Some t.
Proof.
  intro Ht.
  pick ol (links_of s u). pick oi (items_of s ol).
  pick ora (owned_by u (db_ratings s)).
  pick oc (owned_by u (db_comments s)). pick ore (owned_by u (db_reactions s)).
  pick oql (quest_links_of s u). pick oq (quests_of s oql).
  exists (Build_Row9 u ol oi (Some t) ora oc ore oql oq).
  split; [row_in_join9 | repeat split].
Qed.

Lemma join9_has_rating (s : Session) (u : User) (t : Rating) :
  In t (owned_by u (db_ratings s)) ->
  exists r, In r (join9_user s u) /\ r9_user r = u /\ r9_rating r = Some t.
Proof.
  intro Ht.
  pick ol (links_of s u). pick oi (items_of s ol).
  pick ot (owned_by u (db_tasks s)).
  pick oc (owned_by u (db_comments s)). pick ore (owned_by u (db_reactions s)).
  pick oql (quest_links_of s u). pick oq (quests_of s oql).
  exists (Build_Row9 u ol oi ot (Some t) oc ore oql oq).
  split; [row_in_join9 | repeat split].
Qed.

Lemma join9_has_comment (s : Session) (u : User) (t : Comment) :
  In t (owned_by u (db_comments s)) ->
  exists r, In r (join9_user s u) /\ r9_user r = u /\ r9_comment r = Some t.
Proof.
  intro Ht.
  pick ol (links_of s u). pick oi (items_of s ol).
  pick ot (owned_by u (db_tasks s)). pick ora (owned_by u (db_ratings s)).
  pick ore (owned_by u (db_reactions s)).
  pick oql (quest_links_of s u). pick oq (quests_of s oql).
  exists (Build_Row9 u ol oi ot ora (Some t) ore oql oq).
  split; [row_in_join9 | repeat split].
Qed.

Lemma join9_has_reaction (s : Session) (u : User) (t : Reaction) :
  In t (owned_by u (db_reactions s)) ->
  exists r, In r (join9_user s u) /\ r9_user r = u /\ r9_reaction r = Some t.
Proof.
  intro Ht.
  pick ol (links_of s u). pick oi (items_of s ol).
  pick ot (owned_by u (db_tasks s)). pick ora (owned_by u (db_ratings s)).
  pick oc (owned_by u (db_comments s)).
  pick oql (quest_links_of s u). pick oq (quests_of s oql).
  exists (Build_Row9 u ol oi ot ora oc (Some t) oql oq).
  split; [row_in_join9 | repeat split].
Qed.

Lemma get_users_rows_whole (s : Session) (limit : nat) (r : Row9) :
  List.length (select_join9 s) <= limit ->
  (In r (get_users_rows s 0 limit) <-> In r (select_join9 s)).
Proof.
  intro H. unfold get_users_rows. simpl skipn.
  rewrite firstn_all2 by (rewrite order_by_username_length; exact H).
  apply order_by_username_In.
Qed.

Lemma owned_by_In (u : User) (rows : list Owned) (o : Owned) :
  In o (owned_by u rows) <-> In o rows /\ owned_user_id o = user_id u.
Proof. unfold owned_by. now rewrite filter_In, N.eqb_eq. Qed.

(** X19. With a limit that covers every joined row, [get_users] gives each stored
    user one view, and that view holds exactly one entry for each of the
    user's tasks, ratings, comments and reactions, for each of the user's
    links whose item exists and for each participation whose quest exists. *)
Theorem get_users_complete (s : Session) (limit : nat) (u : User) :
  List.length (select_join9 s) <= limit ->
  In u (db_users s) ->
  exists v,
    filter (view_is_for (user_id u)) (get_users s 0 limit) = [v] /\
    (forall l i, In l (db_user_item_links s) -> uil_user_id l = user_id u ->
                 In i (db_items s) -> item_id i = uil_item_id l ->
       List.length (filter (fun e => N.eqb (iuv_id e) (item_id i)) (uv_items v)) = 1) /\
    (forall t, In t (db_tasks s) -> owned_user_id t = user_id u ->
       List.length (filter (fun e => N.eqb (ov_id e) (owned_id t)) (uv_tasks v)) = 1) /\
    (forall t, In t (db_ratings s) -> owned_user_id t = user_id u ->
       List.length (filter (fun e => N.eqb (ov_id e) (owned_id t)) (uv_ratings v)) = 1) /\
    (forall t, In t (db_comments s) -> owned_user_id t = user_id u ->
       List.length (filter (fun e => N.eqb (ov_id e) (owned_id t)) (uv_comments v)) = 1) /\
    (forall t, In t (db_reactions s) -> owned_user_id t = user_id u ->
       List.length (filter (fun e => N.eqb (ov_id e) (owned_id t)) (uv_reactions v)) = 1) /\
    (forall l q, In l (db_user_quest_links s) -> uql_user_id l = user_id u ->
                 In q (db_quests s) -> quest_id q = uql_quest_id l ->
       List.length (filter (fun e => N.eqb (quv_id e) (quest_id q)) (uv_quests v)) = 1).
Proof.
  intros Hlimit Hu. unfold get_users.
  set (rows := get_users_rows s 0 limit).
  assert (Hrows : forall r, In r (join9_user s u) -> In r rows).
  { intros r Hr. apply (get_users_rows_whole s r Hlimit).
    apply select_join9_In. pose proof (proj1 (join9_user_In s u r) Hr) as [-> _].
    tauto. }
  destruct (join9_has_user s u) as [ru [Hru Hruu]].
  destruct (row_children_once rows ru (Hrows ru Hru)) as [v [Hv _]].
  unfold row_user_id in Hv. rewrite Hruu in Hv.
  exists v. split; [exact Hv|].
  assert (Hsame : forall r, In r (join9_user s u) -> r9_user r = u ->
            forall v', filter (view_is_for (row_user_id r)) (_construct_user_views rows) = [v'] ->
                       v' = v).
  { intros r _ Hr v' Hv'. unfold row_user_id in Hv'. rewrite Hr, Hv in Hv'.
    now inversion Hv'. }
  repeat split.
  - intros l i Hl Hlu Hi Hil.
    destruct (join9_has_item s u l i) as [r [Hr [Hr1 [Hr2 Hr3]]]].
    { unfold links_of. apply filter_In. split; [assumption|]. apply N.eqb_eq. congruence. }
    { unfold items_of. apply filter_In. split; [assumption|]. apply N.eqb_eq. congruence. }
    destruct (row_children_once rows r (Hrows r Hr)) as [v' [Hv' [H _]]].
    rewrite <- (Hsame r Hr Hr1 v' Hv'). now apply (H l i).
  - intros t Ht Htu.
    destruct (join9_has_task s u t) as [r [Hr [Hr1 Hr2]]]; [now apply owned_by_In|].
    destruct (row_children_once rows r (Hrows r Hr)) as [v' [Hv' [_ [H _]]]].
    rewrite <- (Hsame r Hr Hr1 v' Hv'). now apply H.
  - intros t Ht Htu.
    destruct (join9_has_rating s u t) as [r [Hr [Hr1 Hr2]]]; [now apply owned_by_In|].
    destruct (row_children_once rows r (Hrows r Hr)) as [v' [Hv' [_ [_ [H _]]]]].
    rewrite <- (Hsame r Hr Hr1 v' Hv'). now apply H.
  - intros t Ht Htu.
    destruct (join9_has_comment s u t) as [r [Hr [Hr1 Hr2]]]; [now apply owned_by_In|].
    destruct (row_children_once rows r (Hrows r Hr)) as [v' [Hv' [_ [_ [_ [H _]]]]]].
    rewrite <- (Hsame r Hr Hr1 v' Hv'). now apply H.
  - intros t Ht Htu.
    destruct (join9_has_reaction s u t) as [r [Hr [Hr1 Hr2]]]; [now apply owned_by_In|].
    destruct (row_children_once rows r (Hrows r Hr)) as [v' [Hv' [_ [_ [_ [_ [H _]]]]]]].
    rewrite <- (Hsame r Hr Hr1 v' Hv'). now apply H.
  - intros l q Hl Hlu Hq Hql.
    destruct (join9_has_quest s u l q) as [r [Hr [Hr1 [Hr2 Hr3]]]].
    { unfold quest_links_of. apply filter_In. split; [assumption|]. apply N.eqb_eq. congruence. }
    { unfold quests_of. apply filter_In. split; [assumption|]. apply N.eqb_eq. congruence. }
    destruct (row_children_once rows r (Hrows r Hr)) as [v' [Hv' [_ [_ [_ [_ [_ H]]]]]]].
    rewrite <- (Hsame r Hr Hr1 v' Hv'). now apply (H l q).
Qed.

Lemma grouped_entry_source {A K V} (eqb : K -> K -> bool) (entry : A -> option (K * V))
    (rs : list A) (e : V) :
  In e (map snd (dedup_first eqb fst (collect entry rs))) ->
  exists r k, In r rs /\ entry r = Some (k, e).
Proof.
  intro H. apply in_map_iff in H. destruct H as [[k e'] [He Hin]]. simpl in He. subst e'.
  apply (dedup_first_incl eqb fst) in Hin. apply collect_In in Hin.
  destruct Hin as [r [Hr Hentry]]. eauto.
Qed.

Lemma owned_entry_source (s : Session) (rows : list Row9) (pid : UUID)
    (f : Row9 -> option Owned) (table : Session -> list Owned) (e : OwnedView) :
  (forall r, In r rows -> In r (select_join9 s)) ->
  (forall r o, In r (select_join9 s) -> f r = Some o ->
               In o (owned_by (r9_user r) (table s))) ->
  In e (map snd (dedup_first N.eqb fst
                   (collect (fun r => owned_entry (f r)) (rows_of pid rows)))) ->
  exists t, In t (table s) /\ owned_user_id t = pid /\ e = mk_owned_view t.
Proof.
  intros Hsub Hf He. apply grouped_entry_source in He.
  destruct He as [r [k [Hr Hentry]]].
  apply filter_In in Hr. destruct Hr as [Hr Hpid]. apply N.eqb_eq in Hpid.
  unfold owned_entry in Hentry. destruct (f r) as [o|] eqn:Efr; [|discriminate].
  inversion Hentry; subst k e.
  apply (Hf r o (Hsub r Hr)) in Efr. apply owned_by_In in Efr.
  exists o. repeat split; [tauto|]. unfold row_user_id in Hpid. destruct Efr. congruence.
Qed.

(** X20. Whatever the offset and the limit, every view of [get_users] is the view
    of a stored user, and each of its entries is built from a stored row of
    that user: an item entry from one of the user's links and the item it
    names, a quest entry from a participation and its quest, the others from
    a row the user owns. *)
Theorem get_users_sound (s : Session) (offset limit : nat) (v : UserView) :
  In v (get_users s offset limit) ->
  exists u, In u (db_users s) /\
    uv_fields v = user_model_dump_exclude ["password"%string] u /\
    (forall e, In e (uv_items v) ->
       exists l i, In l (db_user_item_links s) /\ uil_user_id l = user_id u /\
                   In i (db_items s) /\ item_id i = uil_item_id l /\
                   e = mk_item_view i l) /\
    (forall e, In e (uv_tasks v) ->
       exists t, In t (db_tasks s) /\ owned_user_id t = user_id u /\ e = mk_owned_view t) /\
    (forall e, In e (uv_ratings v) ->
       exists t, In t (db_ratings s) /\ owned_user_id t = user_id u /\ e = mk_owned_view t) /\
    (forall e, In e (uv_comments v) ->
       exists t, In t (db_comments s) /\ owned_user_id t = user_id u /\ e = mk_owned_view t) /\
    (forall e, In e (uv_reactions v) ->
       exists t, In t (db_reactions s) /\ owned_user_id t = user_id u /\
                 e = mk_owned_view t) /\
    (forall e, In e (uv_quests v) ->
       exists l q, In l (db_user_quest_links s) /\ uql_user_id l = user_id u /\
                   In q (db_quests s) /\ quest_id q = uql_quest_id l /\
                   e = mk_quest_view q None l).
Proof.
  unfold get_users. intro Hv. apply views_from_rows in Hv.
  destruct Hv as [r0 [Hr0 Hv]]. subst v.
  assert (Hsub : forall r, In r (get_users_rows s offset limit) -> In r (select_join9 s)).
  { intros r Hr. unfold get_users_rows in Hr.
    apply In_firstn, In_skipn in Hr. now apply (proj1 (order_by_username_In _ _)) in Hr. }
  pose proof (proj1 (select_join9_In s r0) (Hsub r0 Hr0)) as [Hu _].
  exists (r9_user r0). split; [exact Hu|]. split; [reflexivity|].
  unfold grouped_view. cbv zeta. simpl.
  fold (row_user_id r0).
  repeat split.
  - intros e He. apply grouped_entry_source in He.
    destruct He as [r [k [Hr Hentry]]].
    apply filter_In in Hr. destruct Hr as [Hr Hpid]. apply N.eqb_eq in Hpid.
    unfold item_entry in Hentry.
    destruct (r9_link r) as [l|] eqn:El; [|discriminate].
    destruct (r9_item r) as [i|] eqn:Ei; [|discriminate].
    inversion Hentry; subst k e.
    pose proof (proj1 (select_join9_In s r) (Hsub r Hr)) as [_ Hj].
    apply join9_user_In in Hj. destruct Hj as [_ [Hl [Hi _]]].
    rewrite El in Hl, Hi. rewrite Ei in Hi.
    apply (proj1 (outer_Some _ _)) in Hl. apply (proj1 (outer_Some _ _)) in Hi.
    apply filter_In in Hl. apply filter_In in Hi.
    destruct Hl as [Hl Hlu]. destruct Hi as [Hi Hil]. apply N.eqb_eq in Hlu, Hil.
    exists l, i. unfold row_user_id in *. repeat split; try assumption; congruence.
  - intros e He.
    apply (owned_entry_source s (get_users_rows s offset limit) (row_user_id r0)
             r9_task db_tasks e Hsub); [|exact He].
    intros r o Hr Ho. apply select_join9_In in Hr. destruct Hr as [_ Hj].
    apply join9_user_In in Hj. destruct Hj as [_ [_ [_ [H _]]]].
    rewrite Ho in H. now apply (proj1 (outer_Some _ _)) in H.
  - intros e He.
    apply (owned_entry_source s (get_users_rows s offset limit) (row_user_id r0)
             r9_rating db_ratings e Hsub); [|exact He].
    intros r o Hr Ho. apply select_join9_In in Hr. destruct Hr as [_ Hj].
    apply join9_user_In in Hj. destruct Hj as [_ [_ [_ [_ [H _]]]]].
    rewrite Ho in H. now apply (proj1 (outer_Some _ _)) in H.
  - intros e He.
    apply (owned_entry_source s (get_users_rows s offset limit) (row_user_id r0)
             r9_comment db_comments e Hsub); [|exact He].
    intros r o Hr Ho. apply select_join9_In in Hr. destruct Hr as [_ Hj].
    apply join9_user_In in Hj. destruct Hj as [_ [_ [_ [_ [_ [H _]]]]]].
    rewrite Ho in H. now apply (proj1 (outer_Some _ _)) in H.
  - intros e He.
    apply (owned_entry_source s (get_users_rows s offset limit) (row_user_id r0)
             r9_reaction db_reactions e Hsub); [|exact He].
    intros r o Hr Ho. apply select_join9_In in Hr. destruct Hr as [_ Hj].
    apply join9_user_In in Hj. destruct Hj as [_ [_ [_ [_ [_ [_ [H _]]]]]]].
    rewrite Ho in H. now apply (proj1 (outer_Some _ _)) in H.
  - intros e He. apply grouped_entry_source in He.
    destruct He as [r [k [Hr Hentry]]].
    apply filter_In in Hr. destruct Hr as [Hr Hpid]. apply N.eqb_eq in Hpid.
    unfold quest_entry in Hentry.
    destruct (r9_quest_link r) as [l|] eqn:El; [|discriminate].
    destruct (r9_quest r) as [q|] eqn:Eq; [|discriminate].
    inversion Hentry; subst k e.
    pose proof (proj1 (select_join9_In s r) (Hsub r Hr)) as [_ Hj].
    apply join9_user_In in Hj. destruct Hj as [_ [_ [_ [_ [_ [_ [_ [Hl Hq]]]]]]]].
    rewrite El in Hl, Hq. rewrite Eq in Hq.
    apply (proj1 (outer_Some _ _)) in Hl. apply (proj1 (outer_Some _ _)) in Hq.
    apply filter_In in Hl. apply filter_In in Hq.
    destruct Hl as [Hl Hlu]. destruct Hq as [Hq Hql]. apply N.eqb_eq in Hlu, Hql.
    exists l, q. unfold row_user_id in *. repeat split; try assumption; congruence.
Qed.





Lemma select_join5_ext (s : Session) (c1 c2 : User -> bool) :
  (forall u, In u (db_users s) -> c1 u = c2 u) ->
  select_join5 s c1 = select_join5 s c2.
Proof.
  intro H. unfold select_join5. apply filter_ext_in. intros r Hr.
  apply in_flat_map in Hr. destruct Hr as [u [Hu Hr]].
  apply join5_user_In in Hr. destruct Hr as [-> _]. now apply H.
Qed.

(** X9. For a stored user whose username, and whose email, no other id shares,
    fetching by username and by email return what fetching by id returns. *)
Theorem fetch_keys_agree (s : Session) (u : User) :
  In u (db_users s) ->
  ((forall x, In x (db_users s) ->
              (user_username x = user_username u <-> user_id x = user_id u)) ->
   get_user_by_username s (user_username u) = get_user_by_id s (user_id u)) /\
  ((forall x, In x (db_users s) ->
              (user_email x = user_email u <-> user_id x = user_id u)) ->
   get_user_by_email s (user_email u) = get_user_by_id s (user_id u)).
Proof.
  intro Hu.
  assert (Hne : select_join5 s (id_is (user_id u)) <> []).
  { rewrite select_join5_nil. intro H.
    assert (Hin : In u (filter (id_is (user_id u)) (db_users s))).
    { apply filter_In. split; [assumption|]. unfold id_is. apply N.eqb_refl. }
    rewrite H in Hin. destruct Hin. }
  split; intro Hkey.
  - unfold get_user_by_username, get_user_by_id.
    rewrite (select_join5_ext s (username_is (user_username u)) (id_is (user_id u))).
    + destruct (select_join5 s (id_is (user_id u))); [congruence | reflexivity].
    + intros x Hx. unfold username_is, id_is. specialize (Hkey x Hx).
      destruct (String.eqb_spec (user_username x) (user_username u)) as [E|E],
               (N.eqb_spec (user_id x) (user_id u)) as [E'|E']; tauto.
  - unfold get_user_by_email, get_user_by_id.
    rewrite (select_join5_ext s (email_is (user_email u)) (id_is (user_id u))).
    + destruct (select_join5 s (id_is (user_id u))); [congruence | reflexivity].
    + intros x Hx. unfold email_is, id_is. specialize (Hkey x Hx).
      destruct (String.eqb_spec (user_email x) (user_email u)) as [E|E],
               (N.eqb_spec (user_id x) (user_id u)) as [E'|E']; tauto.
Qed.

(** ** Updating and deleting a user *)

Lemma store_user_lookup (s : Session) (uid : UUID) (db_user updated : User) :
  filter (id_is uid) (db_users s) = [db_user] ->
  user_id updated = uid ->
  filter (id_is uid) (db_users (store_user s db_user updated)) = [updated].
Proof.
  intros H Hup. pose proof (filter_singleton_In _ _ H) as [_ Hid].
  unfold id_is in Hid. apply N.eqb_eq in Hid.
  unfold store_user. simpl. rewrite filter_map_swap, Hid.
  rewrite (filter_ext _ (id_is uid)).
  2:{ intro x. destruct (id_is uid x) eqn:E; [|exact E].
      unfold id_is. now apply N.eqb_eq. }
  rewrite H. simpl. unfold id_is. rewrite <- Hid at 1. now rewrite N.eqb_refl.
Qed.

(** X22. [update_user] raises [UserNotFoundError] and changes nothing when no
    user has the id; a refused commit lets [IntegrityError] out.  Otherwise,
    for an update that keeps the id, the row of the user becomes the updated
    one, the rows of the other users stay, and the returned view carries the
    fields of the updated row. *)
Theorem update_user_outcome (UserUpdate : Type)
    (sqlmodel_update : User -> UserUpdate -> User)
    (update_refused : Session -> User -> User -> bool)
    (s : Session) (uid : UUID) (user_update : UserUpdate) :
  (filter (id_is uid) (db_users s) = [] ->
   update_user sqlmodel_update update_refused s uid user_update =
     Committed (s, Raise (UserNotFoundError uid))) /\
  (forall db_user,
     one (filter (id_is uid) (db_users s)) = Ok db_user ->
     (update_refused s db_user (sqlmodel_update db_user user_update) = true ->
      update_user sqlmodel_update update_refused s uid user_update = IntegrityError) /\
     (update_refused s db_user (sqlmodel_update db_user user_update) = false ->
      user_id (sqlmodel_update db_user user_update) = uid ->
      exists v,
        update_user sqlmodel_update update_refused s uid user_update =
          Committed (store_user s db_user (sqlmodel_update db_user user_update), Ok v) /\
        uv_fields v =
          user_model_dump_exclude ["password"%string]
            (sqlmodel_update db_user user_update) /\
        one (filter (id_is uid)
               (db_users (store_user s db_user (sqlmodel_update db_user user_update)))) =
          Ok (sqlmodel_update db_user user_update) /\
        (forall u, In u (db_users s) -> user_id u <> uid ->
           In u (db_users (store_user s db_user (sqlmodel_update db_user user_update)))))).
Proof.
  split.
  - intro H. unfold update_user. now rewrite H.
  - intros db_user Hone. pose proof (one_Ok _ Hone) as Hf.
    pose proof (filter_singleton_In _ _ Hf) as [_ Hid].
    unfold id_is in Hid. apply N.eqb_eq in Hid.
    set (updated := sqlmodel_update db_user user_update).
    split.
    + intro Href. unfold update_user. rewrite Hone. cbv zeta. fold updated.
      now rewrite Href.
    + intros Href Hkeep.
      pose proof (store_user_lookup s updated Hf Hkeep) as Hf'.
      set (s' := store_user s db_user updated) in *.
      assert (Hin' : In updated (db_users s')).
      { apply (filter_singleton_In _ _ Hf'). }
      destruct (@fetch_existing s' uid updated Hin' Hkeep) as [v Hv].
      exists v.
      assert (Hget : _construct_user_view s' (select_join5 s' (id_is uid)) = Ok v).
      { unfold get_user_by_id in Hv.
        destruct (select_join5 s' (id_is uid)); [discriminate | exact Hv]. }
      split; [|split; [|split]].
      * unfold update_user. rewrite Hone. cbv zeta. fold updated. rewrite Href.
        fold s'. now rewrite Hkeep, Hget.
      * destruct (fetch_first_row s' (id_is uid) _ Hv) as [u' [Hu' [Hc Hfields]]].
        rewrite Hfields. simpl. f_equal.
        assert (Hin : In u' (filter (id_is uid) (db_users s'))) by (apply filter_In; tauto).
        rewrite Hf' in Hin. destruct Hin as [<-|[]]. reflexivity.
      * now rewrite Hf'.
      * intros u Hu Hneq. unfold s', store_user. simpl. apply in_map_iff.
        exists u. split; [|assumption]. unfold id_is. rewrite Hid.
        now rewrite (proj2 (N.eqb_neq _ _) Hneq).
Qed.

(** X23. [delete_user] raises [UserNotFoundError] and changes nothing when no
    user has the id; a refused commit lets [IntegrityError] out.  Otherwise
    the user's row is removed and every other row kept: fetching the id then
    raises [UserNotFoundError], and so does deleting it again. *)
Theorem delete_user_outcome (delete_refused : Session -> User -> bool)
    (on_delete : Session -> User -> Session) (s : Session) (uid : UUID) :
  (filter (id_is uid) (db_users s) = [] ->
   delete_user delete_refused on_delete s uid =
     Committed (s, Raise (UserNotFoundError uid))) /\
  (forall db_user,
     one (filter (id_is uid) (db_users s)) = Ok db_user ->
     (delete_refused s db_user = true ->
      delete_user delete_refused on_delete s uid = IntegrityError) /\
     (delete_refused s db_user = false ->
      exists s',
        delete_user delete_refused on_delete s uid = Committed (s', Ok tt) /\
        (forall u, In u (db_users s') <-> In u (db_users s) /\ user_id u <> uid) /\
        get_user_by_id s' uid = Raise (UserNotFoundError uid) /\
        delete_user delete_refused on_delete s' uid =
          Committed (s', Raise (UserNotFoundError uid)))).
Proof.
  split.
  - intro H. unfold delete_user. now rewrite H.
  - intros db_user Hone. pose proof (one_Ok _ Hone) as Hf.
    pose proof (filter_singleton_In _ _ Hf) as [_ Hid].
    unfold id_is in Hid. apply N.eqb_eq in Hid.
    split.
    + intro Href. unfold delete_user. now rewrite Hone, Href.
    + intro Href.
      set (s' := with_users (on_delete s db_user) (remove_user s db_user)).
      assert (Husers : forall u, In u (db_users s') <-> In u (db_users s) /\ user_id u <> uid).
      { intro u. unfold s', remove_user. simpl. rewrite filter_In, Hid.
        unfold id_is. rewrite negb_true_iff, N.eqb_neq. tauto. }
      assert (Hgone : filter (id_is uid) (db_users s') = []).
      { apply filter_nil_iff. intros u Hu. apply Husers in Hu.
        unfold id_is. apply N.eqb_neq. tauto. }
      exists s'. split; [|split; [|split]].
      * unfold delete_user. now rewrite Hone, Href.
      * exact Husers.
      * apply (proj1 (fetch_or_not_found s' (id_is uid) (UserNotFoundError uid))).
        now apply select_join5_nil.
      * unfold delete_user. now rewrite Hgone.
Qed.

(** ** When the single-user view has no repeats *)

Lemma user_items_collect (rows : list Row5) : forall items,
  user_items rows = Ok items -> items = collect item_view_of_row rows.
Proof.
  induction rows as [|r rows IH]; simpl; intros items H.
  - now inversion H.
  - unfold item_view_of_row at 1. destruct (r5_item r) as [i|]; [|now apply IH].
    destruct (r5_link r) as [l|]; [|discriminate].
    destruct (user_items rows) as [vs|]; simpl in H; [|discriminate].
    inversion H; subst. f_equal. now apply IH.
Qed.

Lemma user_quests_collect (user : User) (rows : list Row5) : forall quests,
  user_quests user rows = Ok quests ->
  quests = collect (quest_view_of_row (user_id user)) rows.
Proof.
  induction rows as [|r rows IH]; simpl; intros quests H.
  - now inversion H.
  - unfold quest_view_of_row at 1. destruct (r5_quest r) as [q|]; [|now apply IH].
    destruct (r5_quest_link r) as [l|]; [|discriminate].
    destruct (user_quests user rows) as [vs|]; simpl in H; [|discriminate].
    inversion H; subst. f_equal. now apply IH.
Qed.

Lemma collect_ids {A B} (f : A -> option B) (g : A -> option UUID) (h : B -> UUID)
    (l : list A) :
  (forall a b, f a = Some b -> g a = Some (h b)) ->
  (forall a, f a = None -> g a = None) ->
  map h (collect f l) = collect g l.
Proof.
  intros Hs Hn. induction l as [|a l IH]; simpl; [reflexivity|].
  destruct (f a) as [b|] eqn:E.
  - rewrite (Hs a b E). simpl. now rewrite IH.
  - now rewrite (Hn a E).
Qed.

(** X5. When [_construct_user_view] returns, its items and its quests follow
    the rows one for one: one entry per row that has an item, respectively a
    quest, in row order, with the flag and the dates of the link of that same
    row; every quest entry carries the id of the user of the first row. *)
Theorem construct_user_view_row_for_row (s : Session) (rows : list Row5) (v : UserView) :
  _construct_user_view s rows = Ok v ->
  uv_items v = collect item_view_of_row rows /\
  (exists row0 rest, rows = row0 :: rest /\
     uv_quests v = collect (quest_view_of_row (user_id (r5_user row0))) rows) /\
  map iuv_id (uv_items v) = map item_id (collect r5_item rows) /\
  map quv_id (uv_quests v) = map quest_id (collect r5_quest rows).
Proof.
  intro H.
  destruct (construct_user_view_fields s rows H) as [row0 [rest [Hrows [_ [Hi Hq]]]]].
  pose proof (user_items_collect _ Hi) as Hitems.
  pose proof (user_quests_collect _ _ Hq) as Hquests.
  split; [exact Hitems|]. split; [exists row0, rest; tauto|]. split.
  - now apply user_items_ids.
  - clear Hi Hitems H. revert Hq. generalize (uv_quests v) as quests.
    generalize (r5_user row0) as user. clear.
    induction rows as [|r rows IH]; simpl; intros user quests H.
    + now inversion H.
    + destruct (r5_quest r) as [q|]; [|now apply (IH user)].
      destruct (r5_quest_link r) as [l|]; [|discriminate].
      destruct (user_quests user rows) as [vs|] eqn:E; simpl in H; [|discriminate].
      inversion H; subst. simpl. f_equal. now apply (IH user).
Qed.

Lemma flat_map_singleton {A B} (f : A -> B) (l : list A) :
  flat_map (fun x => [f x]) l = map f l.
Proof. induction l as [|a l IH]; simpl; [reflexivity | now rewrite IH]. Qed.

Lemma flat_map_over_map {A B C} (g : A -> B) (f : B -> list C) (l : list A) :
  flat_map f (map g l) = flat_map (fun a => f (g a)) l.
Proof. induction l as [|a l IH]; simpl; [reflexivity | now rewrite IH]. Qed.

Lemma collect_flat_map {A B C} (f : B -> option C) (g : A -> list B) (l : list A) :
  collect f (flat_map g l) = flat_map (fun a => collect f (g a)) l.
Proof.
  induction l as [|a l IH]; simpl; [reflexivity|]. now rewrite collect_app, IH.
Qed.

Lemma collect_outer {A} (l : list A) : collect (fun o : option A => o) (outer l) = l.
Proof.
  destruct l as [|a l]; [reflexivity|]. unfold outer.
  generalize (a :: l). intro m. induction m as [|b m IH]; simpl; [reflexivity|].
  now rewrite IH.
Qed.

Lemma flat_map_outer {A B} (f : option A -> list B) (l : list A) :
  f None = [] -> flat_map f (outer l) = flat_map (fun a => f (Some a)) l.
Proof.
  intro H. destruct l as [|a l]; [simpl; now rewrite H|].
  unfold outer. apply flat_map_over_map.
Qed.

Lemma flat_map_filter {A B} (c : A -> bool) (f : A -> list B) (l : list A) :
  flat_map (fun x => if c x then f x else []) l = flat_map f (filter c l).
Proof.
  induction l as [|a l IH]; simpl; [reflexivity|].
  destruct (c a); simpl; now rewrite IH.
Qed.

Lemma select_join5_one_user (s : Session) (u : User) :
  NoDup (map user_id (db_users s)) -> In u (db_users s) ->
  select_join5 s (id_is (user_id u)) = join5_user s u.
Proof.
  intros ND Hu. unfold select_join5.
  assert (H : forall l, filter (fun r => id_is (user_id u) (r5_user r))
                          (flat_map (join5_user s) l) =
                        flat_map (fun x => if id_is (user_id u) x then join5_user s x else [])
                          l).
  { induction l as [|x l IH]; simpl; [reflexivity|].
    now rewrite filter_app, IH, join5_user_rows_user. }
  rewrite H, flat_map_filter.
  rewrite (filter_unique user_id (id_is (user_id u)) (db_users s) u ND Hu).
  - simpl. apply app_nil_r.
  - intros x _. unfold id_is. apply N.eqb_eq.
Qed.

Lemma NoDup_flat_map_keyed {A} (g : A -> UUID) (F : A -> list UUID) (l : list A) :
  NoDup (map g l) ->
  (forall a x, In x (F a) -> x = g a) ->
  (forall a, NoDup (F a)) ->
  NoDup (flat_map F l).
Proof.
  intros ND Hkey Hnd. induction l as [|a l IH]; simpl; [constructor|].
  inversion ND as [|? ? Hn ND']; subst.
  apply NoDup_app; [apply Hnd | now apply IH |].
  intros x Hx Hx'. apply Hkey in Hx. subst x.
  apply in_flat_map in Hx'. destruct Hx' as [b [Hb Hxb]].
  apply Hkey in Hxb. apply Hn. rewrite Hxb. now apply in_map.
Qed.

Lemma filtered_keys_distinct {A B} (key : A -> B) (keep : A -> bool) (rows : list A) :
  NoDup (map key rows) -> NoDup (map key (filter keep rows)).
Proof.
  intro ND. induction rows as [|r rows IH]; simpl; [constructor|].
  simpl in ND. inversion ND as [|? ? Hn ND']; subst.
  destruct (keep r); simpl; [|now apply IH].
  constructor; [|now apply IH].
  intro H. apply Hn. apply in_map_iff in H. destruct H as [x [Hx Hin]].
  apply filter_In in Hin. apply in_map_iff. exists x. tauto.
Qed.

Lemma NoDup_map_snd_pair {A} (f : A -> UUID) (c : UUID) (l : list A) :
  NoDup (map (fun e => (c, f e)) l) -> NoDup (map f l).
Proof.
  intro H. apply (NoDup_map_inv (fun x : UUID => (c, x))).
  now rewrite map_map.
Qed.

Lemma item_ids_of_links (s : Session) (u : User) :
  NoDup (map (fun l => (uil_user_id l, uil_item_id l)) (db_user_item_links s)) ->
  NoDup (map item_id (db_items s)) ->
  NoDup (flat_map (fun l => map item_id (items_of s (Some l))) (links_of s u)).
Proof.
  intros NDl NDi. apply (NoDup_flat_map_keyed uil_item_id).
  - apply (NoDup_map_snd_pair uil_item_id (user_id u)).
    rewrite (map_ext_in _ (fun l => (uil_user_id l, uil_item_id l))).
    + unfold links_of. now apply filtered_keys_distinct.
    + intros l Hl. unfold links_of in Hl. apply filter_In in Hl.
      destruct Hl as [_ Hl]. apply N.eqb_eq in Hl. now rewrite Hl.
  - intros l x Hx. apply in_map_iff in Hx. destruct Hx as [i [Hi Hin]].
    unfold items_of in Hin. apply filter_In in Hin. destruct Hin as [_ Hin].
    apply N.eqb_eq in Hin. congruence.
  - intro l. unfold items_of. now apply filtered_keys_distinct.
Qed.

Lemma quest_ids_of_links (s : Session) (u : User) :
  NoDup (map (fun l => (uql_user_id l, uql_quest_id l)) (db_user_quest_links s)) ->
  NoDup (map quest_id (db_quests s)) ->
  NoDup (flat_map (fun l => map quest_id (quests_of s (Some l))) (quest_links_of s u)).
Proof.
  intros NDl NDq. apply (NoDup_flat_map_keyed uql_quest_id).
  - apply (NoDup_map_snd_pair uql_quest_id (user_id u)).
    rewrite (map_ext_in _ (fun l => (uql_user_id l, uql_quest_id l))).
    + unfold quest_links_of. now apply filtered_keys_distinct.
    + intros l Hl. unfold quest_links_of in Hl. apply filter_In in Hl.
      destruct Hl as [_ Hl]. apply N.eqb_eq in Hl. now rewrite Hl.
  - intros l x Hx. apply in_map_iff in Hx. destruct Hx as [q [Hq Hin]].
    unfold quests_of in Hin. apply filter_In in Hin. destruct Hin as [_ Hin].
    apply N.eqb_eq in Hin. congruence.
  - intro l. unfold quests_of. now apply filtered_keys_distinct.
Qed.

Lemma map_flat_map_ids {A B} (f : B -> UUID) (g : A -> list B) (l : list A) :
  map f (flat_map g l) = flat_map (fun a => map f (g a)) l.
Proof. apply map_flat_map. Qed.

Lemma join5_items_without_quests (s : Session) (u : User) :
  quest_links_of s u = [] ->
  collect r5_item (join5_user s u) =
  flat_map (fun l => items_of s (Some l)) (links_of s u).
Proof.
  intro H. unfold join5_user. rewrite H. simpl outer at 2.
  rewrite collect_flat_map.
  rewrite (flat_map_ext _ (fun ol => items_of s ol)).
  - now apply flat_map_outer.
  - intro ol. rewrite collect_flat_map.
    rewrite (flat_map_ext _ (fun oi => match oi with Some i => [i] | None => [] end)).
    + clear. generalize (items_of s ol). intro l. destruct l as [|a l]; [reflexivity|].
      unfold outer. rewrite flat_map_over_map. simpl.
      change (fun a0 : Item => [a0]) with (fun a0 : Item => [(fun x : Item => x) a0]).
      rewrite flat_map_singleton. now rewrite map_id.
    + intro oi. simpl. now destruct oi.
Qed.

Lemma join5_quests_without_items (s : Session) (u : User) :
  links_of s u = [] ->
  collect r5_quest (join5_user s u) =
  flat_map (fun l => quests_of s (Some l)) (quest_links_of s u).
Proof.
  intro H. unfold join5_user. rewrite H. cbn [outer flat_map items_of].
  rewrite !app_nil_r. rewrite collect_flat_map.
  rewrite (flat_map_ext _ (fun oql => quests_of s oql)).
  - now apply flat_map_outer.
  - intro oql. rewrite collect_map. simpl. apply collect_outer.
Qed.

(** X8. The conditions under which the view of [get_user_by_id] is free of
    repeats: with user ids, item ids, quest ids and the (user, child) pairs
    of both link tables unique, the items have pairwise distinct ids when the
    user takes part in no quest, and the quests when the user holds no
    item. *)
Theorem get_user_by_id_no_repeats (s : Session) (uid : UUID) (v : UserView) :
  NoDup (map user_id (db_users s)) ->
  NoDup (map (fun l => (uil_user_id l, uil_item_id l)) (db_user_item_links s)) ->
  NoDup (map item_id (db_items s)) ->
  NoDup (map (fun l => (uql_user_id l, uql_quest_id l)) (db_user_quest_links s)) ->
  NoDup (map quest_id (db_quests s)) ->
  get_user_by_id s uid = Ok v ->
  ((forall l, In l (db_user_quest_links s) -> uql_user_id l <> uid) ->
   NoDup (map iuv_id (uv_items v))) /\
  ((forall l, In l (db_user_item_links s) -> uil_user_id l <> uid) ->
   NoDup (map quv_id (uv_quests v))).
Proof.
  intros NDu NDl NDi NDql NDq H.
  destruct (fetch_first_row s (id_is uid) _ H) as [u [Hu [Hc _]]].
  unfold id_is in Hc. apply N.eqb_eq in Hc. subst uid.
  assert (Hview : _construct_user_view s (join5_user s u) = Ok v).
  { unfold get_user_by_id in H. rewrite (select_join5_one_user s u NDu Hu) in H.
    destruct (join5_user s u); [discriminate | exact H]. }
  destruct (construct_user_view_fields s _ Hview) as [row0 [rest [_ [_ [Hi Hq]]]]].
  split.
  - intro Hno. rewrite (user_items_ids _ Hi).
    rewrite join5_items_without_quests.
    + rewrite map_flat_map_ids. now apply item_ids_of_links.
    + unfold quest_links_of. apply filter_nil_iff. intros l Hl.
      apply N.eqb_neq. intro E. now apply (Hno l Hl).
  - intro Hno.
    assert (Hids : map quv_id (uv_quests v) = map quest_id (collect r5_quest (join5_user s u))).
    { clear -Hq. revert Hq. generalize (uv_quests v) as quests.
      generalize (r5_user row0) as user. generalize (join5_user s u) as rows.
      induction rows as [|r rows IH]; simpl; intros user quests H.
      - now inversion H.
      - destruct (r5_quest r) as [q|]; [|now apply (IH user)].
        destruct (r5_quest_link r) as [l|]; [|discriminate].
        destruct (user_quests user rows) as [vs|] eqn:E; simpl in H; [|discriminate].
        inversion H; subst. simpl. f_equal. now apply (IH user). }
    rewrite Hids, join5_quests_without_items.
    + rewrite map_flat_map_ids. now apply quest_ids_of_links.
    + unfold links_of. apply filter_nil_iff. intros l Hl.
      apply N.eqb_neq. intro E. now apply (Hno l Hl).
Qed.

(** ** The further properties on the sample session *)

Ltac distinct :=
  repeat (constructor; [simpl; intuition discriminate|]); constructor.

Lemma construct_user_views_no_repeats_witness :
  exists v,
    In v (_construct_user_views (select_join9 sample_session)) /\
    NoDup (map iuv_id (uv_items v)) /\ NoDup (map ov_id (uv_tasks v)).
Proof.
  assert (H : exists v, In v (_construct_user_views (select_join9 sample_session))).
  { vm_compute. eexists. left. reflexivity. }
  destruct H as [v Hv]. exists v. split; [exact Hv|].
  destruct (proj2 (@construct_user_views_no_repeats (select_join9 sample_session)) v Hv)
    as [Hi [Ht _]].
  split; assumption.
Defined.

Lemma construct_user_views_child_once_witness :
  In alice_row (select_join9 sample_session) /\
  exists v,
    filter (view_is_for 1%N) (_construct_user_views (select_join9 sample_session)) = [v] /\
    List.length (filter (fun e => N.eqb (ov_id e) 30%N) (uv_tasks v)) = 1.
Proof.
  assert (Hin : In alice_row (select_join9 sample_session)) by (vm_compute; left; reflexivity).
  split; [exact Hin|].
  destruct (@construct_user_views_child_once (select_join9 sample_session) alice_row Hin)
    as [v [Hv [Ht _]]].
  exists v. split; [exact Hv|]. exact (Ht (chore 30%N) eq_refl).
Defined.

Lemma construct_user_view_outcome_witness :
  _construct_user_view sample_session [] = Raise IndexError.
Proof.
  exact (proj1 (@construct_user_view_outcome sample_session []) eq_refl).
Defined.

Lemma fetch_returns_requested_witness :
  exists v, get_user_by_id sample_session 1%N = Ok v /\ view_user_id v = Some 1%N.
Proof.
  assert (H : exists v, get_user_by_id sample_session 1%N = Ok v).
  { vm_compute. eexists. reflexivity. }
  destruct H as [v Hv]. exists v. split; [exact Hv|].
  exact (proj1 (@fetch_returns_requested sample_session v) 1%N Hv).
Defined.

Lemma get_user_by_id_collections_witness :
  exists v,
    get_user_by_id sample_session 1%N = Ok v /\
    uv_tasks v =
      map mk_owned_view
        (filter (fun o => N.eqb (owned_user_id o) 1%N) (db_tasks sample_session)).
Proof.
  assert (H : exists v, get_user_by_id sample_session 1%N = Ok v).
  { vm_compute. eexists. reflexivity. }
  destruct H as [v Hv]. exists v. split; [exact Hv|].
  exact (proj1 (@get_user_by_id_collections sample_session 1%N v Hv)).
Defined.

Lemma create_user_stores_row_witness :
  unique_columns sample_session (new_user_row sample_hash 3%N carol_create) = false /\
  exists u s',
    create_user sample_hash unique_columns sample_session 3%N carol_create =
      (s', Ok (Some u)) /\
    db_users s' = db_users sample_session ++ [u] /\
    user_password u = sample_hash "hunter2".
Proof.
  assert (H : unique_columns sample_session (new_user_row sample_hash 3%N carol_create)
              = false) by reflexivity.
  split; [exact H|].
  destruct (@create_user_stores_row sample_hash unique_columns sample_session 3%N
              carol_create H)
    as [u [s' [H1 [H2 [_ [_ [_ [_ [H3 _]]]]]]]]].
  - simpl. intros x [<-|[<-|[]]]; discriminate.
  - exists u, s'. repeat split; assumption.
Defined.


Lemma equip_item_to_user_outcome_witness :
  filter (id_is 99%N) (db_users sample_session) = [] /\
  equip_item_to_user sample_session 99%N 10%N true =
    (sample_session, Raise (UserNotFoundError 99%N)).
Proof.
  assert (H : filter (id_is 99%N) (db_users sample_session) = []) by reflexivity.
  split; [exact H|].
  exact (proj1 (@equip_item_to_user_outcome sample_session 99%N 10%N true) H).
Defined.

Lemma equip_item_to_user_last_wins_witness :
  exists s' v,
    equip_item_to_user sample_session 1%N 10%N true = (s', Ok v) /\
    equip_item_to_user s' 1%N 10%N true = (s', Ok v) /\
    equip_item_to_user s' 1%N 10%N false = equip_item_to_user sample_session 1%N 10%N false.
Proof.
  assert (H : exists s' v, equip_item_to_user sample_session 1%N 10%N true = (s', Ok v)).
  { vm_compute. eexists. eexists. reflexivity. }
  destruct H as [s' [v Hv]]. exists s', v. split; [exact Hv|].
  split.
  - exact (proj2 (@equip_item_to_user_last_wins sample_session s' 1%N 10%N true true v Hv)).
  - exact (proj1 (@equip_item_to_user_last_wins sample_session s' 1%N 10%N true false v Hv)).
Defined.

Lemma update_user_password_view_witness :
  one (filter (id_is 1%N) (db_users sample_session)) = Ok alice /\
  snd (update_user_password sample_session 1%N "plain text") =
    get_user_by_id sample_session 1%N.
Proof.
  assert (H : one (filter (id_is 1%N) (db_users sample_session)) = Ok alice)
    by reflexivity.
  split; [exact H|].
  exact (proj1 (proj2 (@update_user_password_view sample_session 1%N "plain text")
                  alice H)).
Defined.

Lemma get_users_by_tribe_of_tribe_witness :
  (Z.of_nat (List.length (get_users_by_tribe sample_session VALHARS 0 5)) <= 5)%Z /\
  exists v,
    In v (get_users_by_tribe sample_session VALHARS (-3) (-1)) /\
    kwargs_get "tribe" (uv_fields v) = Some (VTribe (TribeMember VALHARS)).
Proof.
  split.
  - apply (proj1 (@get_users_by_tribe_of_tribe sample_session VALHARS 0 5)). lia.
  - assert (H : exists v, In v (get_users_by_tribe sample_session VALHARS (-3) (-1))).
    { vm_compute. eexists. left. reflexivity. }
    destruct H as [v Hv]. exists v. split; [exact Hv|].
    exact (proj1 (proj2 (@get_users_by_tribe_of_tribe sample_session VALHARS (-3) (-1))
                    v Hv)).
Defined.

Lemma get_users_complete_witness :
  List.length (select_join9 sample_session) <= 100 /\
  exists v,
    filter (view_is_for 1%N) (get_users sample_session 0 100) = [v] /\
    List.length (filter (fun e => N.eqb (ov_id e) 31%N) (uv_tasks v)) = 1.
Proof.
  assert (H : List.length (select_join9 sample_session) <= 100) by (vm_compute; lia).
  split; [exact H|].
  destruct (@get_users_complete sample_session 100 alice H (or_introl eq_refl))
    as [v [Hv [_ [Ht _]]]].
  exists v. split; [exact Hv|].
  apply (Ht (chore 31%N)); [right; left; reflexivity | reflexivity].
Defined.

Lemma get_users_sound_witness :
  exists v u,
    In v (get_users sample_session 0 1) /\ In u (db_users sample_session) /\
    uv_fields v = user_model_dump_exclude ["password"%string] u.
Proof.
  assert (H : exists v, In v (get_users sample_session 0 1)).
  { vm_compute. eexists. left. reflexivity. }
  destruct H as [v Hv].
  destruct (@get_users_sound sample_session 0 1 v Hv) as [u [Hu [Hf _]]].
  exists v, u. repeat split; assumption.
Defined.


Lemma fetch_keys_agree_witness :
  get_user_by_username sample_session "alice" = get_user_by_id sample_session 1%N.
Proof.
  apply (proj1 (@fetch_keys_agree sample_session alice (or_introl eq_refl))).
  simpl. intros x [<-|[<-|[]]]; split; intro H; try reflexivity; discriminate.
Defined.

Lemma update_user_outcome_witness :
  one (filter (id_is 1%N) (db_users sample_session)) = Ok alice /\
  exists v,
    update_user rename_update rename_refused sample_session 1%N (Some "alicia"%string) =
      Committed (store_user sample_session alice (rename_update alice (Some "alicia"%string)),
                 Ok v) /\
    view_username v = Some "alicia"%string.
Proof.
  assert (H : one (filter (id_is 1%N) (db_users sample_session)) = Ok alice)
    by reflexivity.
  split; [exact H|].
  destruct (proj2 (proj2 (@update_user_outcome (option string) rename_update rename_refused
                            sample_session 1%N (Some "alicia"%string)) alice H)
              eq_refl eq_refl)
    as [v [Hv [Hf _]]].
  exists v. split; [exact Hv|]. unfold view_username. now rewrite Hf.
Defined.

Lemma delete_user_outcome_witness :
  one (filter (id_is 2%N) (db_users sample_session)) = Ok bob /\
  exists s',
    delete_user never_refused delete_links sample_session 2%N = Committed (s', Ok tt) /\
    get_user_by_id s' 2%N = Raise (UserNotFoundError 2%N).
Proof.
  assert (H : one (filter (id_is 2%N) (db_users sample_session)) = Ok bob)
    by reflexivity.
  split; [exact H|].
  destruct (proj2 (proj2 (@delete_user_outcome never_refused delete_links
                            sample_session 2%N) bob H) eq_refl)
    as [s' [Hd [_ [Hg _]]]].
  exists s'. split; assumption.
Defined.

Lemma construct_user_view_row_for_row_witness :
  exists v,
    _construct_user_view sample_session (select_join5 sample_session (id_is 1%N)) = Ok v /\
    uv_items v = collect item_view_of_row (select_join5 sample_session (id_is 1%N)).
Proof.
  assert (H : exists v, _construct_user_view sample_session
                          (select_join5 sample_session (id_is 1%N)) = Ok v).
  { vm_compute. eexists. reflexivity. }
  destruct H as [v Hv]. exists v. split; [exact Hv|].
  exact (proj1 (@construct_user_view_row_for_row sample_session _ v Hv)).
Defined.

Lemma get_user_by_id_no_repeats_witness :
  exists v,
    get_user_by_id quiet_session 1%N = Ok v /\
    map iuv_id (uv_items v) = [10; 11]%N /\
    NoDup (map iuv_id (uv_items v)).
Proof.
  assert (H : exists v, get_user_by_id quiet_session 1%N = Ok v /\
                        map iuv_id (uv_items v) = [10; 11]%N).
  { vm_compute. eexists. split; reflexivity. }
  destruct H as [v [Hv Hids]]. exists v. split; [exact Hv|]. split; [exact Hids|].
  apply (proj1 (@get_user_by_id_no_repeats quiet_session 1%N v
                  ltac:(simpl; distinct) ltac:(simpl; distinct) ltac:(simpl; distinct)
                  ltac:(simpl; distinct) ltac:(simpl; distinct) Hv)).
  simpl. intros l [].
Defined.

(** ** What a change leaves alone *)

Lemma select_join5_by_users (s : Session) (cond : User -> bool) :
  select_join5 s cond = flat_map (join5_user s) (filter cond (db_users s)).
Proof.
  unfold select_join5. rewrite <- flat_map_filter.
  induction (db_users s) as [|x l IH]; simpl; [reflexivity|].
  now rewrite filter_app, IH, join5_user_rows_user.
Qed.

Lemma flat_map_ext_In {A B} (f g : A -> list B) (l : list A) :
  (forall a, In a l -> f a = g a) -> flat_map f l = flat_map g l.
Proof.
  intro H. induction l as [|a l IH]; simpl; [reflexivity|].
  rewrite (H a (or_introl eq_refl)), IH; [reflexivity|].
  intros b Hb. apply H. now right.
Qed.

Lemma links_of_other_user (s : Session) (uid iid : UUID) (b : bool) (x : User) :
  user_id x <> uid ->
  links_of (with_user_item_links s
              (map (fun l => if link_is uid iid l then with_equipped l b else l)
                   (db_user_item_links s))) x =
  links_of s x.
Proof.
  intro Hneq. unfold links_of. simpl db_user_item_links.
  rewrite filter_map_swap.
  rewrite (filter_ext _ (fun l => N.eqb (user_id x) (uil_user_id l))).
  2:{ intro l. now destruct (link_is uid iid l). }
  rewrite (map_ext_in _ (fun l => l)); [apply map_id|].
  intros l Hl. apply filter_In in Hl. destruct Hl as [_ Hl]. apply N.eqb_eq in Hl.
  destruct (link_is uid iid l) eqn:E; [|reflexivity].
  apply link_is_true in E. destruct E as [E _]. congruence.
Qed.

Lemma equip_item_to_user_session (s s' : Session) (uid iid : UUID) (b : bool)
    (r : result UserView) :
  equip_item_to_user s uid iid b = (s', r) ->
  s' = s \/
  s' = with_user_item_links s
         (map (fun l => if link_is uid iid l then with_equipped l b else l)
              (db_user_item_links s)).
Proof.
  unfold equip_item_to_user.
  destruct (filter (id_is uid) (db_users s)) as [|u [|u2 us]]; simpl;
    try (intro H; inversion H; now left).
  destruct (filter (link_is uid iid) (db_user_item_links s)) as [|l [|l2 ls]] eqn:El;
    simpl; try (intro H; inversion H; now left).
  intro H. inversion H. right. unfold store_equipped.
  pose proof (filter_singleton_In _ _ El) as [_ Hl].
  apply link_is_true in Hl. destruct Hl as [-> ->]. reflexivity.
Qed.

(** X14. Whatever [equip_item_to_user] does for [uid], fetching any other user
    afterwards gives what it gave before. *)
Theorem equip_item_to_user_other_users (s s' : Session) (uid iid : UUID) (b : bool)
    (r : result UserView) (other : UUID) :
  equip_item_to_user s uid iid b = (s', r) ->
  other <> uid ->
  get_user_by_id s' other = get_user_by_id s other.
Proof.
  intros H Hneq. apply equip_item_to_user_session in H.
  destruct H as [->| ->]; [reflexivity|].
  unfold get_user_by_id. rewrite !select_join5_by_users. simpl db_users.
  rewrite (flat_map_ext_In
             (join5_user (with_user_item_links s
                (map (fun l => if link_is uid iid l then with_equipped l b else l)
                     (db_user_item_links s))))
             (join5_user s)).
  - reflexivity.
  - intros x Hx. apply filter_In in Hx. destruct Hx as [_ Hx].
    unfold id_is in Hx. apply N.eqb_eq in Hx.
    unfold join5_user. rewrite links_of_other_user by congruence. reflexivity.
Qed.

Lemma select_join5_other_users (s : Session) (us l : list User) (uid other : UUID)
    (password : string) :
  other <> uid ->
  filter (fun r => id_is other (r5_user r))
    (flat_map (join5_user (with_users s us))
       (map (fun u => if id_is uid u then with_password u password else u) l)) =
  filter (fun r => id_is other (r5_user r)) (flat_map (join5_user s) l).
Proof.
  intro Hneq. induction l as [|x l IH]; [reflexivity|].
  cbn [map flat_map]. rewrite !filter_app, IH. f_equal.
  destruct (id_is uid x) eqn:E.
  - rewrite !join5_user_rows_user.
    replace (id_is other (with_password x password)) with false.
    + replace (id_is other x) with false; [reflexivity|].
      symmetry. unfold id_is in *. apply N.eqb_eq in E. apply N.eqb_neq. congruence.
    + symmetry. unfold id_is in *. apply N.eqb_eq in E. apply N.eqb_neq.
      simpl. congruence.
  - reflexivity.
Qed.

(** X16. [update_user_password] changes no view: after the call, fetching any id,
    that of the user included, gives what it gave before. *)
Theorem update_user_password_keeps_views (s : Session) (uid : UUID) (password : string)
    (other : UUID) :
  get_user_by_id (fst (update_user_password s uid password)) other =
  get_user_by_id s other.
Proof.
  unfold update_user_password.
  destruct (one (filter (id_is uid) (db_users s))) as [db_user|e] eqn:Hone.
  2:{ destruct e; reflexivity. }
  pose proof (one_Ok _ Hone) as Hf.
  pose proof (filter_singleton_In _ _ Hf) as [_ Hid].
  unfold id_is in Hid. apply N.eqb_eq in Hid.
  cbv zeta. simpl fst. unfold store_password. rewrite Hid.
  unfold get_user_by_id.
  destruct (N.eq_dec other uid) as [->|Hneq].
  - rewrite (select_join5_store_password s uid password).
    destruct (select_join5 s (id_is uid)) as [|r rs] eqn:E; [reflexivity|].
    rewrite <- (construct_user_view_ignores_password s
                  (map (fun u => if id_is uid u then with_password u password else u)
                       (db_users s)) password (r :: rs)).
    reflexivity.
  - unfold select_join5 at 1. simpl db_users.
    rewrite (select_join5_other_users s _ (db_users s) password Hneq).
    fold (select_join5 s (id_is other)). reflexivity.
Qed.

(** X24. Every initial stat lies between 1 and 10, whatever the tribe, and the
    stats of a created user are read back unchanged from the returned dict. *)
Theorem calculate_initial_stats_bounds (tribe : tribe_value) :
  map fst (calculate_initial_stats tribe) =
    ["intelligence"; "strength"; "agility"; "wise"; "psycho"]%string /\
  Forall (fun kv => (1 <= snd kv <= 10)%Z) (calculate_initial_stats tribe) /\
  map (fun name => stat name (calculate_initial_stats tribe))
      ["intelligence"; "strength"; "agility"; "wise"; "psycho"]%string =
    map snd (calculate_initial_stats tribe).
Proof.
  destruct tribe as [[]| |repr]; (split; [reflexivity|]); (split; [|reflexivity]);
    simpl; unfold stats; repeat constructor; simpl; lia.
Qed.

Lemma equip_item_to_user_other_users_witness :
  exists s' r,
    equip_item_to_user sample_session 1%N 10%N true = (s', r) /\
    get_user_by_id s' 2%N = get_user_by_id sample_session 2%N.
Proof.
  assert (H : exists s' r, equip_item_to_user sample_session 1%N 10%N true = (s', r)).
  { vm_compute. eexists. eexists. reflexivity. }
  destruct H as [s' [r Hr]]. exists s', r. split; [exact Hr|].
  apply (@equip_item_to_user_other_users sample_session s' 1%N 10%N true r 2%N Hr).
  discriminate.
Defined.

Lemma get_users_cuts_rows_witness :
  (0 <= 5)%Z /\
  (Z.of_nat (List.length (get_users_int_rows sample_session 1 5)) <= 5)%Z /\
  (Z.of_nat (List.length (get_users_int sample_session 1 5)) <= 5)%Z /\
  get_users_int_rows sample_session 1 (-1) =
    skipn (Z.to_nat 1) (order_by_username (select_join9 sample_session)).
Proof.
  assert (H : (0 <= 5)%Z) by lia.
  split; [exact H|].
  destruct (proj1 (proj2 get_users_cuts_rows) sample_session 1%Z 5%Z H) as [Hr Hv].
  split; [exact Hr|]. split; [exact Hv|].
  apply (proj1 (proj2 (proj2 get_users_cuts_rows)) sample_session 1%Z (-1)%Z). lia.
Defined.
